(** * PC-BASIC video memory codec: byte matrices and video modes

    A shallow embedding of [pcbasic/basic/base/bytematrix.py] and
    [pcbasic/basic/display/modes.py], with the properties of the packed
    byte grid and of the mode catalogue stated and proved against it.

    Python integers are modelled as [Z], a [bytearray] as a [list Z] whose
    construction checks the range 0..255, dictionaries as [gmap], and raised
    exceptions as the [Err] branch of [result]. *)

From Stdlib Require Import ZArith Lia.
From stdpp Require Import base numbers option list strings gmap fin_maps.

Open Scope string_scope.
Open Scope list_scope.
Open Scope Z_scope.

(** ** Python runtime fragments used by the two modules *)

Inductive basic_error := IFC.

Inductive exn :=
  | ValueError
  | IndexError
  | KeyError
  | TypeError
  | ZeroDivisionError
  | AssertionError
  | AttributeError
  | BASICError (code : basic_error).

Inductive result (A : Type) :=
  | Ok (a : A)
  | Err (e : exn).
Arguments Ok {A} a.
Arguments Err {A} e.

#[global] Instance result_ret : MRet result := λ A a, Ok a.
#[global] Instance result_bind : MBind result :=
  λ A B f r, match r with Ok a => f a | Err e => Err e end.
#[global] Instance result_fmap : FMap result :=
  λ A B f r, match r with Ok a => Ok (f a) | Err e => Err e end.

(** [len(l)] as a Python integer. *)
Definition len {A} (l : list A) : Z := Z.of_nat (length l).

(** [a // b]: floor division, [ZeroDivisionError] on a zero divisor. *)
Definition py_floordiv (a b : Z) : result Z :=
  if b =? 0 then Err ZeroDivisionError else Ok (a / b).

(** [a << n] and [a >> n]: a negative shift count raises [ValueError]. *)
Definition py_lshift (a n : Z) : result Z :=
  if n <? 0 then Err ValueError else Ok (Z.shiftl a n).

Definition py_rshift (a n : Z) : result Z :=
  if n <? 0 then Err ValueError else Ok (Z.shiftr a n).

(** [chr(i)] of Python 2: the one-byte string of code [i]; the byte is
    represented by its code. *)
Definition py_chr (i : Z) : result Z :=
  if (0 <=? i) && (i <? 256) then Ok i else Err ValueError.

(** Number of items of [range(start, stop, step)] for a non-zero step. *)
Definition range_len (start stop step : Z) : Z :=
  if 0 <? step then
    (if start <? stop then 1 + (stop - 1 - start) / step else 0)
  else
    (if stop <? start then 1 + (start - 1 - stop) / (- step) else 0).

(** [range(start, stop, step)], materialised. *)
Definition py_range (start stop step : Z) : result (list Z) :=
  if step =? 0 then Err ValueError
  else Ok ((λ i, start + i * step) <$> seqZ 0 (range_len start stop step)).

(** [l[i]] for an integer index: negative indices count from the end. *)
Definition getitem {A} (l : list A) (i : Z) : result A :=
  let j := if i <? 0 then i + len l else i in
  if (0 <=? j) && (j <? len l) then
    match l !! Z.to_nat j with
    | Some a => Ok a
    | None => Err IndexError
    end
  else Err IndexError.

(** A slice object [start:stop:step]; [None] is an omitted component. *)
Record slice := Slice {
  slice_start : option Z;
  slice_stop : option Z;
  slice_step : option Z
}.

(** [lo:hi] *)
Definition slice_of (lo hi : Z) : slice := Slice (Some lo) (Some hi) None.

(** Clipping of one slice bound against a sequence of length [n]. *)
Definition adjust_bound (n step : Z) (b : Z) : Z :=
  if b <? 0 then
    (if b + n <? 0 then (if step <? 0 then -1 else 0) else b + n)
  else if n <=? b then (if step <? 0 then n - 1 else n)
  else b.

(** [slice.indices(n)] together with the number of selected items. *)
Definition slice_indices (s : slice) (n : Z) : result (Z * Z * Z) :=
  let step := default 1 (slice_step s) in
  if step =? 0 then Err ValueError
  else
    let start :=
      match slice_start s with
      | Some b => adjust_bound n step b
      | None => if step <? 0 then n - 1 else 0
      end in
    let stop :=
      match slice_stop s with
      | Some b => adjust_bound n step b
      | None => if step <? 0 then -1 else n
      end in
    let count :=
      if step <? 0 then
        (if stop <? start then (start - stop - 1) / (- step) + 1 else 0)
      else
        (if start <? stop then (stop - start - 1) / step + 1 else 0) in
    Ok (start, step, count).

(** [l[s]] for a slice [s]. *)
Definition getslice {A} (l : list A) (s : slice) : result (list A) :=
  '(start, step, count) ← slice_indices s (len l);
  mret (omap (λ i, l !! Z.to_nat (start + i * step)) (seqZ 0 count)).

(** [l * n] for a list [l]. *)
Definition list_times {A} (l : list A) (n : Z) : list A :=
  concat (replicate (Z.to_nat n) l).

(** [sum(l)] *)
Definition py_sum (l : list Z) : Z := foldr Z.add 0 l.

(** [zip] applied to the unpacked list [ls]: tuples up to the shortest
    argument; no argument, no tuple. *)
Fixpoint zip_star {A} (ls : list (list A)) : list (list A) :=
  match ls with
  | [] => []
  | l :: ls' =>
      match ls' with
      | [] => (λ a, [a]) <$> l
      | _ :: _ => zip_with cons l (zip_star ls')
      end
  end.

(** ** bytematrix.py *)

(** [bytearray(ints)]: every item must be in [range(256)]. *)
Definition bytearray_new (l : list Z) : result (list Z) :=
  if forallb (λ b, (0 <=? b) && (b <? 256)) l then Ok l else Err ValueError.

(** [row.replace(old, new)] for one-byte [old] and [new]. *)
Definition bytearray_replace (old new : Z) (row : list Z) : list Z :=
  (λ b, if b =? old then new else b) <$> row.

Definition unpack_bytes (packed : list Z) (items_per_byte : Z) : result (list Z) :=
  bpp ← py_floordiv 8 items_per_byte;
  m ← py_lshift 1 bpp;
  let mask := m - 1 in
  r ← py_range 0 8 bpp;
  let shifts := (λ sh, 8 - bpp - sh) <$> r in
  items ← mapM (λ byte,
             mapM (λ shift, v ← py_rshift byte shift; mret (Z.land v mask)) shifts)
           packed;
  bytearray_new (concat items).

Definition pack_bytes (unpacked : list Z) (items_per_byte : Z) : result (list Z) :=
  bpp ← py_floordiv 8 items_per_byte;
  m ← py_lshift 1 bpp;
  let mask := m - 1 in
  r ← py_range 0 8 bpp;
  let shifts := (λ sh, 8 - bpp - sh) <$> r in
  packed_width ← py_floordiv (len unpacked) items_per_byte;
  prepacked ← mapM (λ '(byte, shift), py_lshift (Z.land byte mask) shift)
                 (zip unpacked (list_times shifts packed_width));
  offs ← py_range 0 (len prepacked) items_per_byte;
  sums ← mapM (λ o, py_sum <$> getslice prepacked (slice_of o (o + items_per_byte))) offs;
  bytearray_new sums.

(** The instance attributes of a [ByteMatrix].  [ByteMatrix()] with neither
    width nor height sets no [_rows] attribute at all. *)
Record ByteMatrix := mkByteMatrix {
  _width : Z;
  _height : Z;
  _rows : option (list (list Z))
}.

(** Reading [self._rows]. *)
Definition get_rows (self : ByteMatrix) : result (list (list Z)) :=
  match _rows self with
  | Some rs => Ok rs
  | None => Err AttributeError
  end.

Definition _create_from_rows (data : list (list Z)) : result ByteMatrix :=
  first ← getitem data 0;
  let new := mkByteMatrix (len first) (len data) (Some data) in
  if Nat.eqb (length (remove_dups (length <$> data))) 1 then Ok new
  else Err AssertionError.

(** One component of an [[x, y]] index. *)
Inductive index :=
  | Idx (i : Z)
  | Slc (s : slice).

(** What [__getitem__] returns: a byte or a new matrix. *)
Inductive item :=
  | Byte (b : Z)
  | Matrix (m : ByteMatrix).

Definition __getitem__ (self : ByteMatrix) (x y : index) : result item :=
  match y, x with
  | Slc sy, Slc sx =>
      rows ← get_rows self;
      sel ← getslice rows sy;
      data ← mapM (λ row, getslice row sx) sel;
      Matrix <$> _create_from_rows data
  | Slc sy, Idx ix =>
      rows ← get_rows self;
      sel ← getslice rows sy;
      data ← mapM (λ row, b ← getitem row ix; bytearray_new [b]) sel;
      Matrix <$> _create_from_rows data
  | Idx iy, Slc sx =>
      rows ← get_rows self;
      row ← getitem rows iy;
      r ← getslice row sx;
      Matrix <$> _create_from_rows [r]
  | Idx iy, Idx ix =>
      rows ← get_rows self;
      row ← getitem rows iy;
      Byte <$> getitem row ix
  end.

Definition frompacked (packed : list Z) (height items_per_byte : Z) : result ByteMatrix :=
  width ← py_floordiv (items_per_byte * len packed) height;
  unpacked ← unpack_bytes packed items_per_byte;
  offs ← py_range 0 (len unpacked) width;
  data ← mapM (λ o, getslice unpacked (slice_of o (o + width))) offs;
  _create_from_rows data.

Definition packed (self : ByteMatrix) (items_per_byte : Z) : result (list Z) :=
  rows ← get_rows self;
  pack_bytes (concat rows) items_per_byte.

Definition render (self : ByteMatrix) (back fore : Z) : result ByteMatrix :=
  rows ← get_rows self;
  data ← mapM (λ row,
            b ← py_chr back;
            let row1 := bytearray_replace 0 b row in
            f ← py_chr fore;
            mret (bytearray_replace 1 f row1)) rows;
  _create_from_rows data.

Definition hstack (matrices : list ByteMatrix) : result ByteMatrix :=
  rowss ← mapM (M:=result) get_rows matrices;
  _create_from_rows (map (@concat Z) (zip_star rowss)).

Definition vstack (matrices : list ByteMatrix) : result ByteMatrix :=
  rowss ← mapM (M:=result) get_rows matrices;
  _create_from_rows (concat rowss).

(** A matrix satisfying the class invariant: [_height] rows of [_width]
    bytes each. *)
Definition is_byte (b : Z) : Prop := 0 ≤ b < 256.

Definition well_formed (g : ByteMatrix) : Prop :=
  ∃ rs, _rows g = Some rs ∧ _height g = len rs ∧
        Forall (λ r, len r = _width g ∧ Forall is_byte r) rs.

(** ** Python dictionaries and objects of modes.py *)

(** [d[k]] on a dictionary: [KeyError] when the key is absent. *)
Definition dict_get {K V} `{Countable K} (d : gmap K V) (k : K) : result V :=
  match d !! k with
  | Some v => Ok v
  | None => Err KeyError
  end.

(** [d.pop(k)]: the value and the dictionary without the key. *)
Definition dict_pop {K V} `{Countable K} (d : gmap K V) (k : K) : result (V * gmap K V) :=
  match d !! k with
  | Some v => Ok (v, delete k d)
  | None => Err KeyError
  end.

(** [d.update(other)]: the entries of [other] win. *)
Definition dict_update {K V} `{Countable K} (d other : gmap K V) : gmap K V :=
  other ∪ d.

(** A dictionary built from key-value pairs in order: later pairs win. *)
Definition dict_of {K V} `{Countable K} (kvs : list (K * V)) : gmap K V :=
  foldl (λ d kv, <[kv.1 := kv.2]> d) ∅ kvs.

(** [try: r except KeyError: handler] *)
Definition except_KeyError {A} (r handler : result A) : result A :=
  match r with
  | Err KeyError => handler
  | _ => r
  end.

(** Keys of the per-adapter screen-mode tables: a mode number or the
    tuple [(0, width)]. *)
Inductive mode_key :=
  | KNum (n : Z)
  | KPair (a b : Z).

#[global] Instance mode_key_eq_dec : EqDecision mode_key.
Proof. solve_decision. Defined.

#[global] Instance mode_key_countable : Countable mode_key.
Proof.
  refine (inj_countable'
    (λ k, match k with KNum n => inl n | KPair a b => inr (a, b) end)
    (λ s, match s with inl n => KNum n | inr (a, b) => KPair a b end) _).
  by intros [].
Defined.

(** Keys of the width-switch tables: a mode number or a mode name. *)
Inductive width_key :=
  | WNum (n : Z)
  | WName (s : string).

#[global] Instance width_key_eq_dec : EqDecision width_key.
Proof. solve_decision. Defined.

#[global] Instance width_key_countable : Countable width_key.
Proof.
  refine (inj_countable'
    (λ k, match k with WNum n => inl n | WName s => inr s end)
    (λ s, match s with inl n => WNum n | inr s => WName s end) _).
  by intros [].
Defined.

(** The classes named as [layout] in the mode definitions. *)
Inductive layout := TextMode | CGAMode | EGAMode | Tandy6Mode.

(** The colour mapper classes imported from [colours]. *)
Inductive colourmap_class :=
  | CGA2ColourMapper | CGA4ColourMapper | CGA16ColourMapper
  | EGA16ColourMapper | EGA64ColourMapper
  | EGA16TextColourMapper | EGA64TextColourMapper
  | MonoTextColourMapper | EGAMonoColourMapper | HerculesColourMapper.

(** The memory mapper and builder classes imported from [framebuffer]. *)
Inductive mapper_class :=
  | TextMemoryMapper | CGAMemoryMapper | EGAMemoryMapper | Tandy6MemoryMapper.

Inductive builder_class :=
  | PackedTileBuilder | PlanedTileBuilder
  | PackedSpriteBuilder | PlanedSpriteBuilder.

(** Values stored in the mode definition dictionaries. *)
Inductive pyval :=
  | VInt (n : Z)
  | VBool (b : bool)
  | VNone
  | VTuple (l : list Z)
  | VLayout (c : layout)
  | VColourmap (c : colourmap_class).

(** An operand of integer arithmetic. *)
Definition as_int (v : pyval) : result Z :=
  match v with
  | VInt n => Ok n
  | VBool b => Ok (Z.b2z b)
  | _ => Err TypeError
  end.

(** Modelled from the spec: the colour mapper of [colours.py], which is
    constructed from [(adapter, monitor)]; the object is represented by its
    class and constructor arguments. *)
Record ColourMapper := mkColourMapper {
  cm_class : colourmap_class;
  cm_adapter : string;
  cm_monitor : string
}.

(** Modelled from the spec: the memory mappers of [framebuffer.py], which
    are configured from the dimensions, memory size, page count, interleave
    factor, bank size and bit depth they are constructed with; the object
    is represented by its class and those arguments. *)
Inductive MemoryMapper :=
  | TextMapper (rows columns video_mem_size : Z) (max_pages mono : pyval)
  | GraphicsMapper (c : mapper_class) (height width video_mem_size : Z)
      (max_pages interleave_times bank_size bitsperpixel : pyval)
      (planes_used : option (list Z)).

Definition mapper_max_pages (m : MemoryMapper) : pyval :=
  match m with
  | TextMapper _ _ _ max_pages _ => max_pages
  | GraphicsMapper _ _ _ _ max_pages _ _ _ _ => max_pages
  end.

(** [memorymap.set_planes_used(planes)] *)
Definition set_planes_used (m : MemoryMapper) (planes : list Z) : MemoryMapper :=
  match m with
  | GraphicsMapper c h w v p i b bpp _ => GraphicsMapper c h w v p i b bpp (Some planes)
  | TextMapper _ _ _ _ _ => m
  end.

(** Modelled from the spec: tile and sprite builders of [framebuffer.py],
    constructed from the bit depth. *)
Record Builder := mkBuilder {
  builder_cls : builder_class;
  builder_bits : pyval
}.

(** The attributes a [GraphicsMode] adds to a [VideoMode]. *)
Record GraphicsAttrs := mkGraphicsAttrs {
  bitsperpixel : pyval;
  cursor_index : pyval;
  build_tile : Builder;
  sprite_builder : Builder
}.

(** A video mode object: its class and instance attributes.  [None] in
    [is_text_mode] and [memorymap] is Python's [None], which the base class
    stores there until a subclass overrides it. *)
Record VideoMode := mkVideoMode {
  mode_class : layout;
  name : string;
  height : Z;
  width : Z;
  font_height : Z;
  font_width : Z;
  pixel_height : Z;
  pixel_width : Z;
  attr : pyval;
  is_text_mode : option bool;
  memorymap : option MemoryMapper;
  colourmap : ColourMapper;
  graphics : option GraphicsAttrs
}.

(** Class attributes [_memorymapper], [_tile_builder], [_sprite_builder]. *)
Definition _memorymapper (c : layout) : mapper_class :=
  match c with
  | TextMode => TextMemoryMapper
  | CGAMode => CGAMemoryMapper
  | EGAMode => EGAMemoryMapper
  | Tandy6Mode => Tandy6MemoryMapper
  end.

Definition _tile_builder (c : layout) : builder_class :=
  match c with
  | EGAMode => PlanedTileBuilder
  | _ => PackedTileBuilder
  end.

Definition _sprite_builder (c : layout) : builder_class :=
  match c with
  | CGAMode => PackedSpriteBuilder
  | _ => PlanedSpriteBuilder
  end.

(** ** modes.py: tables *)

Definition _MODES : gmap string (gmap mode_key string) :=
  let literal : gmap string (gmap mode_key string) := dict_of [
    ("cga", dict_of [
      (KPair 0 40, "cgatext40"); (KPair 0 80, "cgatext80");
      (KNum 1, "320x200x4"); (KNum 2, "640x200x2")]);
    ("ega", dict_of [
      (KPair 0 40, "egatext40"); (KPair 0 80, "egatext80");
      (KNum 1, "320x200x4"); (KNum 2, "640x200x2");
      (KNum 7, "320x200x16"); (KNum 8, "640x200x16"); (KNum 9, "640x350x16")]);
    ("vga", dict_of [
      (KPair 0 40, "vgatext40"); (KPair 0 80, "vgatext80");
      (KNum 1, "320x200x4"); (KNum 2, "640x200x2");
      (KNum 7, "320x200x16"); (KNum 8, "640x200x16"); (KNum 9, "640x350x16")]);
    ("mda", dict_of [
      (KPair 0 40, "mdatext40"); (KPair 0 80, "mdatext80")]);
    ("ega_mono", dict_of [
      (KPair 0 40, "ega_monotext40"); (KPair 0 80, "ega_monotext80");
      (KNum 10, "640x350x4")]);
    ("hercules", dict_of [
      (KPair 0 40, "mdatext40"); (KPair 0 80, "mdatext80");
      (KNum 3, "720x348x2")]);
    ("tandy", dict_of [
      (KPair 0 40, "tandytext40"); (KPair 0 80, "tandytext80");
      (KNum 1, "320x200x4_8pg"); (KNum 2, "640x200x2_8pg");
      (KNum 3, "160x200x16"); (KNum 4, "320x200x4pcjr");
      (KNum 5, "320x200x16pcjr"); (KNum 6, "640x200x4")]);
    ("pcjr", dict_of [
      (KPair 0 40, "cgatext40"); (KPair 0 80, "cgatext80");
      (KNum 1, "320x200x4_8pg"); (KNum 2, "640x200x2_8pg");
      (KNum 3, "160x200x16"); (KNum 4, "320x200x4pcjr");
      (KNum 5, "320x200x16pcjr"); (KNum 6, "640x200x4")]);
    ("olivetti", dict_of [
      (KPair 0 40, "olivettitext40"); (KPair 0 80, "olivettitext80");
      (KNum 1, "320x200x4"); (KNum 2, "640x200x2"); (KNum 3, "640x400x2")])
  ] in
  (* on Olivetti M24, all numbers 3-255 give the same mode *)
  alter (λ t, dict_update t (dict_of ((λ m, (KNum m, "640x400x2")) <$> seqZ 4 252)))
        "olivetti" literal.

(** The table [TO_WIDTH] as first written: [{x: {w: y}}] per adapter. *)
Definition TO_WIDTH_literal : gmap string (gmap width_key (gmap Z Z)) :=
  dict_of [
    ("cga", dict_of [
      (WNum 0, dict_of [(40, 0); (80, 0)]);
      (WNum 1, dict_of [(40, 1); (80, 2)]);
      (WNum 2, dict_of [(40, 1); (80, 2)])]);
    ("ega", dict_of [
      (WNum 0, dict_of [(40, 0); (80, 0)]);
      (WNum 1, dict_of [(40, 1); (80, 2)]);
      (WNum 2, dict_of [(40, 1); (80, 2)]);
      (WNum 7, dict_of [(40, 7); (80, 8)]);
      (WNum 8, dict_of [(40, 7); (80, 8)]);
      (WNum 9, dict_of [(40, 1); (80, 9)])]);
    ("mda", dict_of [
      (WNum 0, dict_of [(40, 0); (80, 0)])]);
    ("ega_mono", dict_of [
      (WNum 0, dict_of [(40, 0); (80, 0)]);
      (WNum 10, dict_of [(40, 0); (80, 10)])]);
    ("hercules", dict_of [
      (WNum 0, dict_of [(40, 0); (80, 0)]);
      (WNum 3, dict_of [(40, 0); (80, 3)])]);
    ("pcjr", dict_of [
      (WNum 0, dict_of [(20, 3); (40, 0); (80, 0)]);
      (WNum 1, dict_of [(20, 3); (40, 1); (80, 2)]);
      (WNum 2, dict_of [(20, 3); (40, 1); (80, 2)]);
      (WNum 3, dict_of [(20, 3); (40, 1); (80, 2)]);
      (WNum 4, dict_of [(20, 3); (40, 4); (80, 2)]);
      (WNum 5, dict_of [(20, 3); (40, 5); (80, 6)]);
      (WNum 6, dict_of [(20, 3); (40, 5); (80, 6)])]);
    ("olivetti", dict_of [
      (WNum 0, dict_of [(40, 0); (80, 0)]);
      (WNum 1, dict_of [(40, 1); (80, 2)]);
      (WNum 2, dict_of [(40, 1); (80, 2)]);
      (WNum 3, dict_of [(40, 1); (80, 3)])])
  ].

(** Truth value of a key in [if _nr]. *)
Definition key_truth (k : width_key) : bool :=
  match k with
  | WNum n => negb (n =? 0)
  | WName s => negb (String.eqb s "")
  end.

(** [{_MODES[_adapter][_nr]: _switches for _nr, _switches in
    TO_WIDTH[_adapter].items() if _nr}] *)
Definition name_entries (adapter : string) (t : gmap width_key (gmap Z Z))
  : result (gmap width_key (gmap Z Z)) :=
  kvs ← mapM (λ '(nr, switches),
           modes ← dict_get _MODES adapter;
           mode_name ← match nr with
                       | WNum n => dict_get modes (KNum n)
                       | WName _ => Err KeyError
                       end;
           mret (WName mode_name, switches))
         (filter (λ kv, key_truth kv.1 = true) (map_to_list t));
  mret (dict_of kvs).

(** The loop [for _adapter in TO_WIDTH: TO_WIDTH[_adapter].update(...)]
    followed by the two assignments for 'vga' and 'tandy'. *)
Definition TO_WIDTH_init : result (gmap string (gmap width_key (gmap Z Z))) :=
  updated ← mapM (λ '(adapter, t),
               extra ← name_entries adapter t;
               mret (adapter, dict_update t extra))
             (map_to_list TO_WIDTH_literal);
  let t1 : gmap string (gmap width_key (gmap Z Z)) := dict_of updated in
  ega ← dict_get t1 "ega";
  let t2 := <["vga" := ega]> t1 in
  pcjr ← dict_get t2 "pcjr";
  mret (<["tandy" := pcjr]> t2).

Definition TO_WIDTH : gmap string (gmap width_key (gmap Z Z)) :=
  match TO_WIDTH_init with
  | Ok t => t
  | Err _ => ∅
  end.

(** The lookup [TO_WIDTH[adapter][mode][width]] made by a WIDTH change. *)
Definition to_width (adapter : string) (mode : width_key) (columns : Z) : result Z :=
  t ← dict_get TO_WIDTH adapter;
  switches ← dict_get t mode;
  dict_get switches columns.

Definition _MODE_NUMBER : gmap string Z :=
  dict_of [
    ("640x200x2", 6); ("160x200x16", 8); ("320x200x16pcjr", 9);
    ("640x200x4", 10); ("320x200x16", 13); ("640x200x16", 14);
    ("640x350x4", 15); ("640x350x16", 16); ("640x400x2", 0x40);
    ("320x200x4pcjr", 4); ("320x200x4", 4)
  ].

(** ** modes.py: mode definitions

    The values of [_GRAPHICS_MODES] are dictionary objects, and two names
    may be bound to one object.  The objects live in a store indexed by
    address; the table maps a mode name to the address of its dictionary. *)

Record globals := mkGlobals {
  store : list (gmap string pyval);
  graphics_modes : gmap string nat
}.

(** Statements of the module body: state passing with exceptions. *)
Definition stmt (A : Type) : Type := globals → result (A * globals).

#[global] Instance stmt_ret : MRet stmt := λ A a g, Ok (a, g).
#[global] Instance stmt_bind : MBind stmt :=
  λ A B f m g, match m g with Ok (a, g') => f a g' | Err e => Err e end.

(** Evaluating a [dict(...)] display: a fresh object. *)
Definition new_dict (d : gmap string pyval) : stmt nat :=
  λ g, Ok (length (store g), mkGlobals (store g ++ [d]) (graphics_modes g)).

(** [_GRAPHICS_MODES[key]] as an expression: the object bound to [key]. *)
Definition graphics_modes_get (key : string) : stmt nat :=
  λ g, match graphics_modes g !! key with
       | Some a => Ok (a, g)
       | None => Err KeyError
       end.

(** [_GRAPHICS_MODES[key] = obj] *)
Definition graphics_modes_set (key : string) (obj : nat) : stmt unit :=
  λ g, Ok ((), mkGlobals (store g) (<[key := obj]> (graphics_modes g))).

(** [obj[key] = v] on a dictionary object: mutation in place. *)
Definition dict_setitem (obj : nat) (key : string) (v : pyval) : stmt unit :=
  λ g, match store g !! obj with
       | Some d => Ok ((), mkGlobals (<[obj := <[key := v]> d]> (store g)) (graphics_modes g))
       | None => Err TypeError
       end.

(** Executing statements in sequence. *)
Fixpoint exec (body : list (stmt unit)) : stmt unit :=
  match body with
  | [] => mret ()
  | s :: rest => _ ← s; exec rest
  end.

(** One entry [key: dict(...)] of the display of [_GRAPHICS_MODES]. *)
Definition entry (key : string) (kwargs : list (string * pyval)) : stmt unit :=
  obj ← new_dict (dict_of kwargs);
  graphics_modes_set key obj.

Definition graphics_modes_body : list (stmt unit) := [
  entry "320x200x4" [
    ("width", VInt 320); ("height", VInt 200); ("rows", VInt 25); ("columns", VInt 40);
    ("attr", VInt 3); ("bitsperpixel", VInt 2); ("interleave_times", VInt 2);
    ("bank_size", VInt 0x2000); ("max_pages", VInt 1); ("cursor_index", VNone);
    ("layout", VLayout CGAMode); ("colourmap", VColourmap CGA4ColourMapper)];
  entry "640x200x2" [
    ("width", VInt 640); ("height", VInt 200); ("rows", VInt 25); ("columns", VInt 80);
    ("attr", VInt 1); ("bitsperpixel", VInt 1); ("interleave_times", VInt 2);
    ("bank_size", VInt 0x2000); ("max_pages", VInt 1); ("cursor_index", VNone);
    ("layout", VLayout CGAMode); ("colourmap", VColourmap CGA2ColourMapper)];
  entry "160x200x16" [
    ("width", VInt 160); ("height", VInt 200); ("rows", VInt 25); ("columns", VInt 20);
    ("attr", VInt 15); ("bitsperpixel", VInt 4); ("interleave_times", VInt 2);
    ("bank_size", VInt 0x2000); ("max_pages", VInt 8); ("cursor_index", VInt 3);
    ("layout", VLayout CGAMode); ("colourmap", VColourmap CGA16ColourMapper)];
  entry "320x200x4pcjr" [
    ("width", VInt 320); ("height", VInt 200); ("rows", VInt 25); ("columns", VInt 40);
    ("attr", VInt 3); ("bitsperpixel", VInt 2); ("interleave_times", VInt 2);
    ("bank_size", VInt 0x2000); ("max_pages", VInt 8); ("cursor_index", VInt 3);
    ("layout", VLayout CGAMode); ("colourmap", VColourmap CGA4ColourMapper)];
  entry "320x200x16pcjr" [
    ("width", VInt 320); ("height", VInt 200); ("rows", VInt 25); ("columns", VInt 40);
    ("attr", VInt 15); ("bitsperpixel", VInt 4); ("interleave_times", VInt 4);
    ("bank_size", VInt 0x2000); ("max_pages", VInt 4); ("cursor_index", VInt 3);
    ("layout", VLayout CGAMode); ("colourmap", VColourmap CGA16ColourMapper)];
  entry "640x200x4" [
    ("width", VInt 640); ("height", VInt 200); ("rows", VInt 25); ("columns", VInt 80);
    ("attr", VInt 3); ("bitsperpixel", VInt 2); ("interleave_times", VInt 4);
    ("bank_size", VInt 0x2000); ("max_pages", VInt 4); ("cursor_index", VInt 3);
    ("layout", VLayout Tandy6Mode); ("colourmap", VColourmap CGA4ColourMapper)];
  entry "320x200x16" [
    ("width", VInt 320); ("height", VInt 200); ("rows", VInt 25); ("columns", VInt 40);
    ("attr", VInt 15); ("bitsperpixel", VInt 4); ("interleave_times", VInt 1);
    ("bank_size", VInt 0x2000); ("max_pages", VNone); ("cursor_index", VNone);
    ("layout", VLayout EGAMode); ("colourmap", VColourmap EGA16ColourMapper)];
  entry "640x200x16" [
    ("width", VInt 640); ("height", VInt 200); ("rows", VInt 25); ("columns", VInt 80);
    ("attr", VInt 15); ("bitsperpixel", VInt 4); ("interleave_times", VInt 1);
    ("bank_size", VInt 0x4000); ("max_pages", VNone); ("cursor_index", VNone);
    ("layout", VLayout EGAMode); ("colourmap", VColourmap EGA16ColourMapper)];
  entry "640x350x16" [
    ("width", VInt 640); ("height", VInt 350); ("rows", VInt 25); ("columns", VInt 80);
    ("attr", VInt 15); ("bitsperpixel", VInt 4); ("interleave_times", VInt 1);
    ("bank_size", VInt 0x8000); ("max_pages", VNone); ("cursor_index", VNone);
    ("layout", VLayout EGAMode); ("colourmap", VColourmap EGA64ColourMapper)];
  entry "640x350x4" [
    ("width", VInt 640); ("height", VInt 350); ("rows", VInt 25); ("columns", VInt 80);
    ("attr", VInt 1); ("bitsperpixel", VInt 2); ("interleave_times", VInt 1);
    ("bank_size", VInt 0x8000); ("max_pages", VNone); ("cursor_index", VNone);
    ("planes_used", VTuple [1; 3]);
    ("layout", VLayout EGAMode); ("colourmap", VColourmap EGAMonoColourMapper)];
  entry "640x400x2" [
    ("width", VInt 640); ("height", VInt 400); ("rows", VInt 25); ("columns", VInt 80);
    ("attr", VInt 1); ("bitsperpixel", VInt 1); ("interleave_times", VInt 4);
    ("bank_size", VInt 0x2000); ("max_pages", VInt 1); ("cursor_index", VNone);
    ("layout", VLayout CGAMode); ("colourmap", VColourmap CGA2ColourMapper)];
  entry "720x348x2" [
    ("width", VInt 720); ("height", VInt 348); ("rows", VInt 25); ("columns", VInt 80);
    ("attr", VInt 1); ("bitsperpixel", VInt 1); ("interleave_times", VInt 4);
    ("bank_size", VInt 0x2000); ("max_pages", VInt 2); ("cursor_index", VNone);
    ("layout", VLayout CGAMode); ("colourmap", VColourmap HerculesColourMapper)];
  (* tandy/pcjr 8-page versions of standard CGA modes (?) *)
  (obj ← graphics_modes_get "320x200x4"; graphics_modes_set "320x200x4_8pg" obj);
  (obj ← graphics_modes_get "640x200x2"; graphics_modes_set "640x200x2_8pg" obj);
  (obj ← graphics_modes_get "320x200x4_8pg"; dict_setitem obj "max_pages" (VInt 8));
  (obj ← graphics_modes_get "640x200x2_8pg"; dict_setitem obj "max_pages" (VInt 8))
].

(** The module globals once the body has run. *)
Definition module_init : result (unit * globals) :=
  exec graphics_modes_body (mkGlobals [] ∅).

Definition loaded : globals :=
  match module_init with
  | Ok (_, g) => g
  | Err _ => mkGlobals [] ∅
  end.

(** [_GRAPHICS_MODES[key]] read after initialisation: the dictionary
    object currently bound to [key]. *)
Definition _GRAPHICS_MODES (key : string) : result (gmap string pyval) :=
  obj ← dict_get (graphics_modes loaded) key;
  match store loaded !! obj with
  | Some d => Ok d
  | None => Err TypeError
  end.

Definition text_mode (rows columns font_height font_width attr max_pages : Z)
    (mono : bool) (cm : colourmap_class) : gmap string pyval :=
  dict_of [
    ("rows", VInt rows); ("columns", VInt columns);
    ("font_height", VInt font_height); ("font_width", VInt font_width);
    ("attr", VInt attr); ("max_pages", VInt max_pages); ("mono", VBool mono);
    ("layout", VLayout TextMode); ("colourmap", VColourmap cm)].

Definition _TEXT_MODES : gmap string (gmap string pyval) :=
  dict_of [
    ("vgatext40", text_mode 25 40 16 9 7 8 false EGA64TextColourMapper);
    ("vgatext80", text_mode 25 80 16 9 7 4 false EGA64TextColourMapper);
    ("egatext40", text_mode 25 40 14 8 7 8 false EGA64TextColourMapper);
    ("egatext80", text_mode 25 80 14 8 7 4 false EGA64TextColourMapper);
    ("ega_monotext40", text_mode 25 40 14 8 7 8 true MonoTextColourMapper);
    ("ega_monotext80", text_mode 25 80 14 8 7 4 true MonoTextColourMapper);
    ("mdatext40", text_mode 25 40 14 9 7 1 true MonoTextColourMapper);
    ("mdatext80", text_mode 25 80 14 9 7 1 true MonoTextColourMapper);
    ("tandytext40", text_mode 25 40 9 8 7 8 false EGA16TextColourMapper);
    ("tandytext80", text_mode 25 80 9 8 7 4 false EGA16TextColourMapper);
    ("cgatext40", text_mode 25 40 8 8 7 8 false EGA16TextColourMapper);
    ("cgatext80", text_mode 25 80 8 8 7 4 false EGA16TextColourMapper);
    ("olivettitext40", text_mode 25 40 16 8 7 8 false EGA16ColourMapper);
    ("olivettitext80", text_mode 25 80 16 8 7 4 false EGA16ColourMapper)
  ].

(** ** modes.py: mode classes *)

(** Binding of [**kwargs] to the keyword parameters of a constructor:
    [TypeError] on a missing or an unexpected keyword. *)
Definition bind_kwargs (required optional : list string)
    (kwargs : gmap string pyval) : result unit :=
  if forallb (λ k, match kwargs !! k with Some _ => true | None => false end) required
     && forallb (λ kv, existsb (String.eqb kv.1) (required ++ optional))
                (map_to_list kwargs)
  then Ok () else Err TypeError.

(** The value bound to parameter [k]. *)
Definition kwarg (kwargs : gmap string pyval) (k : string) : result pyval :=
  match kwargs !! k with
  | Some v => Ok v
  | None => Err TypeError
  end.

(** [VideoMode.__init__] *)
Definition VideoMode_init (cls : layout) (name' : string)
    (height' width' font_height' font_width' : Z) (attr' : pyval)
    (colourmap' : ColourMapper) : VideoMode :=
  {| mode_class := cls;
     name := name';
     height := height';
     width := width';
     font_height := font_height';
     font_width := font_width';
     pixel_height := height' * font_height';
     pixel_width := width' * font_width';
     attr := attr';
     (* override these *)
     is_text_mode := None;
     memorymap := None;
     colourmap := colourmap';
     graphics := None |}.

(** [TextMode.__init__] called with [name], [video_mem_size], [colourmap]
    and the keywords of a mode definition.  Parameters that share their
    name with an attribute carry a prime. *)
Definition TextMode_init (cls : layout) (name' : string) (video_mem_size : Z)
    (colourmap' : ColourMapper) (kwargs : gmap string pyval) : result VideoMode :=
  _ ← bind_kwargs ["rows"; "columns"; "font_height"; "font_width"; "attr";
                   "max_pages"; "mono"] [] kwargs;
  rows ← kwarg kwargs "rows" ≫= as_int;
  columns ← kwarg kwargs "columns" ≫= as_int;
  font_height' ← kwarg kwargs "font_height" ≫= as_int;
  font_width' ← kwarg kwargs "font_width" ≫= as_int;
  attr' ← kwarg kwargs "attr";
  max_pages ← kwarg kwargs "max_pages";
  mono ← kwarg kwargs "mono";
  let self :=
    VideoMode_init cls name' rows columns font_height' font_width' attr' colourmap' in
  mret {| mode_class := mode_class self; name := name self; height := height self;
          width := width self; font_height := font_height self;
          font_width := font_width self;
          pixel_height := pixel_height self; pixel_width := pixel_width self;
          attr := attr self;
          is_text_mode := Some true;
          memorymap := Some (TextMapper rows columns video_mem_size max_pages mono);
          colourmap := colourmap self;
          graphics := None |}.

(** [GraphicsMode.__init__]; [cls] is the class being instantiated, which
    selects the memory mapper and the builders. *)
Definition GraphicsMode_init (cls : layout) (name' : string) (video_mem_size : Z)
    (colourmap' : ColourMapper) (kwargs : gmap string pyval) : result VideoMode :=
  width' ← kwarg kwargs "width" ≫= as_int;
  height' ← kwarg kwargs "height" ≫= as_int;
  rows ← kwarg kwargs "rows" ≫= as_int;
  columns ← kwarg kwargs "columns" ≫= as_int;
  attr' ← kwarg kwargs "attr";
  bitsperpixel' ← kwarg kwargs "bitsperpixel";
  interleave_times ← kwarg kwargs "interleave_times";
  bank_size ← kwarg kwargs "bank_size";
  max_pages ← kwarg kwargs "max_pages";
  cursor_index' ← kwarg kwargs "cursor_index";
  font_width' ← py_floordiv width' columns;
  (* ceildiv for hercules (14-px font on 348 lines) *)
  q ← py_floordiv (- height') rows;
  let font_height' := - q in
  let self :=
    VideoMode_init cls name' rows columns font_height' font_width' attr' colourmap' in
  mret {| mode_class := mode_class self; name := name self; height := height self;
          width := width self; font_height := font_height self;
          font_width := font_width self;
          (* override pixel dimensions *)
          pixel_height := height'; pixel_width := width';
          attr := attr self;
          is_text_mode := Some false;
          memorymap := Some (GraphicsMapper (_memorymapper cls) height' width'
                               video_mem_size max_pages interleave_times bank_size
                               bitsperpixel' None);
          colourmap := colourmap self;
          graphics := Some {| bitsperpixel := bitsperpixel';
                              cursor_index := cursor_index';
                              build_tile := mkBuilder (_tile_builder cls) bitsperpixel';
                              sprite_builder := mkBuilder (_sprite_builder cls) bitsperpixel' |} |}.

Definition graphics_keywords : list string :=
  ["width"; "height"; "rows"; "columns"; "attr"; "bitsperpixel";
   "interleave_times"; "bank_size"; "max_pages"; "cursor_index"].

(** [EGAMode.__init__]: the keyword [planes_used] defaults to [range(4)]. *)
Definition EGAMode_init (cls : layout) (name' : string) (video_mem_size : Z)
    (colourmap' : ColourMapper) (kwargs : gmap string pyval) : result VideoMode :=
  _ ← bind_kwargs graphics_keywords ["planes_used"] kwargs;
  planes_used ← match kwargs !! "planes_used" with
                | None => Ok [0; 1; 2; 3]
                | Some (VTuple l) => Ok l
                | Some _ => Err TypeError
                end;
  self ← GraphicsMode_init cls name' video_mem_size colourmap' (delete "planes_used" kwargs);
  mret {| mode_class := mode_class self; name := name self; height := height self;
          width := width self; font_height := font_height self;
          font_width := font_width self;
          pixel_height := pixel_height self; pixel_width := pixel_width self;
          attr := attr self;
          is_text_mode := is_text_mode self;
          (* EGA memorymap settings *)
          memorymap := (λ m, set_planes_used m planes_used) <$> memorymap self;
          colourmap := colourmap self;
          graphics := graphics self |}.

(** The call [cls(name=..., video_mem_size=..., colourmap=..., **mode_data)]. *)
Definition construct (cls : layout) (name' : string) (video_mem_size : Z)
    (colourmap' : ColourMapper) (mode_data : gmap string pyval) : result VideoMode :=
  match cls with
  | TextMode => TextMode_init cls name' video_mem_size colourmap' mode_data
  | EGAMode => EGAMode_init cls name' video_mem_size colourmap' mode_data
  | CGAMode | Tandy6Mode =>
      _ ← bind_kwargs graphics_keywords [] mode_data;
      GraphicsMode_init cls name' video_mem_size colourmap' mode_data
  end.

(** The two [pop]s and the constructor call shared by [_get_graphics_mode]
    and [_get_text_mode]. *)
Definition instantiate (mode_data : gmap string pyval) (name' adapter monitor : string)
    (video_mem_size : Z) : result VideoMode :=
  '(cls, mode_data) ← dict_pop mode_data "layout";
  '(cm, mode_data) ← dict_pop mode_data "colourmap";
  colourmap' ← match cm with
               | VColourmap c => Ok (mkColourMapper c adapter monitor)
               | _ => Err TypeError
               end;
  match cls with
  | VLayout c => construct c name' video_mem_size colourmap' mode_data
  | _ => Err TypeError
  end.

Definition _get_graphics_mode (name' adapter monitor : string) (video_mem_size : Z)
  : result VideoMode :=
  mode_data ← _GRAPHICS_MODES name';
  instantiate mode_data name' adapter monitor video_mem_size.

Definition _get_text_mode (name' adapter monitor : string) (video_mem_size : Z)
  : result VideoMode :=
  mode_data ← dict_get _TEXT_MODES name';
  instantiate mode_data name' adapter monitor video_mem_size.

Definition get_mode (number width' : Z) (adapter monitor : string) (video_mem_size : Z)
  : result VideoMode :=
  except_KeyError
    (if negb (number =? 0) then
       modes ← dict_get _MODES adapter;
       name' ← dict_get modes (KNum number);
       _get_graphics_mode name' adapter monitor video_mem_size
     else
       modes ← dict_get _MODES adapter;
       name' ← dict_get modes (KPair 0 width');
       _get_text_mode name' adapter monitor video_mem_size)
    (* no such mode *)
    (Err (BASICError IFC)).

(** [VideoMode.pixel_to_text_pos] *)
Definition pixel_to_text_pos (self : VideoMode) (x y : Z) : result (Z * Z) :=
  r ← py_floordiv y (font_height self);
  c ← py_floordiv x (font_width self);
  mret (1 + r, 1 + c).

(** [VideoMode.text_to_pixel_pos] *)
Definition text_to_pixel_pos (self : VideoMode) (row col : Z) : Z * Z :=
  ((col - 1) * font_width self, (row - 1) * font_height self).

Section ModeNumber.

(** The attribute [mode_5] of a colour mapper: the flag by which the
    mapper of the 320x200x4 mode tells its two hardware variants apart.
    The colour mappers are defined outside this module. *)
Variable mode_5 : ColourMapper → bool.

Definition get_mode_number (mode : VideoMode) (colorswitch : Z) : result Z :=
  if default false (is_text_mode mode) then
    if String.eqb (name mode) "mdatext80" || String.eqb (name mode) "ega_monotext80"
    then Ok 7
    else Ok (Z.b2z (width mode =? 40) * 2 + colorswitch `mod` 2)
  else if String.eqb (name mode) "320x200x4" then
    Ok (4 + Z.b2z (mode_5 (colourmap mode)))
  else
    except_KeyError (dict_get _MODE_NUMBER (name mode)) (Ok 0xff).

End ModeNumber.

(** ** bytematrix.py: extension and repetition *)

Definition hextend (self : ByteMatrix) (by_width fill : Z) : result ByteMatrix :=
  b ← bytearray_new [fill];
  let new_row := list_times b by_width in
  rows ← get_rows self;
  _create_from_rows ((λ row, row ++ new_row) <$> rows).

Definition vextend (self : ByteMatrix) (by_height fill : Z) : result ByteMatrix :=
  rows ← get_rows self;
  r ← py_range 0 by_height 1;
  extra ← mapM (λ _ : Z, b ← bytearray_new [fill]; mret (list_times b (_width self))) r;
  _create_from_rows (rows ++ extra).

Definition hrepeat (self : ByteMatrix) (times : Z) : result ByteMatrix :=
  rows ← get_rows self;
  data ← mapM (λ row : list Z,
            items ← mapM (λ byte : Z,
                       r ← py_range 0 times 1;
                       mret ((λ _ : Z, byte) <$> r)) row;
            bytearray_new (concat items)) rows;
  _create_from_rows data.

(** ** bytematrix.py: the constructor *)

(** The [data] argument of [ByteMatrix(width, height, data)]: an int, an
    iterable of ints, or an iterable of rows, each row a bytearray or a list
    of ints. *)
Inductive init_data :=
  | DInt (n : Z)
  | DItems (l : list Z)
  | DRows (l : list (list Z)).

(** [ByteMatrix.__init__].  With neither width nor height no [_rows]
    attribute is set.  A list of ints has no rows to take the [len] of, and
    a list of rows has no ints to build a [bytearray] from: [TypeError]. *)
Definition __init__ (width' height' : Z) (data : init_data) : result ByteMatrix :=
  if (width' =? 0) && (height' =? 0) then Ok (mkByteMatrix width' height' None)
  else
    rows ← match data with
            | DInt n =>
                r ← py_range 0 height' 1;
                mapM (λ _ : Z, b ← bytearray_new [n]; mret (list_times b width')) r
            | DItems l =>
                if len l =? 1 then
                  r ← py_range 0 height' 1;
                  mapM (λ _ : Z, b ← bytearray_new l; mret (list_times b width')) r
                else if len l =? height' then
                  _ ← getitem l 0;
                  Err TypeError
                else if negb (len l =? height' * width') then Err AssertionError
                else
                  offs ← py_range 0 (len l) width';
                  mapM (λ o, s ← getslice l (slice_of o (o + width')); bytearray_new s) offs
            | DRows l =>
                if len l =? 1 then
                  r ← py_range 0 height' 1;
                  mapM (λ _ : Z, Err TypeError) r
                else if len l =? height' then
                  first ← getitem l 0;
                  if negb (len first =? width') then Err AssertionError
                  else mapM bytearray_new l
                else if negb (len l =? height' * width') then Err AssertionError
                else
                  offs ← py_range 0 (len l) width';
                  mapM (λ o, s ← getslice l (slice_of o (o + width'));
                             match s with
                             | [] => Ok []
                             | _ :: _ => Err TypeError
                             end) offs
            end;
    Ok (mkByteMatrix width' height' (Some rows)).

(** ** bytematrix.py: [render] on Python 3

    [render] above is the method on Python 2, where [chr] gives a one-byte
    [str], the type of [b'\0'].  On Python 3 [chr] gives text, and
    [bytearray.replace] takes bytes-like arguments only. *)

(** The exceptions of [exn], and [OverflowError], which [chr] of Python 3
    raises for an int outside the range of a C [int]. *)
Inductive exn3 :=
  | Exn (e : exn)
  | OverflowError.

Inductive result3 (A : Type) :=
  | Ok3 (a : A)
  | Err3 (e : exn3).
Arguments Ok3 {A} a.
Arguments Err3 {A} e.

#[global] Instance result3_ret : MRet result3 := λ A a, Ok3 a.
#[global] Instance result3_bind : MBind result3 :=
  λ A B f r, match r with Ok3 a => f a | Err3 e => Err3 e end.

Definition lift3 {A} (r : result A) : result3 A :=
  match r with Ok a => Ok3 a | Err e => Err3 (Exn e) end.

(** [chr(i)] of Python 3: the one-character text of code point [i]. *)
Definition chr3 (i : Z) : result3 Z :=
  if (0 <=? i) && (i <? 0x110000) then Ok3 i
  else if (- 2 ^ 31 <=? i) && (i <? 2 ^ 31) then Err3 (Exn ValueError)
  else Err3 OverflowError.

(** [row.replace(old, new)] of Python 3 for bytes [old] and text [new]. *)
Definition bytearray_replace3 (old : Z) (new : Z) (row : list Z) : result3 (list Z) :=
  Err3 (Exn TypeError).

Definition render3 (self : ByteMatrix) (back fore : Z) : result3 ByteMatrix :=
  rows ← lift3 (get_rows self);
  data ← mapM (M:=result3) (λ row,
            b ← chr3 back;
            row1 ← bytearray_replace3 0 b row;
            f ← chr3 fore;
            bytearray_replace3 1 f row1) rows;
  lift3 (_create_from_rows data).

(** ** bytematrix.py: row objects and assignment *)

(** The rows of a matrix are [bytearray] objects.  [__setitem__] mutates
    them in place, and [vstack] and [vextend] put the row objects of their
    arguments into the matrix they return.  In this part a matrix holds
    references into a store of row objects, addressed by position; the
    functions are those of the first part, with the allocation of every new
    [bytearray] written out. *)
Module Heap.

Abbreviation ref := nat (only parsing).
Abbreviation heap := (list (list Z)) (only parsing).

(** Statements: state passing with exceptions. *)
Definition st (A : Type) : Type := heap → result (A * heap).

#[global] Instance st_ret : MRet st := λ A a h, Ok (a, h).
#[global] Instance st_bind : MBind st :=
  λ A B f m h, match m h with Ok (a, h') => f a h' | Err e => Err e end.
#[global] Instance st_fmap : FMap st :=
  λ A B f m h, match m h with Ok (a, h') => Ok (f a, h') | Err e => Err e end.

(** An expression that touches no row object. *)
Definition lift {A} (r : result A) : st A :=
  λ h, match r with Ok a => Ok (a, h) | Err e => Err e end.

(** A new [bytearray] object. *)
Definition alloc (row : list Z) : st ref := λ h, Ok (length h, h ++ [row]).

(** The bytes of a row object. *)
Definition deref (h : heap) (r : ref) : list Z := default [] (h !! r).

Definition load (r : ref) : st (list Z) := λ h, Ok (deref h r, h).

(** Mutation of a row object in place. *)
Definition write (r : ref) (row : list Z) : st unit := λ h, Ok ((), <[r := row]> h).

Record ByteMatrix := mkByteMatrix {
  _width : Z;
  _height : Z;
  _rows : option (list ref)
}.

Definition get_rows (self : ByteMatrix) : st (list ref) :=
  lift (match _rows self with
        | Some rs => Ok rs
        | None => Err AttributeError
        end).

Definition _create_from_rows (data : list ref) : st ByteMatrix :=
  first ← lift (getitem data 0);
  first_row ← load first;
  rows ← mapM (M:=st) load data;
  let new := mkByteMatrix (len first_row) (len data) (Some data) in
  if Nat.eqb (length (remove_dups (length <$> rows))) 1 then mret new
  else lift (Err AssertionError).

Inductive item :=
  | Byte (b : Z)
  | Matrix (m : ByteMatrix).

(** Every slice [_row[x]] and every [bytearray([...])] is a new object. *)
Definition __getitem__ (self : ByteMatrix) (x y : index) : st item :=
  match y, x with
  | Slc sy, Slc sx =>
      rows ← get_rows self;
      sel ← lift (getslice rows sy);
      data ← mapM (M:=st) (λ r, row ← load r; s ← lift (getslice row sx); alloc s) sel;
      Matrix <$> _create_from_rows data
  | Slc sy, Idx ix =>
      rows ← get_rows self;
      sel ← lift (getslice rows sy);
      data ← mapM (M:=st) (λ r, row ← load r; b ← lift (getitem row ix);
                                s ← lift (bytearray_new [b]); alloc s) sel;
      Matrix <$> _create_from_rows data
  | Idx iy, Slc sx =>
      rows ← get_rows self;
      r ← lift (getitem rows iy);
      row ← load r;
      s ← lift (getslice row sx);
      new ← alloc s;
      Matrix <$> _create_from_rows [new]
  | Idx iy, Idx ix =>
      rows ← get_rows self;
      r ← lift (getitem rows iy);
      row ← load r;
      Byte <$> lift (getitem row ix)
  end.

(** The value assigned by [__setitem__]: a matrix or an int. *)
Inductive value :=
  | VMatrix (m : ByteMatrix)
  | VByte (n : Z).

(** The position [row[i] = ...] writes to: negative indices count from the
    end, [IndexError] outside the row. *)
Definition setitem_index (row : list Z) (i : Z) : result nat :=
  let j := if i <? 0 then i + len row else i in
  if (0 <=? j) && (j <? len row) then Ok (Z.to_nat j) else Err IndexError.

(** [dst[s] = src] on a [bytearray], for a [bytearray] [src].  With step 1
    the selected stretch is replaced by [src], whatever its length; with
    another step an empty [src] deletes the selected items, and any other
    [src] must have as many items as are selected. *)
Definition bytearray_setslice (dst : list Z) (s : slice) (src : list Z) : result (list Z) :=
  '(start, step, count) ← slice_indices s (len dst);
  if step =? 1 then
    Ok (take (Z.to_nat start) dst ++ src ++ drop (Z.to_nat (start + count)) dst)
  else
    let selected := (λ i, Z.to_nat (start + i * step)) <$> seqZ 0 count in
    if len src =? 0 then
      Ok (omap (λ p : nat * Z, if bool_decide (p.1 ∈ selected) then None else Some p.2)
            (zip (seq 0 (length dst)) dst))
    else if len src =? count then
      Ok (foldr (λ (p : nat * Z) acc, <[p.1 := p.2]> acc) dst (zip selected src))
    else Err ValueError.

(** A store [row[i] = v] at an int [i] tests, on CPython 2.7 and on
    CPython 3 up to 3.10.4, the index before the value: [__setitem__] is
    the method on these interpreters.  From CPython 3.10.5 on the value is
    tested first: that is [__setitem___value_first] below.  The two differ
    in which exception is raised when both tests fail, and in nothing
    else. *)
Definition __setitem__ (self : ByteMatrix) (x y : index) (val : value) : st unit :=
  (* a matrix stands for its rows *)
  v ← match val with
      | VMatrix m => inl <$> get_rows m
      | VByte n => mret (inr n)
      end;
  match y, x with
  | Slc sy, _ =>
      rows ← get_rows self;
      sel ← lift (getslice rows sy);
      match v with
      | inr _ => lift (Err TypeError)
      | inl srcs =>
          _ ← mapM (M:=st) (λ p : ref * ref,
                 d ← load p.1;
                 match x with
                 | Slc sx =>
                     s ← load p.2;
                     new ← lift (bytearray_setslice d sx s);
                     write p.1 new
                 | Idx ix =>
                     _ ← lift (setitem_index d ix);
                     lift (Err TypeError)
                 end) (zip sel srcs);
          mret ()
      end
  | Idx iy, Slc sx =>
      srcs ← match v with
             | inl srcs => mret srcs
             | inr _ => lift (Err TypeError)
             end;
      _ ← (if len srcs =? 1 then mret () else lift (Err AssertionError));
      src ← lift (getitem srcs 0);
      rows ← get_rows self;
      dst ← lift (getitem rows iy);
      d ← load dst;
      s ← load src;
      new ← lift (bytearray_setslice d sx s);
      write dst new
  | Idx iy, Idx ix =>
      rows ← get_rows self;
      dst ← lift (getitem rows iy);
      d ← load dst;
      j ← lift (setitem_index d ix);
      match v with
      | inl _ => lift (Err TypeError)
      | inr n =>
          if (0 <=? n) && (n <? 256) then write dst (<[j := n]> d)
          else lift (Err ValueError)
      end
  end.

Definition __setitem___value_first (self : ByteMatrix) (x y : index) (val : value) : st unit :=
  v ← match val with
      | VMatrix m => inl <$> get_rows m
      | VByte n => mret (inr n)
      end;
  match y, x with
  | Slc sy, _ =>
      rows ← get_rows self;
      sel ← lift (getslice rows sy);
      match v with
      | inr _ => lift (Err TypeError)
      | inl srcs =>
          _ ← mapM (M:=st) (λ p : ref * ref,
                 d ← load p.1;
                 match x with
                 | Slc sx =>
                     s ← load p.2;
                     new ← lift (bytearray_setslice d sx s);
                     write p.1 new
                 | Idx ix =>
                     (* the value, a [bytearray], is no int *)
                     lift (Err TypeError)
                 end) (zip sel srcs);
          mret ()
      end
  | Idx iy, Slc sx =>
      srcs ← match v with
             | inl srcs => mret srcs
             | inr _ => lift (Err TypeError)
             end;
      _ ← (if len srcs =? 1 then mret () else lift (Err AssertionError));
      src ← lift (getitem srcs 0);
      rows ← get_rows self;
      dst ← lift (getitem rows iy);
      d ← load dst;
      s ← load src;
      new ← lift (bytearray_setslice d sx s);
      write dst new
  | Idx iy, Idx ix =>
      rows ← get_rows self;
      dst ← lift (getitem rows iy);
      d ← load dst;
      match v with
      | inl _ => lift (Err TypeError)
      | inr n =>
          if (0 <=? n) && (n <? 256) then
            j ← lift (setitem_index d ix);
            write dst (<[j := n]> d)
          else lift (Err ValueError)
      end
  end.

(** The row objects of the arguments themselves go into the result. *)
Definition vstack (matrices : list ByteMatrix) : st ByteMatrix :=
  rowss ← mapM (M:=st) get_rows matrices;
  _create_from_rows (concat rowss).

Definition vextend (self : ByteMatrix) (by_height fill : Z) : st ByteMatrix :=
  rows ← get_rows self;
  r ← lift (py_range 0 by_height 1);
  extra ← mapM (M:=st) (λ _ : Z, b ← lift (bytearray_new [fill]);
                                 alloc (list_times b (_width self))) r;
  _create_from_rows (rows ++ extra).

End Heap.

(** The matrix of the first part that a matrix of row objects stands for in
    a given store. *)
Definition value_of (h : Heap.heap) (m : Heap.ByteMatrix) : ByteMatrix :=
  mkByteMatrix (Heap._width m) (Heap._height m)
    match Heap._rows m with
    | Some rs => Some (Heap.deref h <$> rs)
    | None => None
    end.

(** The row objects a matrix holds, and the stores in which all of them
    exist. *)
Definition refs_of (m : Heap.ByteMatrix) : list Heap.ref := default [] (Heap._rows m).

Definition owns (h : Heap.heap) (m : Heap.ByteMatrix) : Prop :=
  Forall (λ r, (r < length h)%nat) (refs_of m).

(** ** modes.py: areas *)

(** [VideoMode.pixel_to_text_area] *)
Definition pixel_to_text_area (self : VideoMode) (x0 y0 x1 y1 : Z)
  : result (Z * Z * Z * Z) :=
  qx0 ← py_floordiv x0 (font_width self);
  let col0 := Z.min (width self) (Z.max 1 (1 + qx0)) in
  qy0 ← py_floordiv y0 (font_height self);
  let row0 := Z.min (height self) (Z.max 1 (1 + qy0)) in
  qx1 ← py_floordiv x1 (font_width self);
  let col1 := Z.min (width self) (Z.max 1 (1 + qx1)) in
  qy1 ← py_floordiv y1 (font_height self);
  let row1 := Z.min (height self) (Z.max 1 (1 + qy1)) in
  mret (row0, col0, row1, col1).

(** [VideoMode.text_to_pixel_area] *)
Definition text_to_pixel_area (self : VideoMode) (row0 col0 row1 col1 : Z)
  : Z * Z * Z * Z :=
  ((col0 - 1) * font_width self, (row0 - 1) * font_height self,
   (col1 - col0 + 1) * font_width self - 1, (row1 - row0 + 1) * font_height self - 1).

(** [VideoMode.__eq__] against another mode or against a mode name. *)
Definition mode_eq (self rhs : VideoMode) : bool := String.eqb (name self) (name rhs).

Definition mode_eq_name (self : VideoMode) (rhs : string) : bool :=
  String.eqb (name self) rhs.

(** ** Vocabulary of the statements *)

(** The mode name the tables give for a screen number (or, for number 0,
    a text width) on an adapter, if any. *)
Definition mode_defined (number columns : Z) (adapter : string) : option string :=
  modes ← _MODES !! adapter;
  modes !! (if number =? 0 then KPair 0 columns else KNum number).

Definition in_names (names : list string) (s : string) : bool :=
  existsb (String.eqb s) names.

Definition graphics_names : list string :=
  ["320x200x4"; "640x200x2"; "160x200x16"; "320x200x4pcjr"; "320x200x16pcjr";
   "640x200x4"; "320x200x16"; "640x200x16"; "640x350x16"; "640x350x4";
   "640x400x2"; "720x348x2"; "320x200x4_8pg"; "640x200x2_8pg"].

Definition text_names : list string :=
  ["vgatext40"; "vgatext80"; "egatext40"; "egatext80"; "ega_monotext40";
   "ega_monotext80"; "mdatext40"; "mdatext80"; "tandytext40"; "tandytext80";
   "cgatext40"; "cgatext80"; "olivettitext40"; "olivettitext80"].

(** The [max_pages] entry of the dictionary object bound to a name of
    [_GRAPHICS_MODES] in a given state of the module. *)
Definition max_pages_in (g : globals) (key : string) : option pyval :=
  obj ← graphics_modes g !! key;
  d ← store g !! obj;
  d !! "max_pages".

(** The module state once the display of [_GRAPHICS_MODES] is evaluated,
    before the four statements that follow it. *)
Definition after_display : globals :=
  match exec (take 12 graphics_modes_body) (mkGlobals [] ∅) with
  | Ok (_, g) => g
  | Err _ => mkGlobals [] ∅
  end.

(** The row list of a matrix, empty when it has none. *)
Definition rows_of (g : ByteMatrix) : list (list Z) := default [] (_rows g).

(** The items a slice selects from a list, empty when the slice is
    rejected. *)
Definition slice_items {A} (l : list A) (s : slice) : list A :=
  match getslice l s with
  | Ok k => k
  | Err _ => []
  end.

(** The whole axis, [:]. *)
Definition slice_all : slice := Slice None None None.

(** The shift schedule of both packing functions at [bpp] bits per item. *)
Definition shifts_of (bpp : Z) : list Z :=
  match py_range 0 8 bpp with
  | Ok r => (λ sh, 8 - bpp - sh) <$> r
  | Err _ => []
  end.

(** The items one packed byte unpacks to, and the byte one group of items
    packs to, as the comprehensions of [unpack_bytes] and [pack_bytes]
    compute them. *)
Definition unpack_byte (bpp byte : Z) : list Z :=
  (λ shift, Z.land (Z.shiftr byte shift) (Z.shiftl 1 bpp - 1)) <$> shifts_of bpp.

Definition pack_chunk (bpp : Z) (chunk : list Z) : Z :=
  py_sum (zip_with (λ b shift, Z.shiftl (Z.land b (Z.shiftl 1 bpp - 1)) shift)
            chunk (shifts_of bpp)).

(** All lists of [n] items below [bound]. *)
Fixpoint all_chunks (n : nat) (bound : Z) : list (list Z) :=
  match n with
  | O => [[]]
  | S n' => x ← seqZ 0 bound; c ← all_chunks n' bound; [x :: c]
  end.

Definition is_byteb (b : Z) : bool := (0 <=? b) && (b <? 256).

Definition bit_depths : list Z := [1; 2; 4; 8].

(** Executable checks behind the round trips of one byte and of one group
    of items at [bpp] bits per item. *)
Definition check_byte (bpp byte : Z) : bool :=
  forallb (λ v, (0 <=? v) && (v <? 2 ^ bpp)) (unpack_byte bpp byte)
  && (len (unpack_byte bpp byte) =? 8 / bpp)
  && (pack_chunk bpp (unpack_byte bpp byte) =? byte).

Definition check_chunk (bpp : Z) (chunk : list Z) : bool :=
  is_byteb (pack_chunk bpp chunk)
  && bool_decide (unpack_byte bpp (pack_chunk bpp chunk) = chunk).

(** * Properties *)

(** ** Helpers on the result monad and on tables *)

Lemma py_floordiv_mul (k d : Z) : d ≠ 0 → py_floordiv (k * d) d = Ok k.
Proof.
  intros Hd. unfold py_floordiv.
  destruct (Z.eqb_spec d 0) as [->|_]; [done|].
  by rewrite Z.div_mul.
Qed.

Lemma forallb_elem_of {A} (f : A → bool) (l : list A) (x : A) :
  forallb f l = true → x ∈ l → f x = true.
Proof.
  intros Hall Hx. rewrite forallb_forall in Hall.
  apply Hall. by apply list_elem_of_In.
Qed.

(** A boolean check over all entries of a two-level table covers every
    pair of successful lookups. *)
Lemma table_forall {K1 K2 V} `{Countable K1} `{Countable K2}
    (P : K1 → K2 → V → bool) (m : gmap K1 (gmap K2 V)) :
  forallb (λ e1, forallb (λ e2, P e1.1 e2.1 e2.2) (map_to_list e1.2)) (map_to_list m) = true →
  ∀ k1 t k2 v, m !! k1 = Some t → t !! k2 = Some v → P k1 k2 v = true.
Proof.
  intros Hall k1 t k2 v H1 H2.
  apply elem_of_map_to_list in H1, H2.
  pose proof (forallb_elem_of _ _ _ Hall H1) as Ht. cbn in Ht.
  exact (forallb_elem_of _ _ _ Ht H2).
Qed.

Lemma in_names_elem_of names s : in_names names s = true → s ∈ names.
Proof.
  unfold in_names. rewrite existsb_exists. intros (x & Hx & Heq).
  apply String.eqb_eq in Heq. subst. by apply list_elem_of_In.
Qed.

(** Every number of [_MODES] names a graphics mode, every tuple a text mode
    of that width. *)
Lemma _MODES_names adapter modes key nm :
  _MODES !! adapter = Some modes → modes !! key = Some nm →
  match key with
  | KNum _ => nm ∈ graphics_names
  | KPair _ _ => nm ∈ text_names
  end.
Proof.
  intros H1 H2.
  assert (match key with
          | KNum _ => in_names graphics_names nm
          | KPair _ _ => in_names text_names nm
          end = true) as Hb.
  { revert adapter modes key nm H1 H2.
    apply (table_forall (λ _ key nm, match key with
          | KNum _ => in_names graphics_names nm
          | KPair _ _ => in_names text_names nm
          end)).
    vm_compute. reflexivity. }
  destruct key; by apply in_names_elem_of.
Qed.

Ltac each_name H :=
  repeat (apply elem_of_cons in H as [-> | H]);
  [.. | apply elem_of_nil in H; contradiction].

(** Every graphics mode definition instantiates, under its own name. *)
Lemma _get_graphics_mode_ok nm adapter monitor vms :
  nm ∈ graphics_names →
  ∃ m, _get_graphics_mode nm adapter monitor vms = Ok m ∧ name m = nm ∧
       is_text_mode m = Some false ∧ is_Some (memorymap m) ∧ is_Some (graphics m) ∧
       cm_adapter (colourmap m) = adapter ∧ cm_monitor (colourmap m) = monitor.
Proof.
  intros Hin. unfold graphics_names in Hin.
  each_name Hin; vm_compute; eexists; (split; [reflexivity|]); cbn; eauto 10.
Qed.

Lemma _get_text_mode_ok nm adapter monitor vms :
  nm ∈ text_names →
  ∃ m, _get_text_mode nm adapter monitor vms = Ok m ∧ name m = nm ∧
       is_text_mode m = Some true ∧ is_Some (memorymap m) ∧ graphics m = None ∧
       cm_adapter (colourmap m) = adapter ∧ cm_monitor (colourmap m) = monitor.
Proof.
  intros Hin. unfold text_names in Hin.
  each_name Hin; vm_compute; eexists; (split; [reflexivity|]); cbn; eauto 10.
Qed.

(** Building the width table raises no exception. *)
Lemma TO_WIDTH_loads : TO_WIDTH_init = Ok TO_WIDTH.
Proof.
  assert (match TO_WIDTH_init with Ok _ => true | Err _ => false end = true) as H
    by (vm_compute; reflexivity).
  unfold TO_WIDTH. by destruct TO_WIDTH_init.
Qed.


(** ** The mode factory *)

#[local] Opaque _MODES _TEXT_MODES _MODE_NUMBER TO_WIDTH loaded.

(** [get_mode] is the table lookup followed by the instantiation of the
    named definition; the [except] clause only ever sees a failed lookup. *)
Lemma get_mode_unfold number cols adapter monitor vms :
  get_mode number cols adapter monitor vms =
  match mode_defined number cols adapter with
  | None => Err (BASICError IFC)
  | Some nm =>
      if number =? 0 then _get_text_mode nm adapter monitor vms
      else _get_graphics_mode nm adapter monitor vms
  end.
Proof.
  unfold get_mode, mode_defined, dict_get.
  destruct (number =? 0) eqn:Hn; cbn;
    destruct (_MODES !! adapter) as [modes|] eqn:Ha; cbn; try done.
  - destruct (modes !! KPair 0 cols) as [nm|] eqn:Hk; cbn; [|done].
    pose proof (_MODES_names _ _ _ _ Ha Hk) as Hin.
    destruct (_get_text_mode_ok nm adapter monitor vms Hin) as (m & -> & _). done.
  - destruct (modes !! KNum number) as [nm|] eqn:Hk; cbn; [|done].
    pose proof (_MODES_names _ _ _ _ Ha Hk) as Hin.
    destruct (_get_graphics_mode_ok nm adapter monitor vms Hin) as (m & -> & _). done.
Qed.

Lemma mode_defined_names number cols adapter nm :
  mode_defined number cols adapter = Some nm →
  if number =? 0 then nm ∈ text_names else nm ∈ graphics_names.
Proof.
  unfold mode_defined. destruct (_MODES !! adapter) as [modes|] eqn:Ha; [|done].
  cbn. intros Hk. pose proof (_MODES_names _ _ _ _ Ha Hk) as Hin.
  by destruct (number =? 0).
Qed.

(** A mode returned for a non-zero screen number comes from a graphics
    definition. *)
Lemma get_mode_graphics number cols adapter monitor vms m :
  number ≠ 0 → get_mode number cols adapter monitor vms = Ok m →
  ∃ nm, nm ∈ graphics_names ∧ _get_graphics_mode nm adapter monitor vms = Ok m.
Proof.
  intros Hn. rewrite get_mode_unfold.
  destruct (mode_defined number cols adapter) as [nm|] eqn:Hd; [|done].
  apply mode_defined_names in Hd.
  destruct (Z.eqb_spec number 0); [done|]. eauto.
Qed.

(** C2: [get_mode] raises "illegal function call" exactly when the adapter's
    table has no entry for the mode number (or, for number 0, for the tuple
    of 0 and the width); for every entry it returns the constructed mode of
    that name, text or graphics according to the number, with its memory
    mapper and its colour mapper bound to the adapter and monitor.  Mode 99
    on 'mda' is an instance of the error. *)
Theorem get_mode_sole_error_path :
  (∀ number cols adapter monitor vms,
     match mode_defined number cols adapter with
     | None => get_mode number cols adapter monitor vms = Err (BASICError IFC)
     | Some nm =>
         ∃ m, get_mode number cols adapter monitor vms = Ok m ∧
              name m = nm ∧
              is_text_mode m = Some (number =? 0) ∧
              is_Some (memorymap m) ∧
              (is_Some (graphics m) ↔ number ≠ 0) ∧
              cm_adapter (colourmap m) = adapter ∧
              cm_monitor (colourmap m) = monitor
     end) ∧
  (∀ cols monitor vms, get_mode 99 cols "mda" monitor vms = Err (BASICError IFC)).
Proof.
  split.
  - intros number cols adapter monitor vms. rewrite get_mode_unfold.
    destruct (mode_defined number cols adapter) as [nm|] eqn:Hd; [|done].
    apply mode_defined_names in Hd.
    destruct (Z.eqb_spec number 0) as [->|Hn].
    + destruct (_get_text_mode_ok nm adapter monitor vms Hd)
        as (m & -> & ? & ? & ? & Hg & ? & ?).
      exists m. repeat split; try done. rewrite Hg. by intros [? ?].
    + destruct (_get_graphics_mode_ok nm adapter monitor vms Hd)
        as (m & -> & ? & ? & ? & Hg & ? & ?).
      exists m. repeat split; try done.
  - intros. rewrite get_mode_unfold. vm_compute. reflexivity.
Qed.

(** ** Legacy mode numbers *)

(** C6: [get_mode_number] never raises and yields: 7 for the text modes
    named 'mdatext80' or 'ega_monotext80'; [2*(width == 40) + colorswitch
    mod 2] for every other text mode; 4 plus the flag of the colour mapper
    for the graphics mode named '320x200x4'; the entry of [_MODE_NUMBER] for
    any other graphics mode name found there; and 0xFF for a name that is
    absent from it.  On resolved modes: CGA text, 80 columns, switch 0 gives
    0; CGA text, 40 columns, switch 1 gives 3; Hercules '720x348x2' gives
    0xFF. *)
Theorem get_mode_number_cases (mode_5 : ColourMapper → bool) :
  (∀ m cs, ∃ n, get_mode_number mode_5 m cs = Ok n) ∧
  (∀ m cs, is_text_mode m = Some true →
     get_mode_number mode_5 m cs =
       if bool_decide (name m = "mdatext80" ∨ name m = "ega_monotext80") then Ok 7
       else Ok (2 * Z.b2z (bool_decide (width m = 40)) + cs `mod` 2)) ∧
  (∀ m cs, is_text_mode m = Some false → name m = "320x200x4" →
     get_mode_number mode_5 m cs = Ok (4 + Z.b2z (mode_5 (colourmap m)))) ∧
  (∀ m cs, is_text_mode m = Some false → name m ≠ "320x200x4" →
     get_mode_number mode_5 m cs = Ok (default 0xFF (_MODE_NUMBER !! name m))) ∧
  (∀ monitor vms, ∃ m, get_mode 0 80 "cga" monitor vms = Ok m ∧
     get_mode_number mode_5 m 0 = Ok 0) ∧
  (∀ monitor vms, ∃ m, get_mode 0 40 "cga" monitor vms = Ok m ∧
     get_mode_number mode_5 m 1 = Ok 3) ∧
  (∀ cols monitor vms cs, ∃ m, get_mode 3 cols "hercules" monitor vms = Ok m ∧
     name m = "720x348x2" ∧ _MODE_NUMBER !! name m = None ∧
     get_mode_number mode_5 m cs = Ok 0xFF).
Proof.
  repeat split.
  - intros m cs. unfold get_mode_number, except_KeyError, dict_get.
    destruct (default false (is_text_mode m)).
    + destruct (_ || _); eauto.
    + destruct (String.eqb _ _); [eauto|].
      destruct (_MODE_NUMBER !! name m); eauto.
  - intros m cs Ht. unfold get_mode_number. rewrite Ht. cbn.
    destruct (String.eqb_spec (name m) "mdatext80") as [->|H1];
      [by rewrite bool_decide_eq_true_2; [|left]|].
    destruct (String.eqb_spec (name m) "ega_monotext80") as [->|H2];
      [by rewrite bool_decide_eq_true_2; [|right]|].
    rewrite bool_decide_eq_false_2 by (intros [?|?]; done). cbn.
    do 2 f_equal. rewrite Z.mul_comm. f_equal.
    destruct (Z.eqb_spec (width m) 40);
      [by rewrite bool_decide_eq_true_2|by rewrite bool_decide_eq_false_2].
  - intros m cs Ht Hn. unfold get_mode_number. rewrite Ht, Hn. reflexivity.
  - intros m cs Ht Hn. unfold get_mode_number, except_KeyError, dict_get.
    rewrite Ht. cbn.
    destruct (String.eqb_spec (name m) "320x200x4"); [done|].
    by destruct (_MODE_NUMBER !! name m).
  - intros. eexists. split; [vm_compute; reflexivity|]. vm_compute. reflexivity.
  - intros. eexists. split; [vm_compute; reflexivity|]. vm_compute. reflexivity.
  - intros. eexists. split; [vm_compute; reflexivity|].
    repeat split; vm_compute; reflexivity.
Qed.

Lemma get_mode_number_cases_witness :
  ∃ m, get_mode 0 40 "cga" "rgb" 16384 = Ok m ∧
       get_mode_number (λ _, false) m 1 = Ok 3.
Proof.
  destruct (get_mode 0 40 "cga" "rgb" 16384) as [m|] eqn:Hm;
    [|vm_compute in Hm; discriminate Hm].
  vm_compute in Hm. injection Hm as <-.
  match goal with
  | |- ∃ m, Ok ?r = Ok m ∧ _ =>
      exists r; split; [reflexivity|];
      rewrite (proj1 (proj2 (get_mode_number_cases (λ _, false))) r 1 eq_refl)
  end.
  reflexivity.
Defined.

(** ** Width switches *)

(** The numeric and the named keys of an adapter's width table correspond. *)

Lemma TO_WIDTH_keys adapter t key switches :
  TO_WIDTH !! adapter = Some t → t !! key = Some switches →
  match key with
  | WNum n =>
      n = 0 ∨ ∃ nm, mode_defined n 0 adapter = Some nm ∧ t !! WName nm = Some switches
  | WName nm =>
      ∃ n, n ≠ 0 ∧ mode_defined n 0 adapter = Some nm ∧ t !! WNum n = Some switches
  end.
Proof.
  intros Ha Hk.
  pose (same := λ (o : option (gmap Z Z)) (sw : gmap Z Z),
          match o with Some sw' => bool_decide (sw' = sw) | None => false end).
  pose (check := λ (adapter : string) (key : width_key) (sw : gmap Z Z),
    match TO_WIDTH !! adapter with
    | None => false
    | Some t =>
        match key with
        | WNum n =>
            (n =? 0) ||
            match mode_defined n 0 adapter with
            | Some nm => same (t !! WName nm) sw
            | None => false
            end
        | WName nm =>
            existsb (λ e, match e.1 with
                          | WNum n =>
                              negb (n =? 0) &&
                              bool_decide (mode_defined n 0 adapter = Some nm) &&
                              bool_decide (e.2 = sw)
                          | WName _ => false
                          end) (map_to_list t)
        end
    end).
  assert (check adapter key switches = true) as Hc.
  { revert adapter t key switches Ha Hk. apply (table_forall check).
    vm_compute. reflexivity. }
  unfold check in Hc. rewrite Ha in Hc. destruct key as [n|nm].
  - apply orb_true_iff in Hc as [Hz|Hc]; [left; lia|right].
    destruct (mode_defined n 0 adapter) as [nm|]; [|done].
    exists nm. split; [done|]. unfold same in Hc.
    destruct (t !! WName nm); [|done]. by apply bool_decide_eq_true in Hc as ->.
  - apply existsb_exists in Hc as ([k sw] & Hin & Hc). cbn in Hc.
    destruct k as [n|]; [|done].
    apply andb_true_iff in Hc as [Hc Hsw]. apply andb_true_iff in Hc as [Hn Hd].
    apply bool_decide_eq_true in Hsw, Hd. cbn in Hsw. subst sw.
    exists n. repeat split; [lia|done|].
    apply elem_of_map_to_list. by apply list_elem_of_In.
Qed.

(** Every graphics mode number of [_MODES], the Olivetti numbers 4 to
    255 apart, is a key of its adapter's width table, and so is its name,
    with the same switches, which cover 80 columns. *)
Lemma TO_WIDTH_numbers adapter n nm :
  n ≠ 0 → mode_defined n 0 adapter = Some nm →
  (adapter = "olivetti" ∧ 4 ≤ n ≤ 255) ∨
  ∃ t sw target, TO_WIDTH !! adapter = Some t ∧ t !! WNum n = Some sw ∧
                 t !! WName nm = Some sw ∧ sw !! 80 = Some target.
Proof.
  intros Hn Hd. unfold mode_defined in Hd.
  destruct (_MODES !! adapter) as [modes|] eqn:Ha; [|done]. cbn in Hd.
  destruct (Z.eqb_spec n 0); [done|].
  pose (check := λ (tw : gmap string (gmap width_key (gmap Z Z)))
                   (adapter : string) (key : mode_key) (nm : string),
    match key with
    | KPair _ _ => true
    | KNum n =>
        if String.eqb adapter "olivetti" && (4 <=? n) && (n <=? 255) then true
        else
          match tw !! adapter with
          | None => false
          | Some t =>
              match t !! WNum n, t !! WName nm with
              | Some sw, Some sw' =>
                  if bool_decide (sw' = sw)
                  then match sw !! 80 with Some _ => true | None => false end
                  else false
              | _, _ => false
              end
          end
    end).
  assert ((λ tw, forallb (λ e1 : string * gmap mode_key string,
                    forallb (λ e2, check tw e1.1 e2.1 e2.2) (map_to_list e1.2))
                   (map_to_list _MODES)) TO_WIDTH = true) as Hall
    by (vm_compute; reflexivity).
  pose proof (table_forall (check TO_WIDTH) _MODES Hall _ _ _ _ Ha Hd) as Hc.
  clear Hall Ha Hd. unfold check in Hc. clear check.
  destruct (String.eqb adapter "olivetti" && (4 <=? n) && (n <=? 255)) eqn:Ho.
  - left. apply andb_true_iff in Ho as [Ho Hhi%Z.leb_le].
    apply andb_true_iff in Ho as [Ho%String.eqb_eq Hlo%Z.leb_le].
    split; [exact Ho|lia].
  - right. destruct (TO_WIDTH !! adapter) as [t|] eqn:Ht; [|discriminate Hc].
    destruct (t !! WNum n) as [sw|] eqn:Hnum; [|discriminate Hc].
    destruct (t !! WName nm) as [sw'|] eqn:Hnm; [|discriminate Hc].
    destruct (bool_decide (sw' = sw)) eqn:Hsw; [|discriminate Hc].
    apply bool_decide_eq_true in Hsw as ->.
    destruct (sw !! 80) as [target|] eqn:H80; [|discriminate Hc].
    exists t, sw, target. repeat split; assumption.
Qed.

(** The Olivetti numbers 4 to 255 all name '640x400x2' in [_MODES], and
    none of them is a key of the Olivetti width table. *)
Lemma TO_WIDTH_olivetti n :
  4 ≤ n ≤ 255 →
  mode_defined n 0 "olivetti" = Some "640x400x2" ∧
  ∀ cols, to_width "olivetti" (WNum n) cols = Err KeyError.
Proof.
  intros Hn. split.
  - assert (match _MODES !! "olivetti" with
            | Some modes =>
                forallb (λ n, bool_decide (modes !! KNum n = Some "640x400x2")) (seqZ 4 252)
            | None => false
            end = true) as Hall by (vm_compute; reflexivity).
    unfold mode_defined.
    destruct (_MODES !! "olivetti") as [modes|]; [|discriminate Hall]. cbn.
    destruct (Z.eqb_spec n 0); [exfalso; lia|].
    assert (n ∈ seqZ 4 252) as Hin by (apply elem_of_seqZ; lia).
    pose proof (forallb_elem_of _ _ _ Hall Hin) as Hc. cbv beta in Hc.
    by apply bool_decide_eq_true in Hc.
  - intros cols. unfold to_width, dict_get.
    destruct (TO_WIDTH !! "olivetti") as [t|] eqn:Ht; [|reflexivity]. cbn.
    destruct (t !! WNum n) as [sw|] eqn:Hk; [|reflexivity]. exfalso.
    pose (check := λ (adapter : string) (key : width_key) (sw : gmap Z Z),
            match key with
            | WNum n => if String.eqb adapter "olivetti" then n <? 4 else true
            | WName _ => true
            end).
    assert (check "olivetti" (WNum n) sw = true) as Hc.
    { apply (table_forall check TO_WIDTH) with (t := t); [|exact Ht|exact Hk].
      vm_compute. reflexivity. }
    unfold check in Hc. cbn in Hc. lia.
Qed.

(** C7, as the code has it.  On 'cga', mode 1 with 80 columns switches to
    mode 2 and mode 2 with 40 columns back to mode 1.  On every adapter,
    each non-zero mode number that is a key of the width table has its
    graphics mode name as a key too, each name that is a key is the name of
    such a number, and the two keys give the same target for every column
    count.  Every adapter of [_MODES] has a width table, the one of 'vga'
    being that of 'ega' and the one of 'tandy' that of 'pcjr'.  Every
    non-zero mode number that [_MODES] defines on an adapter, the Olivetti
    numbers 4 to 255 apart, is a key of the adapter's table together with
    its name; both give the same result for every column count, and a
    target for 80 columns.  The Olivetti numbers 4 to 255 are not keys:
    the lookup by number raises [KeyError], while the lookup by their
    name, '640x400x2', gives target 3 for 80 columns and 1 for 40. *)
Theorem to_width_by_number_or_name :
  to_width "cga" (WNum 1) 80 = Ok 2 ∧
  to_width "cga" (WNum 2) 40 = Ok 1 ∧
  (∀ adapter t n, TO_WIDTH !! adapter = Some t → n ≠ 0 → is_Some (t !! WNum n) →
     ∃ nm, mode_defined n 0 adapter = Some nm ∧ is_Some (t !! WName nm) ∧
           ∀ cols, to_width adapter (WName nm) cols = to_width adapter (WNum n) cols) ∧
  (∀ adapter t nm, TO_WIDTH !! adapter = Some t → is_Some (t !! WName nm) →
     ∃ n, n ≠ 0 ∧ mode_defined n 0 adapter = Some nm ∧ is_Some (t !! WNum n) ∧
          ∀ cols, to_width adapter (WName nm) cols = to_width adapter (WNum n) cols) ∧
  (∀ adapter, is_Some (_MODES !! adapter) → is_Some (TO_WIDTH !! adapter)) ∧
  TO_WIDTH !! "vga" = TO_WIDTH !! "ega" ∧
  TO_WIDTH !! "tandy" = TO_WIDTH !! "pcjr" ∧
  (∀ adapter n nm, n ≠ 0 → mode_defined n 0 adapter = Some nm →
     ¬ (adapter = "olivetti" ∧ 4 ≤ n ≤ 255) →
     (∃ t, TO_WIDTH !! adapter = Some t ∧
           is_Some (t !! WNum n) ∧ is_Some (t !! WName nm)) ∧
     (∀ cols, to_width adapter (WName nm) cols = to_width adapter (WNum n) cols) ∧
     (∃ target, to_width adapter (WNum n) 80 = Ok target)) ∧
  (∀ n, 4 ≤ n ≤ 255 →
     mode_defined n 0 "olivetti" = Some "640x400x2" ∧
     (∀ cols, to_width "olivetti" (WNum n) cols = Err KeyError) ∧
     to_width "olivetti" (WName "640x400x2") 80 = Ok 3 ∧
     to_width "olivetti" (WName "640x400x2") 40 = Ok 1).
Proof.
  split; [vm_compute; reflexivity|]. split; [vm_compute; reflexivity|].
  split; [|split; [|split; [|split; [|split; [|split]]]]].
  - intros adapter t n Ha Hn [sw Hk].
    pose proof (TO_WIDTH_keys _ _ _ _ Ha Hk) as Hkeys. cbv beta iota in Hkeys.
    destruct Hkeys as [?|(nm & Hd & Hnm)]; [contradiction|].
    exists nm. split; [exact Hd|]. split; [exists sw; exact Hnm|].
    intros cols. unfold to_width, dict_get. rewrite Ha. cbn. rewrite Hk, Hnm. reflexivity.
  - intros adapter t nm Ha [sw Hk].
    pose proof (TO_WIDTH_keys _ _ _ _ Ha Hk) as Hkeys. cbv beta iota in Hkeys.
    destruct Hkeys as (n & Hn & Hd & Hnum).
    exists n. split; [exact Hn|]. split; [exact Hd|]. split; [exists sw; exact Hnum|].
    intros cols. unfold to_width, dict_get. rewrite Ha. cbn. rewrite Hk, Hnum. reflexivity.
  - intros adapter [modes Ha].
    pose (check := λ e : string * gmap mode_key string,
            match TO_WIDTH !! e.1 with Some _ => true | None => false end).
    assert (check (adapter, modes) = true) as Hc.
    { apply (forallb_elem_of check (map_to_list _MODES)); [vm_compute; reflexivity|].
      by apply elem_of_map_to_list. }
    unfold check in Hc. cbn in Hc. by destruct (TO_WIDTH !! adapter).
  - apply (bool_decide_eq_true_1 (TO_WIDTH !! "vga" = TO_WIDTH !! "ega")).
    vm_compute. reflexivity.
  - apply (bool_decide_eq_true_1 (TO_WIDTH !! "tandy" = TO_WIDTH !! "pcjr")).
    vm_compute. reflexivity.
  - intros adapter n nm Hn Hd Hex.
    destruct (TO_WIDTH_numbers adapter n nm Hn Hd)
      as [?|(t & sw & target & Ha & Hnum & Hnm & H80)]; [contradiction|].
    clear Hd Hex. split.
    { exists t. split; [exact Ha|]. rewrite Hnum, Hnm. split; eexists; reflexivity. }
    unfold to_width, dict_get.
    rewrite Ha. cbn. rewrite Hnum, Hnm. cbn. split; [intros cols; reflexivity|].
    exists target. rewrite H80. reflexivity.
  - intros n Hn. destruct (TO_WIDTH_olivetti n Hn) as [Hd Hk].
    split; [exact Hd|]. split; [exact Hk|]. split; vm_compute; reflexivity.
Qed.

Lemma to_width_by_number_or_name_witness :
  (∃ t, TO_WIDTH !! "tandy" = Some t ∧
        is_Some (t !! WNum 5) ∧ is_Some (t !! WName "320x200x16pcjr")) ∧
  (∀ cols, to_width "tandy" (WName "320x200x16pcjr") cols = to_width "tandy" (WNum 5) cols) ∧
  (∃ target, to_width "tandy" (WNum 5) 80 = Ok target).
Proof.
  apply (proj1 (proj2 (proj2 (proj2 (proj2 (proj2 (proj2 (proj2
           to_width_by_number_or_name))))))) "tandy" 5 "320x200x16pcjr").
  - lia.
  - vm_compute. reflexivity.
  - intros [H _]. discriminate H.
Defined.

(** On Olivetti, mode 4 has the name '640x400x2', which is a key of the
    width table, while the number 4 is not. *)
Lemma to_width_olivetti_number_not_a_key :
  mode_defined 4 0 "olivetti" = Some "640x400x2" ∧
  to_width "olivetti" (WNum 4) 80 = Err KeyError ∧
  to_width "olivetti" (WName "640x400x2") 80 = Ok 3.
Proof. repeat split; vm_compute; reflexivity. Qed.

(** ** Coordinates *)

(** The conversion back recovers any text position, in range or not, as
    soon as neither font dimension is zero. *)
Lemma pixel_to_text_of_text_to_pixel (m : VideoMode) (row col : Z) :
  font_width m ≠ 0 → font_height m ≠ 0 →
  pixel_to_text_pos m (text_to_pixel_pos m row col).1 (text_to_pixel_pos m row col).2
  = Ok (row, col).
Proof.
  intros Hw Hh. unfold pixel_to_text_pos, text_to_pixel_pos. cbn.
  rewrite !py_floordiv_mul by done. cbn. do 2 f_equal; lia.
Qed.

(** C8: for a mode with positive font width and height and a text position
    with [1 ≤ row ≤ height] and [1 ≤ col ≤ width], [pixel_to_text_pos] of
    the pixel position given by [text_to_pixel_pos] is [(row, col)]. *)
Theorem text_pixel_round_trip (m : VideoMode) (row col : Z) :
  0 < font_width m → 0 < font_height m →
  1 ≤ row ≤ height m → 1 ≤ col ≤ width m →
  ∀ x y, text_to_pixel_pos m row col = (x, y) →
  pixel_to_text_pos m x y = Ok (row, col).
Proof.
  intros Hw Hh _ _ x y Hxy.
  pose proof (pixel_to_text_of_text_to_pixel m row col) as H.
  rewrite Hxy in H. apply H; lia.
Qed.

Lemma text_pixel_round_trip_witness :
  pixel_to_text_pos
    (VideoMode_init TextMode "cgatext80" 25 80 8 8 (VInt 7)
       (mkColourMapper EGA16TextColourMapper "cga" "rgb")) 32 16 = Ok (3, 5).
Proof.
  apply (text_pixel_round_trip
    (VideoMode_init TextMode "cgatext80" 25 80 8 8 (VInt 7)
       (mkColourMapper EGA16TextColourMapper "cga" "rgb")) 3 5);
    cbn; try lia; reflexivity.
Defined.

(** ** Font cells and page counts of the graphics modes *)

Lemma bind_Ok_inv {A B} (r : result A) (f : A → result B) (b : B) :
  r ≫= f = Ok b → ∃ a, r = Ok a ∧ f a = Ok b.
Proof. destruct r as [a|e]; [|discriminate]. intros H. by exists a. Qed.

Lemma py_floordiv_Ok_inv (a b q : Z) :
  py_floordiv a b = Ok q → b ≠ 0 ∧ q = a / b.
Proof.
  unfold py_floordiv. destruct (Z.eqb_spec b 0); [discriminate|].
  by intros [= <-].
Qed.

Ltac inv_bind H :=
  let x := fresh "x" in
  let Hx := fresh "Hx" in
  apply bind_Ok_inv in H as (x & Hx & H).

(** [-(-a // b)] is the ceiling of [a / b] for a positive [b]. *)
Lemma ceildiv_spec (a b : Z) :
  0 < b → (- (- a / b) - 1) * b < a ≤ - (- a / b) * b.
Proof.
  intros Hb.
  pose proof (Z.div_mod (- a) b ltac:(lia)) as Hdm.
  pose proof (Z.mod_pos_bound (- a) b Hb) as Hmod.
  nia.
Qed.

(** What [GraphicsMode.__init__] computes, for any keywords it accepts. *)
Lemma GraphicsMode_init_font cls nm vms cm kwargs m :
  GraphicsMode_init cls nm vms cm kwargs = Ok m →
  height m ≠ 0 ∧ width m ≠ 0 ∧
  font_height m = - (- pixel_height m / height m) ∧
  font_width m = pixel_width m / width m.
Proof.
  unfold GraphicsMode_init. intros H.
  do 10 inv_bind H.
  apply bind_Ok_inv in H as (fw & Hfw & H).
  apply bind_Ok_inv in H as (q & Hq & H).
  apply py_floordiv_Ok_inv in Hfw as [? ->], Hq as [? ->].
  injection H as <-. cbn. auto.
Qed.

Ltac not_a_member H :=
  repeat (apply elem_of_cons in H as [H | H]; [discriminate H|]);
  apply elem_of_nil in H; contradiction.

Ltac run_get_mode m H :=
  match goal with
  | |- context [get_mode ?n ?c ?a ?mon ?v] =>
      destruct (get_mode n c a mon v) as [m|] eqn:H;
      [vm_compute in H; injection H as <- | vm_compute in H; discriminate H]
  end.


(** The dimensions every graphics definition leads to. *)
Lemma _get_graphics_mode_dims nm adapter monitor vms m :
  nm ∈ graphics_names → _get_graphics_mode nm adapter monitor vms = Ok m →
  0 < height m ∧ 0 < width m ∧
  font_height m = - (- pixel_height m / height m) ∧
  font_width m = pixel_width m / width m ∧
  font_width m * width m = pixel_width m.
Proof.
  intros Hin H. unfold graphics_names in Hin.
  each_name Hin; vm_compute in H; injection H as <-; vm_compute; repeat split; congruence.
Qed.

(** C9: every graphics mode that [get_mode] constructs has a font height
    equal to the ceiling of its pixel height over its row count, and a font
    width that divides the pixel width exactly by the column count.  The
    Hercules mode has font height 14 on 25 rows although 14 * 25 is not
    348. *)
Theorem graphics_font_cell :
  (∀ number cols adapter monitor vms m,
     number ≠ 0 → get_mode number cols adapter monitor vms = Ok m →
     font_height m = - (- pixel_height m / height m) ∧
     (font_height m - 1) * height m < pixel_height m ≤ font_height m * height m ∧
     font_width m = pixel_width m / width m ∧
     font_width m * width m = pixel_width m) ∧
  (∀ cols monitor vms, ∃ m,
     get_mode 3 cols "hercules" monitor vms = Ok m ∧
     pixel_height m = 348 ∧ height m = 25 ∧ font_height m = 14 ∧
     font_height m * height m ≠ pixel_height m).
Proof.
  split.
  - intros number cols adapter monitor vms m Hn Hm.
    destruct (get_mode_graphics _ _ _ _ _ _ Hn Hm) as (nm & Hin & Hg).
    destruct (_get_graphics_mode_dims _ _ _ _ _ Hin Hg) as (Hh & Hw & Hfh & Hfw & Hex).
    split; [exact Hfh|]. split; [|split; [exact Hfw|exact Hex]].
    rewrite Hfh. apply ceildiv_spec, Hh.
  - intros. eexists. split; [vm_compute; reflexivity|].
    cbn. repeat split; lia.
Qed.

Lemma graphics_font_cell_witness :
  ∃ m, get_mode 9 80 "ega" "rgb" 262144 = Ok m ∧
       font_height m = 14 ∧ font_width m = 8.
Proof.
  destruct (get_mode 9 80 "ega" "rgb" 262144) as [m|] eqn:Hm;
    [|vm_compute in Hm; discriminate Hm].
  exists m. split; [reflexivity|].
  destruct (proj1 graphics_font_cell 9 80 "ega" "rgb" 262144 m ltac:(lia) Hm)
    as (Hfh & _ & Hfw & _).
  vm_compute in Hm. injection Hm as <-. split; [exact Hfh|exact Hfw].
Defined.

(** ** The shared definitions of the eight-page modes *)

(** The page count every graphics definition hands to its memory mapper is
    the [max_pages] entry of the dictionary the name is bound to. *)
Lemma _get_graphics_mode_max_pages nm adapter monitor vms m :
  nm ∈ graphics_names → _get_graphics_mode nm adapter monitor vms = Ok m →
  mapper_max_pages <$> memorymap m = max_pages_in loaded nm.
Proof.
  intros Hin H. unfold graphics_names in Hin.
  each_name Hin; vm_compute in H; injection H as <-; vm_compute; reflexivity.
Qed.

(** C10: after the module body has run, '320x200x4_8pg' and '640x200x2_8pg'
    are bound to the same dictionary objects as '320x200x4' and '640x200x2',
    whose [max_pages] was 1 when the display of [_GRAPHICS_MODES] had been
    evaluated and is 8 at the end; hence every mode [get_mode] returns under
    one of these four names, on any adapter, has a memory mapper constructed
    with a page count of 8, as have CGA modes 1 and 2. *)
Theorem base_cga_modes_carry_eight_pages :
  graphics_modes loaded !! "320x200x4_8pg" = graphics_modes loaded !! "320x200x4" ∧
  graphics_modes loaded !! "640x200x2_8pg" = graphics_modes loaded !! "640x200x2" ∧
  is_Some (graphics_modes loaded !! "320x200x4") ∧
  is_Some (graphics_modes loaded !! "640x200x2") ∧
  (∀ nm, nm = "320x200x4" ∨ nm = "640x200x2" →
     max_pages_in after_display nm = Some (VInt 1) ∧
     max_pages_in loaded nm = Some (VInt 8)) ∧
  (∀ number cols adapter monitor vms m,
     get_mode number cols adapter monitor vms = Ok m →
     name m ∈ ["320x200x4"; "640x200x2"; "320x200x4_8pg"; "640x200x2_8pg"] →
     mapper_max_pages <$> memorymap m = Some (VInt 8)) ∧
  (∀ cols monitor vms, ∃ m1 m2,
     get_mode 1 cols "cga" monitor vms = Ok m1 ∧
     get_mode 2 cols "cga" monitor vms = Ok m2 ∧
     name m1 = "320x200x4" ∧ name m2 = "640x200x2" ∧
     mapper_max_pages <$> memorymap m1 = Some (VInt 8) ∧
     mapper_max_pages <$> memorymap m2 = Some (VInt 8)).
Proof.
  split; [vm_compute; reflexivity|]. split; [vm_compute; reflexivity|].
  split; [vm_compute; eexists; reflexivity|].
  split; [vm_compute; eexists; reflexivity|]. split; [|split].
  - intros nm [-> | ->]; split; vm_compute; reflexivity.
  - intros number cols adapter monitor vms m Hm Hname.
    rewrite get_mode_unfold in Hm.
    destruct (mode_defined number cols adapter) as [nm|] eqn:Hd; [|discriminate Hm].
    apply mode_defined_names in Hd.
    destruct (Z.eqb_spec number 0) as [->|Hn].
    + exfalso. unfold text_names in Hd.
      each_name Hd; vm_compute in Hm; injection Hm as <-; cbn in Hname;
        not_a_member Hname.
    + unfold graphics_names in Hd.
      each_name Hd; vm_compute in Hm; injection Hm as <-; cbn in Hname;
        first [ reflexivity | not_a_member Hname ].
  - intros cols monitor vms.
    run_get_mode m1 H1. run_get_mode m2 H2.
    eexists _, _. split; [reflexivity|]. split; [reflexivity|].
    cbn. repeat split.
Qed.

Lemma base_cga_modes_carry_eight_pages_witness :
  ∃ m, get_mode 1 40 "ega" "rgb" 16384 = Ok m ∧
       mapper_max_pages <$> memorymap m = Some (VInt 8).
Proof.
  run_get_mode m H. eexists. split; [reflexivity|].
  apply (proj1 (proj2 (proj2 (proj2 (proj2 (proj2 base_cga_modes_carry_eight_pages)))))
           1 40 "ega" "rgb" 16384).
  - vm_compute. reflexivity.
  - cbn. apply list_elem_of_here.
Defined.

(** ** Lists, ranges and slices *)

Lemma mapM_Ok_Forall2 {A B} (f : A → result B) (l : list A) (k : list B) :
  Forall2 (λ x y, f x = Ok y) l k → mapM f l = Ok k.
Proof.
  induction 1 as [|x y l k Hxy _ IH]; [reflexivity|].
  cbn. rewrite Hxy. cbn. rewrite IH. reflexivity.
Qed.

Lemma mapM_Ok_fmap {A B} (f : A → result B) (g : A → B) (l : list A) :
  Forall (λ x, f x = Ok (g x)) l → mapM f l = Ok (g <$> l).
Proof.
  intros H. apply mapM_Ok_Forall2. induction H; constructor; auto.
Qed.

Lemma mapM_Ok_inv {A B} (f : A → result B) (l : list A) (k : list B) :
  mapM f l = Ok k → Forall2 (λ x y, f x = Ok y) l k.
Proof.
  revert k. induction l as [|x l IH]; intros k; cbn.
  - intros [= <-]. constructor.
  - destruct (f x) as [y|] eqn:Hy; cbn; [|discriminate].
    destruct (mapM f l) as [k'|] eqn:Hk; cbn; [|discriminate].
    intros [= <-]. constructor; auto.
Qed.

Lemma mapM_app_Ok {A B} (f : A → result B) (l1 l2 : list A) (k1 k2 : list B) :
  mapM f l1 = Ok k1 → mapM f l2 = Ok k2 → mapM f (l1 ++ l2) = Ok (k1 ++ k2).
Proof.
  intros H1%mapM_Ok_inv H2%mapM_Ok_inv.
  apply mapM_Ok_Forall2. by apply Forall2_app.
Qed.

Lemma len_nonneg {A} (l : list A) : 0 ≤ len l.
Proof. unfold len. lia. Qed.

Lemma len_app {A} (l k : list A) : len (l ++ k) = len l + len k.
Proof. unfold len. rewrite length_app. lia. Qed.

Lemma len_cons {A} (x : A) (l : list A) : len (x :: l) = 1 + len l.
Proof. unfold len. cbn [length]. lia. Qed.

Lemma len_concat_uniform {A} (ls : list (list A)) (w : Z) :
  Forall (λ r, len r = w) ls → len (concat ls) = len ls * w.
Proof.
  induction 1 as [|r ls Hr _ IH]; [reflexivity|].
  cbn [concat]. rewrite len_app, len_cons, IH, Hr. lia.
Qed.

Lemma elem_of_concat {A} (x : A) (ls : list (list A)) :
  x ∈ concat ls ↔ ∃ l, x ∈ l ∧ l ∈ ls.
Proof.
  induction ls as [|l ls IH]; cbn [concat].
  - split; [by intros ?%elem_of_nil|by intros (? & _ & ?%elem_of_nil)].
  - rewrite elem_of_app, IH. split.
    + intros [?|(l' & ? & ?)]; [exists l; split; [done|left]|exists l'; split; [done|by right]].
    + intros (l' & ? & [->|?]%elem_of_cons); [by left|right; eauto].
Qed.

Lemma Forall_concat_rows {A} (P : A → Prop) (ls : list (list A)) :
  Forall (Forall P) ls → Forall P (concat ls).
Proof.
  induction 1; cbn [concat]; [constructor|]. by apply Forall_app.
Qed.

(** The items of a forward slice are a segment of the list. *)
Lemma omap_lookup_segment {A} (l : list A) (start : nat) (count : nat) :
  (start + count ≤ length l)%nat →
  omap (λ i, l !! Z.to_nat (Z.of_nat start + i * 1)) (seqZ 0 (Z.of_nat count))
  = take count (drop start l).
Proof.
  induction count as [|n IH]; intros Hlen.
  - reflexivity.
  - rewrite seqZ_S.
    rewrite omap_app, IH by lia. cbn.
    replace (Z.to_nat (Z.of_nat start + (0 + Z.of_nat n) * 1)) with (start + n)%nat by lia.
    destruct (lookup_lt_is_Some_2 l (start + n)%nat ltac:(lia)) as [x Hx].
    rewrite Hx. cbn.
    rewrite (take_S_r _ _ x); [reflexivity|].
    by rewrite lookup_drop.
Qed.

Lemma omap_lookup_segment_Z {A} (l : list A) (start count : Z) :
  0 ≤ start → 0 ≤ count → start + count ≤ len l →
  omap (λ i, l !! Z.to_nat (start + i * 1)) (seqZ 0 count)
  = take (Z.to_nat count) (drop (Z.to_nat start) l).
Proof.
  intros Hs Hc Hlen. unfold len in Hlen.
  rewrite <- (Z2Nat.id start Hs), <- (Z2Nat.id count Hc).
  rewrite omap_lookup_segment by lia. by rewrite !Nat2Z.id.
Qed.

(** [l[lo:hi]] with [0 ≤ lo ≤ hi] is the segment from [lo] of length
    [hi - lo], clipped to the list. *)
Lemma getslice_range {A} (l : list A) (lo hi : Z) :
  0 ≤ lo → lo ≤ hi →
  getslice l (slice_of lo hi) = Ok (take (Z.to_nat (hi - lo)) (drop (Z.to_nat lo) l)).
Proof.
  intros Hlo Hhi. unfold getslice, slice_of, slice_indices, adjust_bound. cbn.
  pose proof (len_nonneg l) as Hn.
  destruct (Z.ltb_spec lo 0); [lia|].
  destruct (Z.ltb_spec hi 0); [lia|].
  f_equal.
  destruct (Z.leb_spec (len l) lo).
  - (* the slice starts beyond the end *)
    rewrite drop_ge by (unfold len in *; lia). rewrite take_nil.
    destruct (Z.leb_spec (len l) hi).
    + rewrite Z.ltb_irrefl. reflexivity.
    + destruct (Z.ltb_spec (len l) hi); [lia|]. reflexivity.
  - destruct (Z.leb_spec (len l) hi).
    + (* the slice runs to the end *)
      destruct (Z.ltb_spec lo (len l)); [|lia].
      rewrite Z.div_1_r.
      rewrite omap_lookup_segment_Z by lia.
      rewrite !take_ge; [reflexivity| |]; rewrite length_drop; unfold len in *; lia.
    + destruct (Z.ltb_spec lo hi).
      * rewrite Z.div_1_r.
        rewrite omap_lookup_segment_Z by lia.
        do 2 f_equal. lia.
      * replace (Z.to_nat (hi - lo)) with 0%nat by lia. reflexivity.
Qed.

(** [range(0, k*w, w)] for a positive step. *)
Lemma py_range_multiples (k w : Z) :
  0 < w → 0 ≤ k → py_range 0 (k * w) w = Ok ((λ i, i * w) <$> seqZ 0 k).
Proof.
  intros Hw Hk. unfold py_range, range_len.
  destruct (Z.eqb_spec w 0); [lia|].
  destruct (Z.ltb_spec 0 w); [|lia].
  f_equal.
  destruct (Z.ltb_spec 0 (k * w)).
  - replace (1 + (k * w - 1 - 0) / w) with k.
    + apply list_fmap_ext. intros; lia.
    + replace (k * w - 1 - 0) with ((k - 1) * w + (w - 1)) by lia.
      rewrite Z.div_add_l by lia. rewrite Z.div_small by lia. lia.
  - assert (k = 0) as -> by nia. reflexivity.
Qed.

(** The [i]-th segment of width [w] of a concatenation of rows of width
    [w] is the [i]-th row. *)
Lemma segment_concat {A} (ls : list (list A)) (w i : nat) (r : list A) :
  Forall (λ r, length r = w) ls → ls !! i = Some r →
  take w (drop (i * w) (concat ls)) = r.
Proof.
  intros Hall. revert i. induction Hall as [|r0 ls Hr0 _ IH]; intros i Hi; [done|].
  destruct i as [|i]; cbn in Hi.
  - injection Hi as <-. cbn [concat]. rewrite Nat.mul_0_l, drop_0.
    by rewrite take_app_length'.
  - cbn [concat]. replace (S i * w)%nat with (length r0 + i * w)%nat by lia.
    rewrite drop_app_add. apply IH, Hi.
Qed.

(** Cutting the concatenation of rows of positive width [w] at the
    multiples of [w] gives the rows back. *)
Lemma chunks_concat {A} (ls : list (list A)) (w : Z) :
  0 < w → Forall (λ r, len r = w) ls →
  mapM (λ o, getslice (concat ls) (slice_of o (o + w))) ((λ i, i * w) <$> seqZ 0 (len ls))
  = Ok ls.
Proof.
  intros Hw Hall. apply mapM_Ok_Forall2.
  apply Forall2_fmap_l. apply Forall2_same_length_lookup. split.
  - rewrite length_seqZ. unfold len. lia.
  - intros i x r Hx Hr. apply lookup_seqZ in Hx as [-> Hi].
    unfold compose. rewrite getslice_range by lia.
    f_equal. replace (0 + Z.of_nat i) with (Z.of_nat i) by lia.
    replace (Z.to_nat (Z.of_nat i * w + w - Z.of_nat i * w)) with (Z.to_nat w) by lia.
    replace (Z.to_nat (Z.of_nat i * w)) with (i * Z.to_nat w)%nat by nia.
    apply segment_concat; [|done].
    eapply Forall_impl; [exact Hall|]. unfold len. intros; cbn in *; lia.
Qed.

(** ** Row lists and [_create_from_rows] *)

Lemma remove_dups_uniform (w : nat) (l : list nat) :
  l ≠ [] → Forall (λ n, n = w) l → remove_dups l = [w].
Proof.
  intros Hne Hall. induction Hall as [|n l -> Hall IH]; [done|].
  cbn. destruct l as [|n' l'].
  - cbn. destruct (decide_rel _ _ _) as [Hin|_]; [by apply elem_of_nil in Hin|done].
  - rewrite IH by done.
    inversion Hall; subst.
    destruct (decide_rel _ _ _) as [_|Hnin]; [done|].
    exfalso. apply Hnin. left.
Qed.

Lemma getitem_head {A} (x : A) (l : list A) : getitem (x :: l) 0 = Ok x.
Proof.
  unfold getitem. cbn -[len].
  assert ((0 <? len (x :: l)) = true) as ->
    by (rewrite len_cons; pose proof (len_nonneg l); lia).
  reflexivity.
Qed.

Lemma _create_from_rows_uniform (r : list Z) (rs : list (list Z)) :
  Forall (λ r', length r' = length r) rs →
  _create_from_rows (r :: rs) = Ok (mkByteMatrix (len r) (len (r :: rs)) (Some (r :: rs))).
Proof.
  intros Hall. unfold _create_from_rows. rewrite getitem_head.
  cbn [mbind result_bind].
  rewrite (remove_dups_uniform (length r)); [reflexivity|done|].
  constructor; [done|]. apply Forall_fmap. exact Hall.
Qed.

Lemma _create_from_rows_nil : _create_from_rows [] = Err IndexError.
Proof. reflexivity. Qed.

Lemma _create_from_rows_ragged (rs : list (list Z)) (r1 r2 : list Z) :
  r1 ∈ rs → r2 ∈ rs → length r1 ≠ length r2 →
  _create_from_rows rs = Err AssertionError.
Proof.
  intros H1 H2 Hne. unfold _create_from_rows.
  destruct rs as [|r rs]; [by apply elem_of_nil in H1|].
  rewrite getitem_head. cbn [mbind result_bind].
  destruct (Nat.eqb_spec (length (remove_dups (length <$> r :: rs))) 1) as [Hone|];
    [|reflexivity].
  exfalso. apply Hne.
  destruct (remove_dups (length <$> r :: rs)) as [|n [|? ?]] eqn:Hd; try discriminate.
  assert (∀ x, x ∈ r :: rs → length x = n) as Hsame.
  { intros x Hx.
    assert (length x ∈ remove_dups (length <$> r :: rs)) as Hin
      by (apply elem_of_remove_dups, list_elem_of_fmap; eauto).
    rewrite Hd in Hin. by apply list_elem_of_singleton in Hin. }
  rewrite (Hsame _ H1), (Hsame _ H2). reflexivity.
Qed.

(** ** Stacking *)

Lemma well_formed_rows (g : ByteMatrix) :
  well_formed g →
  _rows g = Some (rows_of g) ∧ _height g = len (rows_of g) ∧
  Forall (λ r, len r = _width g ∧ Forall is_byte r) (rows_of g).
Proof. intros (rs & Hrs & Hh & Hall). unfold rows_of. rewrite Hrs. by cbn. Qed.

Lemma mapM_get_rows (ms : list ByteMatrix) :
  Forall well_formed ms → mapM get_rows ms = Ok (rows_of <$> ms).
Proof.
  intros Hall. apply mapM_Ok_fmap. eapply Forall_impl; [exact Hall|].
  intros g Hg. apply well_formed_rows in Hg as (Hrs & _). unfold get_rows.
  by rewrite Hrs.
Qed.

Lemma zip_star_cons {A} (l l' : list A) (ls : list (list A)) :
  zip_star (l :: l' :: ls) = zip_with cons l (zip_star (l' :: ls)).
Proof. reflexivity. Qed.

Lemma zip_star_length_le {A} (ls : list (list A)) (l : list A) :
  l ∈ ls → (length (zip_star ls) ≤ length l)%nat.
Proof.
  induction ls as [|l0 [|l1 ls] IH]; intros Hin.
  - by apply elem_of_nil in Hin.
  - apply list_elem_of_singleton in Hin as ->. cbn. by rewrite length_fmap.
  - rewrite zip_star_cons, length_zip_with.
    apply elem_of_cons in Hin as [-> | Hin]; [lia|].
    specialize (IH Hin). lia.
Qed.

Lemma zip_star_length_attained {A} (ls : list (list A)) :
  ls ≠ [] → ∃ l, l ∈ ls ∧ length (zip_star ls) = length l.
Proof.
  induction ls as [|l0 [|l1 ls] IH]; intros Hne; [done| |].
  - exists l0. split; [left|]. cbn. by rewrite length_fmap.
  - destruct IH as (l & Hin & Hlen); [done|].
    rewrite zip_star_cons, length_zip_with.
    destruct (Nat.le_ge_cases (length l0) (length (zip_star (l1 :: ls)))).
    + exists l0. split; [left|lia].
    + exists l. split; [by right|lia].
Qed.

(** The [i]-th tuple of [zip] holds the [i]-th item of every argument, and
    exists when all of these do. *)
Lemma zip_star_lookup {A} (ls : list (list A)) (i : nat) (tup : list A) :
  ls ≠ [] →
  zip_star ls !! i = Some tup ↔ Forall2 (λ l x, l !! i = Some x) ls tup.
Proof.
  revert tup. induction ls as [|l0 [|l1 ls] IH]; intros tup Hne; [done| |].
  - cbn. rewrite list_lookup_fmap. split.
    + destruct (l0 !! i) as [x|] eqn:Hx; cbn; [|done].
      intros [= <-]. by repeat constructor.
    + intros H. inversion H as [|? x ? t Hx Ht]; subst. inversion Ht; subst.
      by rewrite Hx.
  - rewrite zip_star_cons, lookup_zip_with. split.
    + destruct (l0 !! i) as [x|] eqn:Hx; [|done].
      destruct (zip_star (l1 :: ls) !! i) as [t|] eqn:Ht; [|done].
      intros [= <-]. constructor; [done|]. by apply IH.
    + intros H. inversion H as [|? x ? t Hx Ht]; subst.
      apply IH in Ht; [|done]. by rewrite Hx, Ht.
Qed.

Lemma zip_star_tuple_width (ls : list (list (list Z))) (ws : list Z) (tup : list (list Z)) :
  Forall2 (λ rs w, Forall (λ r, len r = w) rs) ls ws →
  tup ∈ zip_star ls → len (concat tup) = py_sum ws.
Proof.
  intros Hws Hin. apply list_elem_of_lookup in Hin as [i Hi].
  destruct (decide (ls = [])) as [->|Hne]; [done|].
  apply zip_star_lookup in Hi; [|done]. clear Hne.
  revert tup Hi. induction Hws as [|rs w ls ws Hrs _ IH]; intros tup Hi.
  - inversion Hi. reflexivity.
  - inversion Hi as [|? r ? t Hr Ht]; subst.
    cbn [concat py_sum foldr]. rewrite len_app.
    rewrite (IH t Ht). f_equal.
    rewrite Forall_forall in Hrs. apply Hrs. eapply list_elem_of_lookup_2, Hr.
Qed.

Lemma well_formed_widths (ms : list ByteMatrix) :
  Forall well_formed ms →
  Forall2 (λ rs w, Forall (λ r, len r = w) rs) (rows_of <$> ms) (_width <$> ms).
Proof.
  intros Hall. apply Forall2_fmap, Forall_Forall2_diag.
  eapply Forall_impl; [exact Hall|]. intros g Hg.
  apply well_formed_rows in Hg as (_ & _ & Hrows).
  eapply Forall_impl; [exact Hrows|]. by intros r [? _].
Qed.

(** [hstack] of well-formed matrices: no height is compared; the matrix
    returned has as many rows as [zip] gives tuples. *)
Lemma hstack_rows (ms : list ByteMatrix) :
  Forall well_formed ms →
  hstack ms =
    match zip_star (rows_of <$> ms) with
    | [] => Err IndexError
    | tups => Ok (mkByteMatrix (py_sum (_width <$> ms)) (len tups)
                    (Some (@concat Z <$> tups)))
    end.
Proof.
  intros Hall. unfold hstack. rewrite mapM_get_rows by done. cbn [mbind result_bind].
  assert (∀ tup, tup ∈ zip_star (rows_of <$> ms) →
               len (concat tup) = py_sum (_width <$> ms)) as Hw.
  { intros tup. apply zip_star_tuple_width, well_formed_widths, Hall. }
  destruct (zip_star (rows_of <$> ms)) as [|tup tups]; [reflexivity|].
  change (map (@concat Z) (tup :: tups)) with (concat tup :: (@concat Z <$> tups)).
  rewrite _create_from_rows_uniform.
  - rewrite (Hw tup) by left. f_equal. f_equal.
    unfold len. cbn. by rewrite length_fmap.
  - apply Forall_fmap, Forall_forall. intros t Ht. cbn.
    pose proof (Hw t ltac:(by right)) as H1. pose proof (Hw tup ltac:(left)) as H2.
    unfold len in *. lia.
Qed.

(** [vstack] of well-formed matrices. *)
Lemma vstack_rows (ms : list ByteMatrix) :
  Forall well_formed ms → vstack ms = _create_from_rows (concat (rows_of <$> ms)).
Proof. intros Hall. unfold vstack. by rewrite mapM_get_rows. Qed.

Lemma len_concat_rows (ms : list ByteMatrix) :
  Forall well_formed ms → len (concat (rows_of <$> ms)) = py_sum (_height <$> ms).
Proof.
  induction 1 as [|g ms Hg _ IH]; [reflexivity|].
  rewrite !fmap_cons. cbn [concat]. rewrite len_app, IH.
  apply well_formed_rows in Hg as (_ & -> & _). reflexivity.
Qed.

(** C4, as the code has it: [hstack] compares no heights.  On a non-empty
    sequence of well-formed matrices with at least one row each it returns
    the matrix whose width is the sum of the widths, whose height is the
    least of the heights and whose [i]-th row is the concatenation of the
    [i]-th rows of the inputs, so that matrices of one height are put side
    by side.  [vstack] fails with the assertion of [_create_from_rows] when
    two of its inputs that have rows differ in width, and when all have the
    same width and there is a row it returns their rows from top to
    bottom. *)
Theorem stacking_shapes :
  (∀ ms, Forall well_formed ms → ms ≠ [] → Forall (λ m, 0 < _height m) ms →
     ∃ g, hstack ms = Ok g ∧
          _width g = py_sum (_width <$> ms) ∧
          (∀ m, m ∈ ms → _height g ≤ _height m) ∧
          (∃ m, m ∈ ms ∧ _height g = _height m) ∧
          (∀ i row, rows_of g !! i = Some row ↔
             ∃ tup, Forall2 (λ m r, rows_of m !! i = Some r) ms tup ∧ row = concat tup)) ∧
  (∀ ms m1 m2, Forall well_formed ms → m1 ∈ ms → m2 ∈ ms →
     0 < _height m1 → 0 < _height m2 → _width m1 ≠ _width m2 →
     vstack ms = Err AssertionError) ∧
  (∀ ms w, Forall well_formed ms → Forall (λ m, _width m = w) ms →
     0 < py_sum (_height <$> ms) →
     vstack ms = Ok (mkByteMatrix w (py_sum (_height <$> ms))
                       (Some (concat (rows_of <$> ms))))).
Proof.
  split; [|split].
  - intros ms Hwf Hne Hpos. rewrite hstack_rows by done.
    assert (rows_of <$> ms ≠ []) as Hne' by (by destruct ms).
    assert (∀ m, m ∈ ms → _height m = len (rows_of m)) as Hheight.
    { intros m Hm. rewrite Forall_forall in Hwf.
      by apply Hwf, well_formed_rows in Hm as (_ & ? & _). }
    destruct (zip_star_length_attained _ Hne') as (rs & Hrs & Hlen).
    apply list_elem_of_fmap in Hrs as (m0 & -> & Hm0).
    assert (0 < _height m0) as Hpos0 by (rewrite Forall_forall in Hpos; auto).
    rewrite (Hheight _ Hm0) in Hpos0.
    destruct (zip_star (rows_of <$> ms)) as [|tup tups] eqn:Hz.
    { exfalso. unfold len in Hpos0. cbn in Hlen. lia. }
    rewrite <- Hz in *. eexists. split; [reflexivity|]. cbn.
    split; [reflexivity|]. split; [|split].
    + intros m Hm. rewrite (Hheight _ Hm). unfold len.
      apply inj_le, zip_star_length_le, list_elem_of_fmap. eauto.
    + exists m0. split; [done|]. rewrite (Hheight _ Hm0). unfold len. by rewrite Hlen.
    + intros i row. unfold rows_of at 1. cbn. rewrite list_lookup_fmap_Some. split.
      * intros (tup' & -> & Htup). exists tup'. split; [|done].
        apply zip_star_lookup in Htup; [|done]. by apply Forall2_fmap_l in Htup.
      * intros (tup' & Htup & ->). exists tup'. split; [done|].
        apply zip_star_lookup; [done|]. by apply Forall2_fmap_l.
  - intros ms m1 m2 Hwf H1 H2 Hh1 Hh2 Hw. rewrite vstack_rows by done.
    rewrite Forall_forall in Hwf.
    destruct (well_formed_rows m1 (Hwf _ H1)) as (_ & Hl1 & Hr1).
    destruct (well_formed_rows m2 (Hwf _ H2)) as (_ & Hl2 & Hr2).
    destruct (rows_of m1) as [|r1 rs1] eqn:E1; [exfalso; unfold len in Hl1; cbn in Hl1; lia|].
    destruct (rows_of m2) as [|r2 rs2] eqn:E2; [exfalso; unfold len in Hl2; cbn in Hl2; lia|].
    apply (_create_from_rows_ragged _ r1 r2).
    + apply elem_of_concat. exists (r1 :: rs1). split; [left|].
      apply list_elem_of_fmap. exists m1. by rewrite E1.
    + apply elem_of_concat. exists (r2 :: rs2). split; [left|].
      apply list_elem_of_fmap. exists m2. by rewrite E2.
    + apply Forall_cons_1 in Hr1 as [[Hw1 _] _], Hr2 as [[Hw2 _] _].
      unfold len in *. lia.
  - intros ms w Hwf Hw Hpos. rewrite vstack_rows by done.
    rewrite <- len_concat_rows in * by done.
    assert (Forall (λ r, len r = w) (concat (rows_of <$> ms))) as Hall.
    { apply Forall_concat_rows, Forall_fmap.
      rewrite Forall_forall in Hwf, Hw. apply Forall_forall. intros m Hm. cbn.
      destruct (well_formed_rows m (Hwf _ Hm)) as (_ & _ & Hr).
      eapply Forall_impl; [exact Hr|]. intros r [? _]. rewrite <- (Hw _ Hm). done. }
    destruct (concat (rows_of <$> ms)) as [|r rs]; [exfalso; unfold len in Hpos; cbn in Hpos; lia|].
    rewrite _create_from_rows_uniform.
    + apply Forall_cons_1 in Hall as [<- _]. reflexivity.
    + apply Forall_cons_1 in Hall as [Hr Hrs].
      eapply Forall_impl; [exact Hrs|]. unfold len in *. intros; cbn in *; lia.
Qed.

Lemma stacking_shapes_witness :
  vstack [mkByteMatrix 2 1 (Some [[0; 1]]); mkByteMatrix 2 2 (Some [[5; 5]; [6; 6]])]
  = Ok (mkByteMatrix 2 3 (Some [[0; 1]; [5; 5]; [6; 6]])).
Proof.
  apply (proj2 (proj2 stacking_shapes)
    [mkByteMatrix 2 1 (Some [[0; 1]]); mkByteMatrix 2 2 (Some [[5; 5]; [6; 6]])] 2).
  - repeat constructor;
      (eexists; split; [reflexivity|]; split; [reflexivity|]);
      repeat constructor; unfold is_byte; lia.
  - repeat constructor.
  - reflexivity.
Defined.

(** [hstack] of a one-row and a two-row matrix returns a one-row matrix:
    the mismatch of heights raises nothing. *)
Lemma hstack_mismatched_heights_no_error :
  hstack [mkByteMatrix 2 1 (Some [[0; 1]]); mkByteMatrix 1 2 (Some [[5]; [6]])]
  = Ok (mkByteMatrix 3 1 (Some [[0; 1; 5]])).
Proof. reflexivity. Qed.

(** ** Rendering *)

Lemma py_chr_byte (b : Z) : is_byte b → py_chr b = Ok b.
Proof.
  intros [? ?]. unfold py_chr.
  destruct (Z.leb_spec 0 b); [|lia]. destruct (Z.ltb_spec b 256); [|lia]. reflexivity.
Qed.

(** [render] maps every row through the two replacements, one after the
    other. *)
Lemma render_rows (g : ByteMatrix) (back fore : Z) :
  well_formed g → 0 < _height g → is_byte back → is_byte fore →
  render g back fore =
    Ok (mkByteMatrix (_width g) (_height g)
          (Some ((λ row, bytearray_replace 1 fore (bytearray_replace 0 back row))
                 <$> rows_of g))).
Proof.
  intros Hg Hh Hb Hf. apply well_formed_rows in Hg as (Hrs & Hlen & Hall).
  unfold render, get_rows. rewrite Hrs. cbn [mbind result_bind].
  rewrite (mapM_Ok_fmap _
    (λ row, bytearray_replace 1 fore (bytearray_replace 0 back row))).
  2:{ apply Forall_forall. intros row _. by rewrite !py_chr_byte. }
  cbn [mbind result_bind].
  destruct (rows_of g) as [|r rs]; [exfalso; unfold len in Hlen; cbn in Hlen; lia|].
  rewrite fmap_cons, _create_from_rows_uniform.
  - apply Forall_cons_1 in Hall as [[Hw _] _].
    unfold bytearray_replace, len in *. rewrite Hlen, <- Hw. cbn.
    by rewrite !length_fmap.
  - apply Forall_cons_1 in Hall as [[Hw _] Hall].
    apply Forall_fmap. eapply Forall_impl; [exact Hall|]. intros r' [Hw' _]. cbn.
    unfold bytearray_replace, len in *. rewrite !length_fmap. lia.
Qed.

(** With a background other than 1 the two replacements do not interfere:
    0 becomes [back], 1 becomes [fore], cell by cell. *)
Lemma render_bitmap (g : ByteMatrix) (back fore : Z) :
  well_formed g → 0 < _height g → is_byte back → is_byte fore → back ≠ 1 →
  Forall (Forall (λ c, c = 0 ∨ c = 1)) (rows_of g) →
  render g back fore =
    Ok (mkByteMatrix (_width g) (_height g)
          (Some ((λ row : list Z, (λ c, if c =? 0 then back else fore) <$> row)
                 <$> rows_of g))).
Proof.
  intros Hg Hh Hb Hf Hne Hbits. rewrite render_rows by done. do 3 f_equal.
  apply Forall_fmap_ext. eapply Forall_impl; [exact Hbits|]. intros row Hrow. cbn.
  unfold bytearray_replace. rewrite <- list_fmap_compose.
  apply Forall_fmap_ext. eapply Forall_impl; [exact Hrow|]. intros c [-> | ->]; cbn.
  - destruct (Z.eqb_spec back 1); [done|reflexivity].
  - reflexivity.
Qed.

Lemma render_bitmap_witness :
  render (mkByteMatrix 2 1 (Some [[0; 1]])) 7 2 = Ok (mkByteMatrix 2 1 (Some [[7; 2]])).
Proof.
  apply (render_bitmap (mkByteMatrix 2 1 (Some [[0; 1]])) 7 2).
  - eexists. split; [reflexivity|]. split; [reflexivity|].
    repeat constructor; unfold is_byte; lia.
  - cbn. lia.
  - unfold is_byte. lia.
  - unfold is_byte. lia.
  - lia.
  - cbn. repeat (apply Forall_cons; split); try apply Forall_nil; lia.
Defined.

(** With background 1 every cell of a bitmap, the zeros included, ends up
    as [fore]. *)
Lemma render_back_1 (g : ByteMatrix) (fore : Z) :
  well_formed g → 0 < _height g → is_byte fore →
  Forall (Forall (λ c, c = 0 ∨ c = 1)) (rows_of g) →
  render g 1 fore =
    Ok (mkByteMatrix (_width g) (_height g) (Some ((λ row : list Z, (λ _, fore) <$> row) <$> rows_of g))).
Proof.
  intros Hg Hh Hf Hbits. rewrite render_rows by (done || (unfold is_byte; lia)).
  do 3 f_equal.
  apply Forall_fmap_ext. eapply Forall_impl; [exact Hbits|]. intros row Hrow. cbn.
  unfold bytearray_replace. rewrite <- list_fmap_compose.
  apply Forall_fmap_ext. eapply Forall_impl; [exact Hrow|]. by intros c [-> | ->].
Qed.

Lemma render_back_1_witness :
  render (mkByteMatrix 2 1 (Some [[0; 1]])) 1 2 = Ok (mkByteMatrix 2 1 (Some [[2; 2]])).
Proof.
  apply (render_back_1 (mkByteMatrix 2 1 (Some [[0; 1]])) 2).
  - eexists. split; [reflexivity|]. split; [reflexivity|].
    repeat constructor; unfold is_byte; lia.
  - cbn. lia.
  - unfold is_byte. lia.
  - cbn. repeat (apply Forall_cons; split); try apply Forall_nil; lia.
Defined.

(** C5 at background 1, foreground 2: the bitmap row [0, 1] is rendered as
    [2, 2]; the cell that was 0 does not become the background 1. *)
Theorem render_background_one_overwritten :
  render (mkByteMatrix 2 1 (Some [[0; 1]])) 1 2 = Ok (mkByteMatrix 2 1 (Some [[2; 2]])) ∧
  (∀ g, render (mkByteMatrix 2 1 (Some [[0; 1]])) 1 2 = Ok g →
        _rows g ≠ Some [[1; 2]]).
Proof.
  split; [reflexivity|]. intros g [= <-]. discriminate.
Qed.

(** ** Indexing with slices *)

Lemma getslice_Ok {A} (l : list A) (s : slice) :
  default 1 (slice_step s) ≠ 0 → getslice l s = Ok (slice_items l s).
Proof.
  intros Hs. unfold slice_items, getslice, slice_indices.
  destruct (Z.eqb_spec (default 1 (slice_step s)) 0); [done|]. reflexivity.
Qed.

Lemma getslice_step_0 {A} (l : list A) (lo hi : option Z) :
  getslice l (Slice lo hi (Some 0)) = Err ValueError.
Proof. reflexivity. Qed.

Lemma slice_items_eq {A} (l : list A) (s : slice) :
  default 1 (slice_step s) ≠ 0 →
  ∃ start step count,
    slice_indices s (len l) = Ok (start, step, count) ∧
    slice_items l s = omap (λ i, l !! Z.to_nat (start + i * step)) (seqZ 0 count).
Proof.
  intros Hs. unfold slice_items, getslice.
  destruct (slice_indices s (len l)) as [[[start step] count]|e] eqn:Hi.
  - exists start, step, count. done.
  - unfold slice_indices in Hi.
    destruct (Z.eqb_spec (default 1 (slice_step s)) 0); [done|discriminate].
Qed.

Lemma slice_items_elem_of {A} (l : list A) (s : slice) (x : A) :
  x ∈ slice_items l s → x ∈ l.
Proof.
  unfold slice_items, getslice.
  destruct (slice_indices s (len l)) as [[[start step] count]|e];
    [|by intros ?%elem_of_nil].
  cbn. intros (i & _ & Hx)%list_elem_of_omap. eapply list_elem_of_lookup_2, Hx.
Qed.

Lemma omap_lookup_length {A} (l1 l2 : list A) (f : Z → nat) (idx : list Z) :
  length l1 = length l2 →
  length (omap (λ i, l1 !! f i) idx) = length (omap (λ i, l2 !! f i) idx).
Proof.
  intros Hlen. induction idx as [|i idx IH]; [reflexivity|]. cbn.
  destruct (decide (f i < length l1)%nat) as [Hlt|Hge].
  - destruct (lookup_lt_is_Some_2 l1 (f i) Hlt) as [x1 ->].
    destruct (lookup_lt_is_Some_2 l2 (f i) ltac:(lia)) as [x2 ->].
    cbn. by rewrite IH.
  - rewrite (lookup_ge_None_2 l1) by lia. rewrite (lookup_ge_None_2 l2) by lia.
    exact IH.
Qed.

(** How many items a slice selects depends on the length of the list
    only. *)
Lemma slice_items_length {A} (l1 l2 : list A) (s : slice) :
  length l1 = length l2 → length (slice_items l1 s) = length (slice_items l2 s).
Proof.
  intros Hlen. unfold slice_items, getslice, len. rewrite Hlen.
  destruct (slice_indices s (Z.of_nat (length l2))) as [[[start step] count]|e];
    [|reflexivity].
  cbn. by apply (omap_lookup_length l1 l2 (λ i, Z.to_nat (start + i * step))).
Qed.

Lemma slice_items_range {A} (l : list A) (lo hi : Z) :
  0 ≤ lo → lo ≤ hi →
  slice_items l (slice_of lo hi) = take (Z.to_nat (hi - lo)) (drop (Z.to_nat lo) l).
Proof. intros. unfold slice_items. by rewrite getslice_range. Qed.

Lemma slice_items_all {A} (l : list A) : slice_items l slice_all = l.
Proof.
  unfold slice_items, slice_all, getslice, slice_indices. cbn.
  pose proof (len_nonneg l).
  destruct (Z.ltb_spec 0 (len l)).
  - rewrite Z.div_1_r. cbn.
    replace (len l - 0 - 1 + 1) with (len l) by lia.
    rewrite (omap_lookup_segment_Z l 0 (len l)) by lia.
    rewrite drop_0, take_ge; [done|unfold len; lia].
  - destruct l as [|a l]; [done|]. exfalso.
    pose proof (len_nonneg l). rewrite len_cons in *. lia.
Qed.

(** The sub-matrix selected by two slices. *)
Lemma getitem_slices (g : ByteMatrix) (sx sy : slice) :
  well_formed g →
  default 1 (slice_step sx) ≠ 0 → default 1 (slice_step sy) ≠ 0 →
  __getitem__ g (Slc sx) (Slc sy) =
    match slice_items (rows_of g) sy with
    | [] => Err IndexError
    | (r :: _) as sel =>
        Ok (Matrix (mkByteMatrix (len (slice_items r sx)) (len sel)
                      (Some ((λ row, slice_items row sx) <$> sel))))
    end.
Proof.
  intros Hg Hsx Hsy. apply well_formed_rows in Hg as (Hrs & _ & Hall).
  unfold __getitem__, get_rows. rewrite Hrs. cbn [mbind result_bind].
  rewrite getslice_Ok by done. cbn [mbind result_bind].
  rewrite (mapM_Ok_fmap _ (λ row, slice_items row sx)).
  2:{ apply Forall_forall. intros row _. by apply getslice_Ok. }
  cbn [mbind result_bind].
  assert (∀ r, r ∈ slice_items (rows_of g) sy → len r = _width g) as Hw.
  { intros r Hr%slice_items_elem_of. rewrite Forall_forall in Hall.
    by apply Hall in Hr as [? _]. }
  destruct (slice_items (rows_of g) sy) as [|r sel]; [reflexivity|].
  rewrite fmap_cons, _create_from_rows_uniform.
  - cbn. do 3 f_equal. unfold len. cbn. by rewrite length_fmap.
  - apply Forall_fmap, Forall_forall. intros r' Hr'. cbn.
    apply slice_items_length.
    pose proof (Hw r ltac:(left)). pose proof (Hw r' ltac:(by right)).
    unfold len in *. lia.
Qed.

(** [l[i]] with a Python index: negative indices count from the end, and
    an index outside [-len l, len l) raises [IndexError]. *)
Lemma getitem_inside (l : list Z) (i : Z) :
  - len l ≤ i → i < len l →
  getitem l i = Ok (default 0 (l !! Z.to_nat (if i <? 0 then i + len l else i))).
Proof.
  intros Hlo Hhi. unfold getitem.
  set (j := if i <? 0 then i + len l else i).
  assert (0 ≤ j < len l) as Hj by (unfold j; destruct (Z.ltb_spec i 0); lia).
  destruct (Z.leb_spec 0 j); [|exfalso; lia].
  destruct (Z.ltb_spec j (len l)); [|exfalso; lia]. cbn [andb].
  destruct (l !! Z.to_nat j) eqn:E; [done|].
  exfalso. apply lookup_ge_None in E. unfold len in *. lia.
Qed.

Lemma getitem_outside {A} (l : list A) (i : Z) :
  i < - len l ∨ len l ≤ i → getitem l i = Err IndexError.
Proof.
  intros Hi. unfold getitem. pose proof (len_nonneg l).
  set (j := if i <? 0 then i + len l else i).
  assert ((0 <=? j) && (j <? len l) = false) as ->; [|reflexivity].
  apply andb_false_iff. unfold j. destruct (Z.ltb_spec i 0); lia.
Qed.

(** A slice of columns of one row: the row index is bounds-checked, the
    slice is clipped. *)
Lemma getitem_row_slice (g : ByteMatrix) (sx : slice) (iy : Z) :
  well_formed g → default 1 (slice_step sx) ≠ 0 →
  __getitem__ g (Slc sx) (Idx iy) =
    match getitem (rows_of g) iy with
    | Ok row => Ok (Matrix (mkByteMatrix (len (slice_items row sx)) 1
                              (Some [slice_items row sx])))
    | Err e => Err e
    end.
Proof.
  intros Hg Hsx. apply well_formed_rows in Hg as (Hrs & _ & _).
  unfold __getitem__, get_rows. rewrite Hrs. cbn [mbind result_bind].
  destruct (getitem (rows_of g) iy) as [row|e]; [|reflexivity].
  cbn [mbind result_bind]. rewrite getslice_Ok by done. cbn [mbind result_bind].
  by rewrite _create_from_rows_uniform by constructor.
Qed.

(** One column of a slice of rows: the column index is bounds-checked on
    every selected row, the slice is clipped. *)
Lemma getitem_column_slice (g : ByteMatrix) (ix : Z) (sy : slice) :
  well_formed g → default 1 (slice_step sy) ≠ 0 →
  __getitem__ g (Idx ix) (Slc sy) =
    match slice_items (rows_of g) sy with
    | [] => Err IndexError
    | (_ :: _) as sel =>
        if (- _width g <=? ix) && (ix <? _width g) then
          Ok (Matrix (mkByteMatrix 1 (len sel)
                (Some ((λ row : list Z,
                          [default 0 (row !! Z.to_nat (if ix <? 0 then ix + _width g
                                                       else ix))]) <$> sel))))
        else Err IndexError
    end.
Proof.
  intros Hg Hsy. apply well_formed_rows in Hg as (Hrs & _ & Hall).
  unfold __getitem__, get_rows. rewrite Hrs. cbn [mbind result_bind].
  rewrite getslice_Ok by done. cbn [mbind result_bind].
  assert (Forall (λ r, len r = _width g ∧ Forall is_byte r) (slice_items (rows_of g) sy))
    as Hsel.
  { apply Forall_forall. intros r Hr. rewrite Forall_forall in Hall.
    by apply Hall, (slice_items_elem_of _ sy). }
  destruct (slice_items (rows_of g) sy) as [|r sel]; [reflexivity|].
  destruct ((- _width g <=? ix) && (ix <? _width g)) eqn:Hin.
  - apply andb_true_iff in Hin as [Hlo%Z.leb_le Hhi%Z.ltb_lt].
    rewrite (mapM_Ok_fmap _ (λ row : list Z,
               [default 0 (row !! Z.to_nat (if ix <? 0 then ix + _width g else ix))])).
    + cbn [mbind result_bind]. rewrite fmap_cons, _create_from_rows_uniform.
      * do 3 f_equal. unfold len. cbn. by rewrite length_fmap.
      * apply Forall_fmap, Forall_forall. by intros.
    + eapply Forall_impl; [exact Hsel|]. intros row [Hw Hb]. cbn beta.
      rewrite getitem_inside by lia. rewrite Hw.
      cbn [mbind result_bind].
      assert (is_byte (default 0 (row !! Z.to_nat (if ix <? 0 then ix + _width g else ix))))
        as [Hb0 Hb1].
      { destruct (row !! _) as [b|] eqn:Hb'; [|by cbn].
        rewrite Forall_forall in Hb. eapply Hb, list_elem_of_lookup_2, Hb'. }
      unfold bytearray_new. cbn [forallb].
      destruct (Z.leb_spec 0 (default 0 (row !! Z.to_nat (if ix <? 0 then ix + _width g else ix))));
        [|exfalso; lia].
      by destruct (Z.ltb_spec (default 0 (row !! Z.to_nat (if ix <? 0 then ix + _width g else ix))) 256);
        [|exfalso; lia].
  - apply Forall_cons_1 in Hsel as [[Hw _] _].
    assert (getitem r ix = Err IndexError) as Hget.
    { apply getitem_outside. rewrite Hw. apply andb_false_iff in Hin.
      destruct Hin as [?%Z.leb_gt|?%Z.ltb_ge]; lia. }
    cbn. by rewrite Hget.
Qed.

(** C3, as the code has it.  A slice of non-zero step never raises by
    itself on either axis: it is clipped to the matrix, and a range
    [lo:hi] with [0 ≤ lo ≤ hi] selects the half-open segment clipped to
    the bounds.  With slices on both axes, [__getitem__] returns the
    selected sub-matrix when the row slice selects at least one row, and
    raises [IndexError] when it selects none; a column range beyond the
    width gives a matrix of width 0 with all the rows; a row range beyond
    the height raises [IndexError].  With a slice of columns and a row
    index, the result for a row index inside the matrix is always a
    one-row matrix, of width 0 for a column range beyond the width; a row
    index outside raises [IndexError].  With a slice of rows and a column
    index, the result is the one-column matrix of the selected rows when
    the slice selects a row and the column index is inside the matrix, and
    [IndexError] otherwise, in particular for every row range beyond the
    height. *)
Theorem getitem_ranges :
  (∀ g sx sy, well_formed g →
     default 1 (slice_step sx) ≠ 0 → default 1 (slice_step sy) ≠ 0 →
     __getitem__ g (Slc sx) (Slc sy) =
       match slice_items (rows_of g) sy with
       | [] => Err IndexError
       | (r :: _) as sel =>
           Ok (Matrix (mkByteMatrix (len (slice_items r sx)) (len sel)
                         (Some ((λ row, slice_items row sx) <$> sel))))
       end) ∧
  (∀ (l : list Z) lo hi, 0 ≤ lo → lo ≤ hi →
     slice_items l (slice_of lo hi) = take (Z.to_nat (hi - lo)) (drop (Z.to_nat lo) l)) ∧
  (∀ g lo hi, well_formed g → 0 < _height g → _width g ≤ lo → lo ≤ hi →
     __getitem__ g (Slc (slice_of lo hi)) (Slc slice_all) =
       Ok (Matrix (mkByteMatrix 0 (_height g) (Some ((λ _, []) <$> rows_of g))))) ∧
  (∀ g sx lo hi, well_formed g → default 1 (slice_step sx) ≠ 0 →
     _height g ≤ lo → lo ≤ hi →
     __getitem__ g (Slc sx) (Slc (slice_of lo hi)) = Err IndexError) ∧
  (∀ g sx iy, well_formed g → default 1 (slice_step sx) ≠ 0 →
     __getitem__ g (Slc sx) (Idx iy) =
       match getitem (rows_of g) iy with
       | Ok row => Ok (Matrix (mkByteMatrix (len (slice_items row sx)) 1
                                 (Some [slice_items row sx])))
       | Err e => Err e
       end) ∧
  (∀ g iy lo hi, well_formed g → - _height g ≤ iy → iy < _height g →
     _width g ≤ lo → lo ≤ hi →
     __getitem__ g (Slc (slice_of lo hi)) (Idx iy) =
       Ok (Matrix (mkByteMatrix 0 1 (Some [[]])))) ∧
  (∀ g sx iy, well_formed g → default 1 (slice_step sx) ≠ 0 →
     iy < - _height g ∨ _height g ≤ iy →
     __getitem__ g (Slc sx) (Idx iy) = Err IndexError) ∧
  (∀ g ix sy, well_formed g → default 1 (slice_step sy) ≠ 0 →
     __getitem__ g (Idx ix) (Slc sy) =
       match slice_items (rows_of g) sy with
       | [] => Err IndexError
       | (_ :: _) as sel =>
           if (- _width g <=? ix) && (ix <? _width g) then
             Ok (Matrix (mkByteMatrix 1 (len sel)
                   (Some ((λ row : list Z,
                             [default 0 (row !! Z.to_nat (if ix <? 0 then ix + _width g
                                                          else ix))]) <$> sel))))
           else Err IndexError
       end) ∧
  (∀ g ix lo hi, well_formed g → _height g ≤ lo → lo ≤ hi →
     __getitem__ g (Idx ix) (Slc (slice_of lo hi)) = Err IndexError).
Proof.
  split; [exact getitem_slices|]. split; [intros; by apply slice_items_range|].
  split; [|split; [|split; [exact getitem_row_slice|split; [|split; [|split;
    [exact getitem_column_slice|]]]]]].
  - intros g lo hi Hg Hh Hlo Hhi. rewrite getitem_slices by done.
    apply well_formed_rows in Hg as (_ & Hlen & Hall).
    rewrite slice_items_all.
    assert (∀ r, r ∈ rows_of g → slice_items r (slice_of lo hi) = []) as Hempty.
    { intros r Hr. rewrite Forall_forall in Hall. apply Hall in Hr as [Hw _].
      pose proof (len_nonneg r).
      rewrite slice_items_range by lia.
      rewrite drop_ge by (unfold len in *; lia). apply take_nil. }
    destruct (rows_of g) as [|r rs] eqn:E;
      [exfalso; unfold len in Hlen; cbn in Hlen; lia|].
    rewrite (Hempty r) by left. rewrite Hlen. do 4 f_equal.
    apply Forall_fmap_ext, Forall_forall. intros r' Hr'. by apply Hempty.
  - intros g sx lo hi Hg Hsx Hlo Hhi. rewrite getitem_slices by done.
    apply well_formed_rows in Hg as (_ & Hlen & _).
    pose proof (len_nonneg (rows_of g)).
    rewrite slice_items_range by lia.
    rewrite drop_ge by (unfold len in *; lia). by rewrite take_nil.
  - intros g iy lo hi Hg Hiy0 Hiy1 Hlo Hhi.
    rewrite getitem_row_slice by (done || (cbn; lia)).
    apply well_formed_rows in Hg as (_ & Hlen & Hall).
    unfold getitem. rewrite <- Hlen.
    set (j := if iy <? 0 then iy + _height g else iy).
    assert (0 ≤ j < _height g) as Hj by (unfold j; destruct (Z.ltb_spec iy 0); lia).
    destruct (Z.leb_spec 0 j); [|exfalso; lia].
    destruct (Z.ltb_spec j (_height g)); [|exfalso; lia]. cbn [andb].
    destruct (rows_of g !! Z.to_nat j) as [row|] eqn:Hrow.
    + rewrite Forall_forall in Hall.
      destruct (Hall row (list_elem_of_lookup_2 _ _ _ Hrow)) as [Hw _].
      pose proof (len_nonneg row).
      rewrite slice_items_range by lia.
      rewrite drop_ge by (unfold len in *; lia). by rewrite take_nil.
    + exfalso. apply lookup_ge_None in Hrow. unfold len in Hlen. lia.
  - intros g sx iy Hg Hsx Hiy. rewrite getitem_row_slice by done.
    apply well_formed_rows in Hg as (_ & Hlen & _).
    rewrite getitem_outside; [done|]. by rewrite <- Hlen.
  - intros g ix lo hi Hg Hlo Hhi. rewrite getitem_column_slice by (done || (cbn; lia)).
    apply well_formed_rows in Hg as (_ & Hlen & _).
    pose proof (len_nonneg (rows_of g)).
    rewrite slice_items_range by lia.
    rewrite drop_ge by (unfold len in *; lia). by rewrite take_nil.
Qed.

Lemma getitem_ranges_witness :
  __getitem__ (mkByteMatrix 2 2 (Some [[1; 2]; [3; 4]]))
    (Slc (slice_of 5 9)) (Slc (slice_of 0 2))
  = Ok (Matrix (mkByteMatrix 0 2 (Some [[]; []]))).
Proof.
  apply (proj1 getitem_ranges (mkByteMatrix 2 2 (Some [[1; 2]; [3; 4]]))
           (slice_of 5 9) (slice_of 0 2)).
  - eexists. split; [reflexivity|]. split; [reflexivity|].
    repeat constructor; unfold is_byte; lia.
  - cbn. lia.
  - cbn. lia.
Defined.

(** A row range that lies outside the matrix raises [IndexError]. *)
Lemma getitem_row_range_outside_raises :
  __getitem__ (mkByteMatrix 2 2 (Some [[1; 2]; [3; 4]]))
    (Slc (slice_of 0 2)) (Slc (slice_of 5 9))
  = Err IndexError.
Proof. reflexivity. Qed.

(** ** Packing and unpacking *)

Lemma is_byteb_spec (b : Z) : is_byteb b = true ↔ is_byte b.
Proof. unfold is_byteb, is_byte. rewrite andb_true_iff. lia. Qed.

Lemma bytearray_new_Ok (l : list Z) : Forall is_byte l → bytearray_new l = Ok l.
Proof.
  intros Hall. unfold bytearray_new.
  assert (forallb (λ b, (0 <=? b) && (b <? 256)) l = true) as ->; [|done].
  apply forallb_forall. intros b Hb%list_elem_of_In.
  rewrite Forall_forall in Hall. by apply is_byteb_spec, Hall.
Qed.

Lemma bytes_forall (P : Z → bool) :
  forallb P (seqZ 0 256) = true → ∀ b, is_byte b → P b = true.
Proof.
  intros Hall b [? ?]. apply (forallb_elem_of _ _ _ Hall).
  apply elem_of_seqZ. lia.
Qed.

Lemma all_chunks_complete (n : nat) (bound : Z) (c : list Z) :
  length c = n → Forall (λ v, 0 ≤ v < bound) c → c ∈ all_chunks n bound.
Proof.
  revert c. induction n as [|n IH]; intros c Hlen Hall.
  - destruct c; [left|done].
  - destruct c as [|x c]; [done|]. cbn.
    apply Forall_cons_1 in Hall as [Hx Hall].
    apply list_elem_of_bind. exists x. split; [|apply elem_of_seqZ; lia].
    apply list_elem_of_bind. exists c. split; [left|].
    apply IH; [by injection Hlen|done].
Qed.

Lemma mapM_concat_Ok {A B} (f : A → result B) (ls : list (list A)) (ks : list (list B)) :
  Forall2 (λ l k, mapM f l = Ok k) ls ks → mapM f (concat ls) = Ok (concat ks).
Proof.
  induction 1 as [|l k ls ks Hlk _ IH]; [reflexivity|].
  cbn [concat]. by apply mapM_app_Ok.
Qed.

Lemma mapM_fmap_Ok {A B C} (g : A → result B) (f : B → C) (l : list A) (k : list B) :
  mapM g l = Ok k → mapM (λ x, f <$> g x) l = Ok (f <$> k).
Proof.
  intros H%mapM_Ok_inv. apply mapM_Ok_Forall2, Forall2_fmap_r.
  eapply Forall2_impl; [exact H|]. intros x y Hxy. cbn. by rewrite Hxy.
Qed.

Lemma zip_concat_replicate {A B} (cs : list (list A)) (k : list B) :
  Forall (λ c, length c = length k) cs →
  zip (concat cs) (concat (replicate (length cs) k)) = concat ((λ c, zip c k) <$> cs).
Proof.
  induction 1 as [|c cs Hc _ IH]; [reflexivity|].
  cbn [length replicate concat fmap list_fmap].
  rewrite zip_with_app by done. f_equal. exact IH.
Qed.

Lemma py_lshift_nonneg (a n : Z) : 0 ≤ n → py_lshift a n = Ok (Z.shiftl a n).
Proof. intros Hn. unfold py_lshift. by destruct (Z.ltb_spec n 0); [exfalso; lia|]. Qed.

Lemma py_rshift_nonneg (a n : Z) : 0 ≤ n → py_rshift a n = Ok (Z.shiftr a n).
Proof. intros Hn. unfold py_rshift. by destruct (Z.ltb_spec n 0); [exfalso; lia|]. Qed.

Lemma prepack_chunk (mask : Z) (shifts c : list Z) :
  Forall (λ s, 0 ≤ s) shifts →
  mapM (λ '(byte, shift), py_lshift (Z.land byte mask) shift) (zip c shifts)
  = Ok (zip_with (λ b shift, Z.shiftl (Z.land b mask) shift) c shifts).
Proof.
  intros Hall. revert c. induction Hall as [|s ss Hs _ IH]; intros c.
  - destruct c; reflexivity.
  - destruct c as [|b c]; [reflexivity|]. cbn.
    rewrite py_lshift_nonneg by done. cbn. rewrite IH. reflexivity.
Qed.

Section Depth.

(** The quantities both functions derive from [items_per_byte]. *)
Variables (items_per_byte bpp : Z).
Hypothesis Hbpp : py_floordiv 8 items_per_byte = Ok bpp.
Hypothesis Hpos : 0 < bpp.
Hypothesis Hipb : 0 < items_per_byte.
Hypothesis Hshifts : Forall (λ s, 0 ≤ s) (shifts_of bpp).
Hypothesis Hcount : len (shifts_of bpp) = items_per_byte.

Lemma py_range_shifts :
  ∃ r, py_range 0 8 bpp = Ok r ∧ shifts_of bpp = (λ sh, 8 - bpp - sh) <$> r.
Proof.
  unfold shifts_of, py_range. destruct (Z.eqb_spec bpp 0); [exfalso; lia|]. eauto.
Qed.

Lemma unpack_bytes_eq (S : list Z) :
  (∀ byte, is_byte byte → Forall is_byte (unpack_byte bpp byte)) →
  Forall is_byte S →
  unpack_bytes S items_per_byte = Ok (concat (unpack_byte bpp <$> S)).
Proof.
  intros Hbytes HS. unfold unpack_bytes. rewrite Hbpp. cbn [mbind result_bind].
  rewrite py_lshift_nonneg by lia. cbn [mbind result_bind].
  destruct py_range_shifts as (r & -> & Hr). cbn [mbind result_bind]. rewrite <- Hr.
  rewrite (mapM_Ok_fmap _ (unpack_byte bpp)).
  - cbn [mbind result_bind]. apply bytearray_new_Ok.
    apply Forall_concat_rows, Forall_fmap.
    eapply Forall_impl; [exact HS|]. intros byte Hb. by apply Hbytes.
  - apply Forall_forall. intros byte _. unfold unpack_byte.
    apply mapM_Ok_fmap. eapply Forall_impl; [exact Hshifts|].
    intros s Hs. cbn in Hs. cbn. by rewrite py_rshift_nonneg.
Qed.

Lemma pack_bytes_eq (cs : list (list Z)) :
  Forall (λ c, len c = items_per_byte ∧ is_byte (pack_chunk bpp c)) cs →
  pack_bytes (concat cs) items_per_byte = Ok (pack_chunk bpp <$> cs).
Proof.
  intros Hcs. unfold pack_bytes. rewrite Hbpp. cbn [mbind result_bind].
  rewrite py_lshift_nonneg by lia. cbn [mbind result_bind].
  destruct py_range_shifts as (r & -> & Hr). cbn [mbind result_bind]. rewrite <- Hr.
  assert (Forall (λ c, len c = items_per_byte) cs) as Hlen
    by (eapply Forall_impl; [exact Hcs|]; by intros c [? _]).
  rewrite (len_concat_uniform cs items_per_byte) by done.
  unfold py_floordiv. destruct (Z.eqb_spec items_per_byte 0); [exfalso; lia|].
  rewrite Z.div_mul by done. cbn [mbind result_bind].
  unfold list_times.
  replace (Z.to_nat (len cs)) with (length cs) by (unfold len; lia).
  rewrite zip_concat_replicate.
  2:{ eapply Forall_impl; [exact Hlen|]. unfold len in *. intros; cbn in *; lia. }
  set (prepack := λ c : list Z,
         zip_with (λ b shift, Z.shiftl (Z.land b (Z.shiftl 1 bpp - 1)) shift)
           c (shifts_of bpp)).
  rewrite (mapM_concat_Ok _ _ (prepack <$> cs)).
  2:{ apply Forall2_fmap, Forall_Forall2_diag, Forall_forall.
      intros c _. apply prepack_chunk, Hshifts. }
  cbn [mbind result_bind].
  assert (Forall (λ p, len p = items_per_byte) (prepack <$> cs)) as Hplen.
  { apply Forall_fmap. eapply Forall_impl; [exact Hlen|]. intros c Hc. cbn.
    unfold prepack, len in *. rewrite length_zip_with. lia. }
  rewrite (len_concat_uniform _ items_per_byte) by done.
  rewrite py_range_multiples by (done || apply len_nonneg).
  cbn [mbind result_bind].
  rewrite (mapM_fmap_Ok _ py_sum _ (prepack <$> cs)) by (by apply chunks_concat).
  cbn [mbind result_bind]. rewrite <- list_fmap_compose.
  apply bytearray_new_Ok, Forall_fmap.
  eapply Forall_impl; [exact Hcs|]. by intros c [_ ?].
Qed.

End Depth.

(** What holds at each of the four bit depths, by evaluation over all
    bytes and over all groups of items. *)
Lemma depth_facts (b : Z) :
  b ∈ bit_depths →
  py_floordiv 8 (8 / b) = Ok b ∧ 0 < b ≤ 8 ∧ 0 < 8 / b ∧
  Forall (λ s, 0 ≤ s) (shifts_of b) ∧ len (shifts_of b) = 8 / b ∧
  (∀ byte, is_byte byte → check_byte b byte = true) ∧
  (∀ c, len c = 8 / b → Forall (λ v, 0 ≤ v < 2 ^ b) c → check_chunk b c = true).
Proof.
  intros Hb. unfold bit_depths in Hb.
  each_name Hb.
  all: split; [reflexivity|]; split; [lia|]; split; [reflexivity|].
  all: split; [vm_compute; repeat constructor; discriminate|].
  all: split; [reflexivity|].
  all: split; [apply bytes_forall; vm_compute; reflexivity|].
  all: intros c Hlen Hc;
    match goal with
    | |- check_chunk ?b _ = true =>
        apply (forallb_elem_of (check_chunk b)
                 (all_chunks (Z.to_nat (8 / b)) (2 ^ b)));
        [vm_compute; reflexivity|]
    end;
    apply all_chunks_complete; [|exact Hc];
    unfold len in Hlen; apply Nat2Z.inj; rewrite Hlen; reflexivity.
Qed.

Lemma check_byte_spec (b byte : Z) :
  check_byte b byte = true →
  Forall (λ v, 0 ≤ v < 2 ^ b) (unpack_byte b byte) ∧
  len (unpack_byte b byte) = 8 / b ∧
  pack_chunk b (unpack_byte b byte) = byte.
Proof.
  unfold check_byte. rewrite !andb_true_iff, forallb_forall.
  intros [[Hall Hlen] Hpack]. split; [|split; lia].
  apply Forall_forall. intros v Hv%list_elem_of_In. apply Hall in Hv. lia.
Qed.

Lemma check_chunk_spec (b : Z) (c : list Z) :
  check_chunk b c = true →
  is_byte (pack_chunk b c) ∧ unpack_byte b (pack_chunk b c) = c.
Proof.
  unfold check_chunk. rewrite andb_true_iff, is_byteb_spec, bool_decide_eq_true. done.
Qed.

(** A list whose length is a multiple of [n] is a concatenation of groups
    of [n] items. *)
Lemma split_chunks {A} (n : nat) (l : list A) (k : nat) :
  (0 < n)%nat → length l = (k * n)%nat →
  ∃ cs, l = concat cs ∧ Forall (λ c, length c = n) cs.
Proof.
  intros Hn. revert l. induction k as [|k IH]; intros l Hlen.
  - exists []. destruct l; [done|discriminate].
  - destruct (IH (drop n l)) as (cs & Hcs & Hall); [rewrite length_drop; lia|].
    exists (take n l :: cs). split.
    + cbn. rewrite <- Hcs. by rewrite take_drop.
    + constructor; [|done]. rewrite length_take. lia.
Qed.

(** C1, as the code has it.  At every bit depth [b] of 1, 2, 4 or 8 with
    [8/b] items per byte: a non-empty sequence of bytes unpacks at height 1
    to a well-formed one-row matrix that packs to the sequence again; and a
    well-formed matrix with at least one row and one column, cells below
    [2^b] and a cell count that is a multiple of [8/b] packs to bytes that
    unpack, at its height, to the matrix itself. *)
Theorem pack_unpack_inverse :
  (∀ b S, b ∈ bit_depths → Forall is_byte S → S ≠ [] →
     ∃ g, frompacked S 1 (8 / b) = Ok g ∧
          well_formed g ∧ _height g = 1 ∧ _width g = 8 / b * len S ∧
          packed g (8 / b) = Ok S) ∧
  (∀ b g, b ∈ bit_depths → well_formed g → 0 < _width g → 0 < _height g →
     Forall (Forall (λ v, 0 ≤ v < 2 ^ b)) (rows_of g) →
     (_width g * _height g) `mod` (8 / b) = 0 →
     ∃ p, packed g (8 / b) = Ok p ∧ Forall is_byte p ∧
          len p * (8 / b) = _width g * _height g ∧
          frompacked p (_height g) (8 / b) = Ok g).
Proof.
  split.
  - intros b S Hb HS Hne.
    destruct (depth_facts b Hb) as (Hdiv & Hbpos & Hipb & Hsh & Hcnt & Hbyte & Hchunk).
    assert (∀ byte, is_byte byte → check_byte b byte = true →
            len (unpack_byte b byte) = 8 / b) as Hblen
      by (intros byte _ Hc; by apply check_byte_spec in Hc as (_ & ? & _)).
    remember (8 / b) as ipb eqn:Eipb.
    assert (∀ byte, is_byte byte → Forall is_byte (unpack_byte b byte)) as Hub.
    { intros byte Hbt. destruct (check_byte_spec _ _ (Hbyte _ Hbt)) as (Hall & _ & _).
      eapply Forall_impl; [exact Hall|]. intros v Hv. cbn in Hv. unfold is_byte.
      assert (2 ^ b ≤ 2 ^ 8) by (apply Z.pow_le_mono_r; lia). lia. }
    set (u := concat (unpack_byte b <$> S)).
    assert (Forall (λ c, len c = ipb) (unpack_byte b <$> S)) as Hlens.
    { apply Forall_fmap. eapply Forall_impl; [exact HS|]. intros byte Hbt. cbn.
      by apply Hblen, Hbyte. }
    assert (len u = len S * ipb) as Hu.
    { unfold u. rewrite (len_concat_uniform _ ipb) by done.
      unfold len. by rewrite length_fmap. }
    assert (0 < len S) as HlenS.
    { destruct S; [done|]. rewrite len_cons. pose proof (len_nonneg S). lia. }
    assert (pack_bytes u ipb = Ok S) as Hpack.
    { unfold u. rewrite (pack_bytes_eq ipb b Hdiv (proj1 Hbpos) Hipb Hsh Hcnt).
      2:{ apply Forall_fmap. eapply Forall_impl; [exact HS|].
          intros byte Hbt. cbn. split; [by apply Hblen, Hbyte|].
          by destruct (check_byte_spec _ _ (Hbyte _ Hbt)) as (_ & _ & ->). }
      f_equal. rewrite <- list_fmap_compose.
      rewrite <- (list_fmap_id S) at 2. apply Forall_fmap_ext.
      eapply Forall_impl; [exact HS|]. intros byte Hbt. cbn.
      by destruct (check_byte_spec _ _ (Hbyte _ Hbt)) as (_ & _ & ?). }
    exists (mkByteMatrix (len u) 1 (Some [u])).
    split; [|split; [|split; [|split]]].
    + unfold frompacked. cbn [py_floordiv Z.eqb]. rewrite Z.div_1_r.
      cbn [mbind result_bind].
      rewrite (unpack_bytes_eq ipb b Hdiv (proj1 Hbpos) Hsh S Hub HS).
      cbn [mbind result_bind]. fold u.
      replace (len u) with (1 * (ipb * len S)) at 1 by lia.
      rewrite py_range_multiples by lia. cbn [mbind result_bind].
      change ((λ i, i * (ipb * len S)) <$> seqZ 0 1) with [0 * (ipb * len S)].
      cbn [mapM]. rewrite getslice_range by lia.
      cbn [mbind result_bind mret result_ret].
      rewrite Z.mul_0_l, Z.add_0_l, Z.sub_0_r. cbn [Z.to_nat drop].
      change (Z.to_nat 0) with 0%nat. rewrite drop_0.
      rewrite take_ge by (unfold len in Hu |- *; lia).
      rewrite _create_from_rows_uniform by constructor. reflexivity.
    + exists [u]. split; [reflexivity|]. split; [reflexivity|].
      constructor; [|constructor]. split; [reflexivity|].
      unfold u. by apply Forall_concat_rows, Forall_fmap, (Forall_impl _ _ _ HS).
    + reflexivity.
    + cbn. lia.
    + unfold packed, get_rows. cbn [_rows mbind result_bind concat].
      by rewrite app_nil_r.
  - intros b g Hb Hg Hw Hh Hcells Hmod.
    destruct (depth_facts b Hb) as (Hdiv & Hbpos & Hipb & Hsh & Hcnt & Hbyte & Hchunk).
    remember (8 / b) as ipb eqn:Eipb.
    destruct (well_formed_rows g Hg) as (Hrs & Hlen & Hall).
    set (u := concat (rows_of g)).
    assert (Forall (λ r, len r = _width g) (rows_of g)) as Hrw
      by (eapply Forall_impl; [exact Hall|]; by intros r [? _]).
    assert (len u = _height g * _width g) as Hu
      by (unfold u; rewrite (len_concat_uniform _ (_width g)) by done; lia).
    apply Z.mod_divide in Hmod as [k Hk]; [|lia].
    assert (0 ≤ k) as Hk0 by nia.
    destruct (split_chunks (Z.to_nat ipb) u (Z.to_nat k)) as (cs & Hcs & Hcl);
      [lia|unfold len in Hu; nia|].
    assert (Forall (λ v, 0 ≤ v < 2 ^ b) u) as Hucells by (by apply Forall_concat_rows).
    assert (Forall (λ c, len c = ipb ∧ Forall (λ v, 0 ≤ v < 2 ^ b) c) cs) as Hcs'.
    { apply Forall_forall. intros c Hc. split.
      - rewrite Forall_forall in Hcl. apply Hcl in Hc. unfold len. lia.
      - apply Forall_forall. intros v Hv. rewrite Forall_forall in Hucells.
        apply Hucells. rewrite Hcs. apply elem_of_concat. eauto. }
    assert (Forall (λ c, len c = ipb ∧ is_byte (pack_chunk b c) ∧
                         unpack_byte b (pack_chunk b c) = c) cs) as Hcs''.
    { eapply Forall_impl; [exact Hcs'|]. intros c [Hc1 Hc2]. cbn.
      split; [done|]. by apply check_chunk_spec, Hchunk. }
    assert (len cs * ipb = len u) as Hcslen.
    { rewrite Hcs. rewrite (len_concat_uniform cs ipb); [done|].
      eapply Forall_impl; [exact Hcs'|]. by intros c [? _]. }
    exists (pack_chunk b <$> cs). split; [|split; [|split]].
    + unfold packed, get_rows. rewrite Hrs. cbn [mbind result_bind]. fold u.
      rewrite Hcs. apply (pack_bytes_eq ipb b Hdiv (proj1 Hbpos) Hipb Hsh Hcnt).
      eapply Forall_impl; [exact Hcs''|]. by intros c (? & ? & _).
    + apply Forall_fmap. eapply Forall_impl; [exact Hcs''|]. by intros c (_ & ? & _).
    + unfold len in *. rewrite length_fmap. lia.
    + unfold frompacked.
      assert (len (pack_chunk b <$> cs) = len cs) as -> by (unfold len; by rewrite length_fmap).
      unfold py_floordiv at 1. destruct (Z.eqb_spec (_height g) 0); [exfalso; lia|].
      replace (ipb * len cs) with (_width g * _height g) by lia.
      rewrite Z.div_mul by done. cbn [mbind result_bind].
      rewrite (unpack_bytes_eq ipb b Hdiv (proj1 Hbpos) Hsh).
      2:{ intros byte Hbt. destruct (check_byte_spec _ _ (Hbyte _ Hbt)) as (Hv & _ & _).
          eapply Forall_impl; [exact Hv|]. intros v Hvv. cbn in Hvv. unfold is_byte.
          assert (2 ^ b ≤ 2 ^ 8) by (apply Z.pow_le_mono_r; lia). lia. }
      2:{ apply Forall_fmap. eapply Forall_impl; [exact Hcs''|]. by intros c (_ & ? & _). }
      cbn [mbind result_bind].
      rewrite <- list_fmap_compose.
      assert ((unpack_byte b ∘ pack_chunk b) <$> cs = cs) as ->.
      { rewrite <- (list_fmap_id cs) at 2. apply Forall_fmap_ext.
        eapply Forall_impl; [exact Hcs''|]. by intros c (_ & _ & ?). }
      rewrite <- Hcs. rewrite Hu.
      rewrite py_range_multiples by lia. cbn [mbind result_bind].
      unfold u. rewrite Hlen at 1. rewrite chunks_concat by done.
      cbn [mbind result_bind].
      destruct (rows_of g) as [|r rs] eqn:E;
        [exfalso; unfold len in Hlen; cbn in Hlen; lia|].
      rewrite _create_from_rows_uniform.
      * apply Forall_cons_1 in Hrw as [Hr _]. rewrite Hr, <- Hlen.
        destruct g as [w h rows]. cbn in *. by rewrite Hrs.
      * apply Forall_cons_1 in Hrw as [Hr Hrest].
        eapply Forall_impl; [exact Hrest|]. unfold len in *. intros; cbn in *; lia.
Qed.

Lemma pack_unpack_inverse_witness :
  ∃ g, frompacked [165; 15] 1 (8 / 2) = Ok g ∧
       well_formed g ∧ _height g = 1 ∧ _width g = 8 / 2 * len [165; 15] ∧
       packed g (8 / 2) = Ok [165; 15].
Proof.
  apply (proj1 pack_unpack_inverse 2 [165; 15]).
  - unfold bit_depths. apply list_elem_of_further, list_elem_of_here.
  - repeat constructor; unfold is_byte; lia.
  - discriminate.
Defined.

(** The empty byte sequence, whose length is a multiple of every count of
    items per byte, does not unpack: the row width is 0 and [range] rejects
    a zero step. *)
Lemma frompacked_empty_raises :
  frompacked [] 1 (8 / 8) = Err ValueError.
Proof. reflexivity. Qed.

(** * Further properties of the byte matrix *)

(** ** The class invariant of derived matrices *)

(** A matrix that [_create_from_rows] returns has at least one row, and
    [_height] rows of [_width] items each. *)
Lemma _create_from_rows_invariant (data : list (list Z)) (g : ByteMatrix) :
  _create_from_rows data = Ok g →
  _rows g = Some data ∧ 0 < _height g ∧ _height g = len data ∧
  Forall (λ r, len r = _width g) data.
Proof.
  unfold _create_from_rows. destruct data as [|r rs]; [discriminate|].
  rewrite getitem_head. cbn [mbind result_bind].
  destruct (Nat.eqb_spec (length (remove_dups (length <$> r :: rs))) 1) as [Hone|];
    [|discriminate].
  intros [= <-]. cbn [_rows _height _width].
  split; [reflexivity|]. split; [rewrite len_cons; pose proof (len_nonneg rs); lia|].
  split; [reflexivity|].
  destruct (remove_dups (length <$> r :: rs)) as [|n [|? ?]] eqn:Hd; try discriminate.
  assert (∀ x, x ∈ r :: rs → length x = n) as Hsame.
  { intros x Hx.
    assert (length x ∈ remove_dups (length <$> r :: rs)) as Hin
      by (apply elem_of_remove_dups, list_elem_of_fmap; eauto).
    rewrite Hd in Hin. by apply list_elem_of_singleton in Hin. }
  apply Forall_forall. intros x Hx. unfold len.
  rewrite (Hsame x Hx), (Hsame r); [reflexivity|left].
Qed.

Lemma _create_from_rows_invariant_witness :
  _rows (mkByteMatrix 2 2 (Some [[1; 2]; [3; 4]])) = Some [[1; 2]; [3; 4]] ∧
  0 < 2 ∧ 2 = len [[1; 2]; [3; 4]] ∧
  Forall (λ r, len r = 2) [[1; 2]; [3; 4]].
Proof.
  apply (_create_from_rows_invariant [[1; 2]; [3; 4]]
           (mkByteMatrix 2 2 (Some [[1; 2]; [3; 4]]))).
  reflexivity.
Defined.

Lemma well_formed_eta (g : ByteMatrix) :
  well_formed g → g = mkByteMatrix (_width g) (_height g) (Some (rows_of g)).
Proof.
  intros Hg. apply well_formed_rows in Hg as (Hrs & _ & _).
  destruct g as [w h rows]. cbn in *. by rewrite Hrs.
Qed.

Lemma list_times_single (b n : Z) : list_times [b] n = replicate (Z.to_nat n) b.
Proof.
  unfold list_times. induction (Z.to_nat n) as [|k IH]; [reflexivity|].
  cbn. by rewrite IH.
Qed.

Lemma bytearray_new_single (b : Z) : is_byte b → bytearray_new [b] = Ok [b].
Proof. intros Hb. apply bytearray_new_Ok. by apply Forall_cons. Qed.

(** ** Extension *)

(** [hextend] by a non-negative width appends that many fill bytes to
    every row; the matrix stays well formed. *)
Lemma hextend_rows (g : ByteMatrix) (by_width fill : Z) :
  well_formed g → 0 < _height g → is_byte fill → 0 ≤ by_width →
  hextend g by_width fill =
    Ok (mkByteMatrix (_width g + by_width) (_height g)
          (Some ((λ row, row ++ replicate (Z.to_nat by_width) fill) <$> rows_of g))) ∧
  ∀ g', hextend g by_width fill = Ok g' → well_formed g'.
Proof.
  intros Hg Hh Hf Hby.
  assert (hextend g by_width fill =
    Ok (mkByteMatrix (_width g + by_width) (_height g)
          (Some ((λ row, row ++ replicate (Z.to_nat by_width) fill) <$> rows_of g)))) as Heq.
  { destruct (well_formed_rows g Hg) as (Hrs & Hlen & Hall).
    unfold hextend, get_rows. rewrite bytearray_new_single by done.
    cbn [mbind result_bind]. rewrite Hrs. cbn [mbind result_bind].
    rewrite list_times_single.
    destruct (rows_of g) as [|r rs];
      [exfalso; unfold len in Hlen; cbn in Hlen; lia|].
    rewrite fmap_cons, _create_from_rows_uniform.
    - apply Forall_cons_1 in Hall as [[Hw _] _]. do 2 f_equal.
      + rewrite len_app, Hw. unfold len. rewrite length_replicate. lia.
      + rewrite Hlen. unfold len. cbn. by rewrite length_fmap.
    - apply Forall_cons_1 in Hall as [[Hw _] Hall].
      apply Forall_fmap. eapply Forall_impl; [exact Hall|]. intros r' [Hw' _]. cbn.
      rewrite !length_app. unfold len in *. lia. }
  split; [exact Heq|]. intros g'. rewrite Heq. intros [= <-].
  destruct (well_formed_rows g Hg) as (Hrs & Hlen & Hall).
  eexists. split; [reflexivity|]. cbn [_height _width]. split.
  - rewrite Hlen. unfold len. by rewrite length_fmap.
  - apply Forall_fmap. eapply Forall_impl; [exact Hall|]. intros r [Hw Hb]. cbn. split.
    + rewrite len_app, Hw. unfold len. rewrite length_replicate. lia.
    + apply Forall_app. split; [done|]. by apply Forall_replicate.
Qed.

Lemma hextend_rows_witness :
  hextend (mkByteMatrix 2 1 (Some [[1; 2]])) 2 9 = Ok (mkByteMatrix 4 1 (Some [[1; 2; 9; 9]])).
Proof.
  apply (hextend_rows (mkByteMatrix 2 1 (Some [[1; 2]])) 2 9).
  - eexists. split; [reflexivity|]. split; [reflexivity|].
    repeat constructor; unfold is_byte; lia.
  - cbn. lia.
  - unfold is_byte. lia.
  - lia.
Defined.

(** [hextend] by a negative width changes nothing: [bytearray * n] is empty
    for a negative [n]. *)
Lemma hextend_negative (g : ByteMatrix) (by_width fill : Z) :
  well_formed g → 0 < _height g → is_byte fill → by_width < 0 →
  hextend g by_width fill = Ok g.
Proof.
  intros Hg Hh Hf Hby. destruct (well_formed_rows g Hg) as (Hrs & Hlen & Hall).
  unfold hextend, get_rows. rewrite bytearray_new_single by done.
  cbn [mbind result_bind]. rewrite Hrs. cbn [mbind result_bind].
  rewrite list_times_single. replace (Z.to_nat by_width) with 0%nat by lia. cbn [replicate].
  rewrite (list_fmap_ext _ id (rows_of g)) by (intros; apply app_nil_r).
  rewrite list_fmap_id. rewrite (well_formed_eta g Hg) at 2.
  destruct (rows_of g) as [|r rs];
    [exfalso; unfold len in Hlen; cbn in Hlen; lia|].
  rewrite _create_from_rows_uniform.
  - apply Forall_cons_1 in Hall as [[Hw _] _]. by rewrite Hw, Hlen.
  - apply Forall_cons_1 in Hall as [[Hw _] Hall].
    eapply Forall_impl; [exact Hall|]. intros r' [Hw' _]. unfold len in *. cbn. lia.
Qed.

Lemma hextend_negative_witness :
  hextend (mkByteMatrix 2 1 (Some [[1; 2]])) (-3) 9 = Ok (mkByteMatrix 2 1 (Some [[1; 2]])).
Proof.
  apply (hextend_negative (mkByteMatrix 2 1 (Some [[1; 2]])) (-3) 9).
  - eexists. split; [reflexivity|]. split; [reflexivity|].
    repeat constructor; unfold is_byte; lia.
  - cbn. lia.
  - unfold is_byte. lia.
  - lia.
Defined.

Lemma py_range_upto (n : Z) :
  ∃ r, py_range 0 n 1 = Ok r ∧ length r = Z.to_nat n.
Proof.
  unfold py_range, range_len. cbn [Z.eqb Z.ltb Z.compare].
  eexists. split; [reflexivity|]. rewrite length_fmap, length_seqZ.
  destruct (Z.ltb_spec 0 n); [rewrite Z.div_1_r|]; lia.
Qed.

Lemma mapM_const {A B} (r : result B) (b : B) (l : list A) :
  (l ≠ [] → r = Ok b) → mapM (λ _, r) l = Ok (replicate (length l) b).
Proof.
  intros Hr. destruct l as [|a l]; [reflexivity|].
  rewrite Hr by done. apply mapM_Ok_Forall2.
  generalize (a :: l). intros k. induction k; cbn; constructor; auto.
Qed.

(** [vextend] by a positive height appends that many rows of [_width] fill
    bytes. *)
Lemma vextend_rows (g : ByteMatrix) (by_height fill : Z) :
  well_formed g → 0 < _height g → is_byte fill → 0 ≤ by_height →
  vextend g by_height fill =
    Ok (mkByteMatrix (_width g) (_height g + by_height)
          (Some (rows_of g ++
                 replicate (Z.to_nat by_height) (replicate (Z.to_nat (_width g)) fill)))).
Proof.
  intros Hg Hh Hf Hby. destruct (well_formed_rows g Hg) as (Hrs & Hlen & Hall).
  unfold vextend, get_rows. rewrite Hrs. cbn [mbind result_bind].
  destruct (py_range_upto by_height) as (r & -> & Hr). cbn [mbind result_bind].
  rewrite (mapM_const _ (replicate (Z.to_nat (_width g)) fill)).
  2:{ intros _. rewrite bytearray_new_single by done. cbn. by rewrite list_times_single. }
  cbn [mbind result_bind]. rewrite Hr.
  destruct (rows_of g) as [|r0 rs];
    [exfalso; unfold len in Hlen; cbn in Hlen; lia|].
  apply Forall_cons_1 in Hall as [[Hw _] Hall].
  rewrite <- app_comm_cons, _create_from_rows_uniform.
  - rewrite Hw. do 2 f_equal. rewrite Hlen. unfold len. cbn.
    rewrite !length_app, length_replicate. cbn. lia.
  - apply Forall_app. split.
    + eapply Forall_impl; [exact Hall|]. intros r' [Hw' _]. unfold len in *. cbn. lia.
    + apply Forall_replicate. rewrite length_replicate. unfold len in Hw. lia.
Qed.

Lemma vextend_rows_witness :
  vextend (mkByteMatrix 2 1 (Some [[1; 2]])) 2 9
  = Ok (mkByteMatrix 2 3 (Some [[1; 2]; [9; 9]; [9; 9]])).
Proof.
  apply (vextend_rows (mkByteMatrix 2 1 (Some [[1; 2]])) 2 9).
  - eexists. split; [reflexivity|]. split; [reflexivity|].
    repeat constructor; unfold is_byte; lia.
  - cbn. lia.
  - unfold is_byte. lia.
  - lia.
Defined.

(** [vextend] by a height of zero or less returns the matrix as it is and
    never looks at the fill value, which [hextend] would reject when it is
    not a byte. *)
Lemma vextend_nothing (g : ByteMatrix) (by_height fill : Z) :
  well_formed g → 0 < _height g → by_height ≤ 0 →
  vextend g by_height fill = Ok g ∧
  (¬ is_byte fill → hextend g by_height fill = Err ValueError).
Proof.
  intros Hg Hh Hby. destruct (well_formed_rows g Hg) as (Hrs & Hlen & Hall). split.
  - unfold vextend, get_rows. rewrite Hrs. cbn [mbind result_bind].
    destruct (py_range_upto by_height) as (r & -> & Hr). cbn [mbind result_bind].
    destruct r as [|? ?]; [|cbn in Hr; lia]. cbn [mapM mbind result_bind mret result_ret].
    rewrite app_nil_r. rewrite (well_formed_eta g Hg) at 2.
    destruct (rows_of g) as [|r0 rs];
      [exfalso; unfold len in Hlen; cbn in Hlen; lia|].
    apply Forall_cons_1 in Hall as [[Hw _] Hall].
    rewrite _create_from_rows_uniform.
    + by rewrite Hw, Hlen.
    + eapply Forall_impl; [exact Hall|]. intros r' [Hw' _]. unfold len in *. cbn. lia.
  - intros Hnb. unfold hextend, bytearray_new. cbn [forallb].
    destruct ((0 <=? fill) && (fill <? 256)) eqn:E; [|reflexivity].
    exfalso. apply Hnb. by apply is_byteb_spec.
Qed.

Lemma vextend_nothing_witness :
  vextend (mkByteMatrix 2 1 (Some [[1; 2]])) (-1) 300 = Ok (mkByteMatrix 2 1 (Some [[1; 2]])) ∧
  (¬ is_byte 300 → hextend (mkByteMatrix 2 1 (Some [[1; 2]])) (-1) 300 = Err ValueError).
Proof.
  apply (vextend_nothing (mkByteMatrix 2 1 (Some [[1; 2]])) (-1) 300).
  - eexists. split; [reflexivity|]. split; [reflexivity|].
    repeat constructor; unfold is_byte; lia.
  - cbn. lia.
  - lia.
Defined.

(** [hrepeat] repeats every byte of every row [times] times in place; for
    [times] of zero or less the rows become empty. *)
Lemma hrepeat_rows (g : ByteMatrix) (times : Z) :
  well_formed g → 0 < _height g →
  hrepeat g times =
    Ok (mkByteMatrix (_width g * Z.max times 0) (_height g)
          (Some ((λ row, concat ((λ b, replicate (Z.to_nat times) b) <$> row))
                 <$> rows_of g))).
Proof.
  intros Hg Hh. destruct (well_formed_rows g Hg) as (Hrs & Hlen & Hall).
  unfold hrepeat, get_rows. rewrite Hrs. cbn [mbind result_bind].
  destruct (py_range_upto times) as (r & Hrange & Hr). rewrite Hrange.
  set (rep := λ row : list Z, concat ((λ b, replicate (Z.to_nat times) b) <$> row)).
  assert (∀ row : list Z, len (rep row) = len row * Z.max times 0) as Hreplen.
  { intros row. unfold rep.
    rewrite (len_concat_uniform _ (Z.max times 0)).
    - unfold len. by rewrite length_fmap.
    - apply Forall_fmap, Forall_forall. intros b _. cbn. unfold len.
      rewrite length_replicate. lia. }
  rewrite (mapM_Ok_fmap _ rep).
  2:{ eapply Forall_impl; [exact Hall|]. intros row [_ Hbytes]. cbn.
      rewrite (mapM_Ok_fmap _ (λ b, replicate (Z.to_nat times) b)).
      - cbn [mbind result_bind]. apply bytearray_new_Ok.
        apply Forall_concat_rows, Forall_fmap.
        eapply Forall_impl; [exact Hbytes|]. intros b Hb. cbn. by apply Forall_replicate.
      - apply Forall_forall. intros b _. cbn. f_equal. rewrite <- Hr.
        clear. induction r; cbn; [done|]. by f_equal. }
  cbn [mbind result_bind].
  destruct (rows_of g) as [|r0 rs];
    [exfalso; unfold len in Hlen; cbn in Hlen; lia|].
  apply Forall_cons_1 in Hall as [[Hw _] Hall].
  rewrite fmap_cons, _create_from_rows_uniform.
  - rewrite Hreplen, Hw, Hlen. do 2 f_equal. unfold len. cbn. by rewrite length_fmap.
  - apply Forall_fmap. eapply Forall_impl; [exact Hall|]. intros r' [Hw' _]. cbn.
    pose proof (Hreplen r0) as H0. pose proof (Hreplen r') as H1. unfold len in *. nia.
Qed.

Lemma hrepeat_rows_witness :
  hrepeat (mkByteMatrix 2 1 (Some [[1; 2]])) 3
  = Ok (mkByteMatrix 6 1 (Some [[1; 1; 1; 2; 2; 2]])).
Proof.
  apply (hrepeat_rows (mkByteMatrix 2 1 (Some [[1; 2]])) 3).
  - eexists. split; [reflexivity|]. split; [reflexivity|].
    repeat constructor; unfold is_byte; lia.
  - cbn. lia.
Defined.

(** ** Stacking, extending and slicing back *)

Lemma slice_items_prefix {A} (l k : list A) :
  slice_items (l ++ k) (slice_of 0 (len l)) = l.
Proof.
  rewrite slice_items_range by (pose proof (len_nonneg l); lia).
  rewrite Z.sub_0_r. change (Z.to_nat 0) with 0%nat. rewrite drop_0.
  unfold len. rewrite Nat2Z.id. by rewrite take_app_length.
Qed.

Lemma slice_items_suffix {A} (l k : list A) :
  slice_items (l ++ k) (slice_of (len l) (len l + len k)) = k.
Proof.
  pose proof (len_nonneg l). pose proof (len_nonneg k).
  rewrite slice_items_range by lia.
  replace (Z.to_nat (len l + len k - len l)) with (length k) by (unfold len; lia).
  unfold len at 1. rewrite Nat2Z.id, drop_app_length. by rewrite firstn_all.
Qed.

Lemma getitem_all_rows (g : ByteMatrix) (sx : slice) :
  well_formed g → 0 < _height g → default 1 (slice_step sx) ≠ 0 →
  ∀ r rs, rows_of g = r :: rs →
  __getitem__ g (Slc sx) (Slc slice_all) =
    Ok (Matrix (mkByteMatrix (len (slice_items r sx)) (_height g)
                  (Some ((λ row, slice_items row sx) <$> rows_of g)))).
Proof.
  intros Hg Hh Hsx r rs Hr. rewrite getitem_slices by done.
  rewrite slice_items_all, Hr.
  by destruct (well_formed_rows g Hg) as (_ & -> & _); rewrite Hr.
Qed.

Lemma zip_with_app_rows (ra rb : list (list Z)) (wa wb : Z) :
  Forall (λ r, len r = wa ∧ Forall is_byte r) ra →
  Forall (λ r, len r = wb ∧ Forall is_byte r) rb →
  Forall (λ r, len r = wa + wb ∧ Forall is_byte r) (zip_with app ra rb).
Proof.
  intros Ha. revert rb. induction Ha as [|a ra [Ha1 Ha2] _ IH]; intros rb Hb.
  - constructor.
  - destruct Hb as [|b rb [Hb1 Hb2] Hb]; [constructor|]. cbn. constructor.
    + split; [rewrite len_app; lia|by apply Forall_app].
    + by apply IH.
Qed.

Lemma zip_with_app_prefix (ra rb : list (list Z)) (wa : Z) :
  Forall (λ r, len r = wa) ra → length ra = length rb →
  (λ row, slice_items row (slice_of 0 wa)) <$> zip_with app ra rb = ra.
Proof.
  intros Ha. revert rb. induction Ha as [|a ra Ha1 _ IH]; intros rb Hlen.
  - reflexivity.
  - destruct rb as [|b rb]; [discriminate|]. cbn. f_equal.
    + rewrite <- Ha1. apply slice_items_prefix.
    + apply IH. by injection Hlen.
Qed.

Lemma zip_with_app_suffix (ra rb : list (list Z)) (wa wb : Z) :
  Forall (λ r, len r = wa) ra → Forall (λ r, len r = wb) rb →
  length ra = length rb →
  (λ row, slice_items row (slice_of wa (wa + wb))) <$> zip_with app ra rb = rb.
Proof.
  intros Ha. revert rb. induction Ha as [|a ra Ha1 _ IH]; intros rb Hb Hlen.
  - by destruct rb.
  - destruct Hb as [|b rb Hb1 Hb]; [discriminate|]. cbn. f_equal.
    + rewrite <- Ha1, <- Hb1. apply slice_items_suffix.
    + apply IH; [done|]. by injection Hlen.
Qed.

Lemma Forall_widths (rs : list (list Z)) (w : Z) :
  Forall (λ r, len r = w ∧ Forall is_byte r) rs → Forall (λ r, len r = w) rs.
Proof. intros H. eapply Forall_impl; [exact H|]. by intros r [? _]. Qed.

(** Two matrices of one height put side by side and cut at the seam give
    the two matrices back. *)
Lemma hstack_slice_back (A B : ByteMatrix) :
  well_formed A → well_formed B → _height A = _height B → 0 < _height A →
  ∃ g, hstack [A; B] = Ok g ∧
       _width g = _width A + _width B ∧ _height g = _height A ∧
       __getitem__ g (Slc (slice_of 0 (_width A))) (Slc slice_all) = Ok (Matrix A) ∧
       __getitem__ g (Slc (slice_of (_width A) (_width A + _width B))) (Slc slice_all)
       = Ok (Matrix B).
Proof.
  intros HA HB Hh HhA.
  destruct (well_formed_rows A HA) as (HrsA & HlenA & HallA).
  destruct (well_formed_rows B HB) as (HrsB & HlenB & HallB).
  assert (length (rows_of A) = length (rows_of B)) as Hlen by (unfold len in *; lia).
  assert (@concat Z <$> zip_star (rows_of <$> [A; B]) = zip_with app (rows_of A) (rows_of B))
    as Hrows.
  { cbn [fmap list_fmap zip_star]. generalize (rows_of B). intros rb.
    induction (rows_of A) as [|a ra IH] in rb |- *; destruct rb as [|b rb]; try done.
    cbn. rewrite app_nil_r. f_equal. apply IH. }
  rewrite hstack_rows by (by repeat constructor).
  destruct (zip_star (rows_of <$> [A; B])) as [|t ts] eqn:Hz; rewrite ?Hz in Hrows.
  { exfalso. destruct (rows_of A) as [|a ra]; [unfold len in HlenA; cbn in HlenA; lia|].
    destruct (rows_of B) as [|b rb]; [done|]. discriminate Hrows. }
  cbv zeta. rewrite Hrows.
  assert (len (t :: ts) = _height A) as Hheight.
  { apply (f_equal length) in Hrows. rewrite length_fmap, length_zip_with in Hrows.
    unfold len in *. lia. }
  rewrite Hheight.
  set (g := mkByteMatrix _ _ _).
  assert (well_formed g) as Hg.
  { exists (zip_with app (rows_of A) (rows_of B)). split; [reflexivity|].
    split; [unfold g; cbn [_height]; rewrite HlenA; unfold len;
            rewrite length_zip_with; lia|].
    unfold g. cbn [_width py_sum foldr fmap list_fmap]. rewrite Z.add_0_r.
    by apply zip_with_app_rows. }
  exists g. split; [reflexivity|]. split; [unfold g; cbn; lia|].
  split; [reflexivity|].
  apply Forall_widths in HallA, HallB.
  destruct (rows_of A) as [|a ra] eqn:EA; [exfalso; unfold len in HlenA; cbn in HlenA; lia|].
  destruct (rows_of B) as [|b rb] eqn:EB; [done|].
  assert (rows_of g = (a ++ b) :: zip_with app ra rb) as Hgr by reflexivity.
  assert (_height g = _height A) as HgA by reflexivity.
  assert (0 < _height g) as Hgh by (rewrite HgA; exact HhA).
  split.
  - rewrite (getitem_all_rows g (slice_of 0 (_width A)) Hg Hgh ltac:(cbn; lia) _ _ Hgr).
    rewrite HgA. do 2 f_equal.
    apply eq_trans with (mkByteMatrix (_width A) (_height A) (Some (rows_of A)));
      [|symmetry; apply well_formed_eta, HA].
    rewrite EA.
    replace (rows_of g) with (zip_with app (a :: ra) (b :: rb)) by done.
    rewrite zip_with_app_prefix by done. f_equal.
    apply Forall_cons_1 in HallA as [<- _]. by rewrite slice_items_prefix.
  - rewrite (getitem_all_rows g (slice_of (_width A) (_width A + _width B)) Hg Hgh
               ltac:(cbn; lia) _ _ Hgr).
    rewrite HgA, Hh. do 2 f_equal.
    apply eq_trans with (mkByteMatrix (_width B) (_height B) (Some (rows_of B)));
      [|symmetry; apply well_formed_eta, HB].
    rewrite EB.
    replace (rows_of g) with (zip_with app (a :: ra) (b :: rb)) by done.
    rewrite zip_with_app_suffix by done. f_equal.
    apply Forall_cons_1 in HallA as [<- _], HallB as [<- _].
    by rewrite slice_items_suffix.
Qed.

Lemma hstack_slice_back_witness :
  ∃ g, hstack [mkByteMatrix 2 1 (Some [[1; 2]]); mkByteMatrix 1 1 (Some [[3]])] = Ok g ∧
       _width g = 2 + 1 ∧ _height g = 1 ∧
       __getitem__ g (Slc (slice_of 0 2)) (Slc slice_all)
       = Ok (Matrix (mkByteMatrix 2 1 (Some [[1; 2]]))) ∧
       __getitem__ g (Slc (slice_of 2 (2 + 1))) (Slc slice_all)
       = Ok (Matrix (mkByteMatrix 1 1 (Some [[3]]))).
Proof.
  apply (hstack_slice_back (mkByteMatrix 2 1 (Some [[1; 2]]))
           (mkByteMatrix 1 1 (Some [[3]]))).
  - eexists. split; [reflexivity|]. split; [reflexivity|].
    repeat constructor; unfold is_byte; lia.
  - eexists. split; [reflexivity|]. split; [reflexivity|].
    repeat constructor; unfold is_byte; lia.
  - reflexivity.
  - cbn. lia.
Defined.

Lemma getitem_all_columns (g : ByteMatrix) (sy : slice) (r : list Z) (rs : list (list Z)) :
  well_formed g → default 1 (slice_step sy) ≠ 0 →
  slice_items (rows_of g) sy = r :: rs →
  __getitem__ g (Slc slice_all) (Slc sy) =
    Ok (Matrix (mkByteMatrix (len r) (len (r :: rs)) (Some (r :: rs)))).
Proof.
  intros Hg Hsy Hsel. rewrite getitem_slices by done. rewrite Hsel.
  rewrite slice_items_all. do 4 f_equal.
  rewrite (list_fmap_ext _ id) by (intros; apply slice_items_all).
  apply list_fmap_id.
Qed.

(** Two matrices of one width stacked and cut at the seam give the two
    matrices back. *)
Lemma vstack_slice_back (A B : ByteMatrix) :
  well_formed A → well_formed B → _width A = _width B →
  0 < _height A → 0 < _height B →
  ∃ g, vstack [A; B] = Ok g ∧
       _width g = _width A ∧ _height g = _height A + _height B ∧
       __getitem__ g (Slc slice_all) (Slc (slice_of 0 (_height A))) = Ok (Matrix A) ∧
       __getitem__ g (Slc slice_all)
         (Slc (slice_of (_height A) (_height A + _height B))) = Ok (Matrix B).
Proof.
  intros HA HB Hw HhA HhB.
  destruct (well_formed_rows A HA) as (HrsA & HlenA & HallA).
  destruct (well_formed_rows B HB) as (HrsB & HlenB & HallB).
  set (g := mkByteMatrix (_width A) (_height A + _height B)
              (Some (rows_of A ++ rows_of B))).
  assert (vstack [A; B] = Ok g) as Hv.
  { rewrite vstack_rows by (by repeat constructor).
    cbn [fmap list_fmap concat]. rewrite app_nil_r.
    destruct (rows_of A) as [|a ra] eqn:EA;
      [exfalso; unfold len in HlenA; cbn in HlenA; lia|].
    rewrite <- app_comm_cons, _create_from_rows_uniform.
    - unfold g. apply Forall_cons_1 in HallA as [[<- _] _]. do 2 f_equal.
      rewrite HlenA, HlenB, app_comm_cons, len_app. reflexivity.
    - apply Forall_cons_1 in HallA as [[Ha _] HallA]. apply Forall_app. split.
      + eapply Forall_impl; [exact HallA|]. intros r [? _]. unfold len in *. cbn. lia.
      + eapply Forall_impl; [exact HallB|]. intros r [? _]. unfold len in *. cbn. lia. }
  assert (well_formed g) as Hg.
  { exists (rows_of A ++ rows_of B). split; [reflexivity|].
    split; [unfold g; cbn; rewrite len_app; lia|].
    apply Forall_app. split; [exact HallA|]. unfold g. cbn [_width]. by rewrite Hw. }
  exists g. split; [exact Hv|]. split; [reflexivity|]. split; [reflexivity|].
  assert (rows_of g = rows_of A ++ rows_of B) as Hgr by reflexivity.
  split.
  - destruct (rows_of A) as [|a ra] eqn:EA;
      [exfalso; unfold len in HlenA; cbn in HlenA; lia|].
    rewrite (getitem_all_columns g _ a ra Hg); [|cbn; lia|].
    + do 2 f_equal.
      apply eq_trans with (mkByteMatrix (_width A) (_height A) (Some (rows_of A)));
        [|symmetry; apply well_formed_eta, HA].
      rewrite EA, HlenA. apply Forall_cons_1 in HallA as [[<- _] _]. reflexivity.
    + rewrite Hgr, HlenA. apply slice_items_prefix.
  - destruct (rows_of B) as [|b rb] eqn:EB;
      [exfalso; unfold len in HlenB; cbn in HlenB; lia|].
    rewrite (getitem_all_columns g _ b rb Hg); [|cbn; lia|].
    + do 2 f_equal.
      apply eq_trans with (mkByteMatrix (_width B) (_height B) (Some (rows_of B)));
        [|symmetry; apply well_formed_eta, HB].
      rewrite EB, HlenB. apply Forall_cons_1 in HallB as [[<- _] _]. reflexivity.
    + rewrite Hgr, HlenA, HlenB. apply slice_items_suffix.
Qed.

Lemma vstack_slice_back_witness :
  ∃ g, vstack [mkByteMatrix 2 1 (Some [[1; 2]]); mkByteMatrix 2 1 (Some [[3; 4]])] = Ok g ∧
       _width g = 2 ∧ _height g = 1 + 1 ∧
       __getitem__ g (Slc slice_all) (Slc (slice_of 0 1))
       = Ok (Matrix (mkByteMatrix 2 1 (Some [[1; 2]]))) ∧
       __getitem__ g (Slc slice_all) (Slc (slice_of 1 (1 + 1)))
       = Ok (Matrix (mkByteMatrix 2 1 (Some [[3; 4]]))).
Proof.
  apply (vstack_slice_back (mkByteMatrix 2 1 (Some [[1; 2]]))
           (mkByteMatrix 2 1 (Some [[3; 4]]))).
  - eexists. split; [reflexivity|]. split; [reflexivity|].
    repeat constructor; unfold is_byte; lia.
  - eexists. split; [reflexivity|]. split; [reflexivity|].
    repeat constructor; unfold is_byte; lia.
  - reflexivity.
  - cbn. lia.
  - cbn. lia.
Defined.

(** After [hextend] the original columns are unchanged and the appended
    columns hold the fill value only. *)
Lemma hextend_slice_back (g : ByteMatrix) (by_width fill : Z) :
  well_formed g → 0 < _height g → is_byte fill → 0 ≤ by_width →
  ∃ g', hextend g by_width fill = Ok g' ∧
        _width g' = _width g + by_width ∧
        __getitem__ g' (Slc (slice_of 0 (_width g))) (Slc slice_all) = Ok (Matrix g) ∧
        __getitem__ g' (Slc (slice_of (_width g) (_width g + by_width))) (Slc slice_all)
        = Ok (Matrix (mkByteMatrix by_width (_height g)
                        (Some (replicate (Z.to_nat (_height g))
                                 (replicate (Z.to_nat by_width) fill))))).
Proof.
  intros Hg Hh Hf Hby.
  destruct (hextend_rows g by_width fill Hg Hh Hf Hby) as [Heq Hwf].
  destruct (well_formed_rows g Hg) as (Hrs & Hlen & Hall).
  eexists. split; [exact Heq|]. split; [reflexivity|].
  specialize (Hwf _ Heq). set (g' := mkByteMatrix _ _ _) in *.
  assert (0 < _height g') as Hh' by exact Hh.
  destruct (rows_of g) as [|r rs] eqn:E;
    [exfalso; unfold len in Hlen; cbn in Hlen; lia|].
  assert (rows_of g' = (r ++ replicate (Z.to_nat by_width) fill)
            :: ((λ row, row ++ replicate (Z.to_nat by_width) fill) <$> rs)) as Hgr
    by (unfold g'; unfold rows_of at 1; cbn [_rows default]; rewrite ?E; reflexivity).
  assert (len (replicate (Z.to_nat by_width) fill) = by_width) as Hfl
    by (unfold len; rewrite length_replicate; lia).
  apply Forall_widths in Hall.
  assert (rows_of g' = (λ row, row ++ replicate (Z.to_nat by_width) fill) <$> (r :: rs))
    as Hgf by (rewrite Hgr; reflexivity).
  pose proof Hall as Hall'. apply Forall_cons_1 in Hall' as [Hr _].
  assert (∀ row : list Z, len row = _width g →
            slice_items (row ++ replicate (Z.to_nat by_width) fill)
              (slice_of 0 (_width g)) = row) as Hpre.
  { intros row Hrow. rewrite <- Hrow. apply slice_items_prefix. }
  assert (∀ row : list Z, len row = _width g →
            slice_items (row ++ replicate (Z.to_nat by_width) fill)
              (slice_of (_width g) (_width g + by_width))
            = replicate (Z.to_nat by_width) fill) as Hsuf.
  { intros row Hrow.
    pose proof (slice_items_suffix row (replicate (Z.to_nat by_width) fill)) as Hs.
    by rewrite Hfl, Hrow in Hs. }
  split.
  - rewrite (getitem_all_rows g' (slice_of 0 (_width g)) Hwf Hh' ltac:(cbn; lia) _ _ Hgr).
    do 2 f_equal.
    apply eq_trans with (mkByteMatrix (_width g) (_height g) (Some (rows_of g)));
      [|symmetry; apply well_formed_eta, Hg].
    rewrite Hgf, E, (Hpre r Hr), Hr. change (_height g') with (_height g). do 2 f_equal.
    rewrite <- list_fmap_compose.
    rewrite <- (list_fmap_id (r :: rs)) at 2. apply Forall_fmap_ext.
    eapply Forall_impl; [exact Hall|]. intros row Hrow. cbn in *. by apply Hpre.
  - rewrite (getitem_all_rows g' (slice_of (_width g) (_width g + by_width)) Hwf Hh'
               ltac:(cbn; lia) _ _ Hgr).
    do 2 f_equal. rewrite Hgf, (Hsuf r Hr), Hfl. change (_height g') with (_height g).
    do 2 f_equal. rewrite Hlen. unfold len. rewrite Nat2Z.id.
    rewrite <- list_fmap_compose.
    apply list_eq_same_length with (length (r :: rs));
      [by rewrite length_replicate|by rewrite length_fmap|].
    intros i x y Hi Hx Hy. apply lookup_replicate in Hy as [-> _].
    apply list_lookup_fmap_Some in Hx as (row & -> & Hrow). cbn.
    apply Hsuf. rewrite Forall_forall in Hall. eapply Hall, list_elem_of_lookup_2, Hrow.
Qed.

Lemma hextend_slice_back_witness :
  ∃ g', hextend (mkByteMatrix 2 1 (Some [[1; 2]])) 2 9 = Ok g' ∧
        _width g' = 2 + 2 ∧
        __getitem__ g' (Slc (slice_of 0 2)) (Slc slice_all)
        = Ok (Matrix (mkByteMatrix 2 1 (Some [[1; 2]]))) ∧
        __getitem__ g' (Slc (slice_of 2 (2 + 2))) (Slc slice_all)
        = Ok (Matrix (mkByteMatrix 2 1 (Some [[9; 9]]))).
Proof.
  apply (hextend_slice_back (mkByteMatrix 2 1 (Some [[1; 2]])) 2 9).
  - eexists. split; [reflexivity|]. split; [reflexivity|].
    repeat constructor; unfold is_byte; lia.
  - cbn. lia.
  - unfold is_byte. lia.
  - lia.
Defined.

(** ** Packing outside the round trip *)

(** Any number of items per byte outside 1 to 8 is rejected by both packing
    functions, before the data is looked at. *)
Lemma packing_rejects_depth (S : list Z) (items_per_byte : Z) :
  items_per_byte < 1 ∨ 8 < items_per_byte →
  unpack_bytes S items_per_byte
    = Err (if items_per_byte =? 0 then ZeroDivisionError else ValueError) ∧
  pack_bytes S items_per_byte
    = Err (if items_per_byte =? 0 then ZeroDivisionError else ValueError).
Proof.
  intros H. unfold unpack_bytes, pack_bytes, py_floordiv.
  destruct (Z.eqb_spec items_per_byte 0) as [->|Hz]; [done|].
  cbn [mbind result_bind]. unfold py_lshift.
  destruct (Z.ltb_spec (8 / items_per_byte) 0) as [Hneg|Hpos]; [done|].
  cbn [mbind result_bind].
  assert (8 / items_per_byte = 0) as ->; [|done].
  destruct H as [H|H]; [|by apply Z.div_small].
  exfalso. assert (8 / items_per_byte < 0); [|lia].
  pose proof (Z.div_mod 8 items_per_byte Hz) as Hdm.
  pose proof (Z.mod_neg_bound 8 items_per_byte ltac:(lia)) as Hm. nia.
Qed.

Lemma packing_rejects_depth_witness :
  unpack_bytes [255] 16 = Err ValueError ∧ pack_bytes [255] 16 = Err ValueError.
Proof.
  apply (packing_rejects_depth [255] 16). right. lia.
Defined.

Lemma zip_with_app_short {A B C} (f : A → B → C) (l t : list A) (k : list B) :
  length l = length k → zip_with f (l ++ t) k = zip_with f l k.
Proof.
  revert k. induction l as [|a l IH]; intros [|b k] Hlen; try discriminate.
  - by destruct t.
  - cbn. f_equal. apply IH. by injection Hlen.
Qed.

Lemma pack_chunk_mask (b : Z) (c : list Z) :
  pack_chunk b ((λ v, Z.land v (Z.shiftl 1 b - 1)) <$> c) = pack_chunk b c.
Proof.
  unfold pack_chunk. f_equal. generalize (shifts_of b). 
  induction c as [|v c IH]; intros [|s ss]; try reflexivity.
  cbn. f_equal; [|apply IH].
  by rewrite <- Z.land_assoc, Z.land_diag.
Qed.

(** A group of items of any size packs to a byte: only the low bits of each
    item are used. *)
Lemma pack_chunk_byte (b : Z) (c : list Z) :
  b ∈ bit_depths → len c = 8 / b → is_byte (pack_chunk b c).
Proof.
  intros Hb Hlen.
  destruct (depth_facts b Hb) as (_ & Hbpos & _ & _ & _ & _ & Hchunk).
  rewrite <- pack_chunk_mask.
  apply check_chunk_spec, Hchunk.
  - unfold len in *. by rewrite length_fmap.
  - apply Forall_fmap, Forall_forall. intros v _. cbn.
    rewrite Z.shiftl_1_l.
    replace (2 ^ b - 1) with (Z.ones b) by (rewrite Z.ones_equiv; lia).
    rewrite Z.land_ones by lia. apply Z.mod_pos_bound. apply Z.pow_pos_nonneg; lia.
Qed.

(** [pack_bytes] never raises at a valid bit depth, whatever the items: it
    packs the complete groups, drops an incomplete group at the end, and
    ignores all but the low bits of each item. *)
Lemma pack_bytes_groups (b : Z) (cs : list (list Z)) (tail : list Z) :
  b ∈ bit_depths → Forall (λ c, len c = 8 / b) cs → len tail < 8 / b →
  pack_bytes (concat cs ++ tail) (8 / b) = Ok (pack_chunk b <$> cs) ∧
  Forall is_byte (pack_chunk b <$> cs) ∧
  pack_bytes (concat cs ++ tail) (8 / b)
  = pack_bytes (concat ((λ c : list Z, (λ v, Z.land v (Z.shiftl 1 b - 1)) <$> c) <$> cs))
      (8 / b).
Proof.
  intros Hb Hlen Htail.
  destruct (depth_facts b Hb) as (Hdiv & Hbpos & Hipb & Hsh & Hcnt & _ & _).
  remember (8 / b) as ipb eqn:Eipb.
  assert (Forall is_byte (pack_chunk b <$> cs)) as Hbytes.
  { apply Forall_fmap. eapply Forall_impl; [exact Hlen|]. intros c Hc. cbn.
    apply pack_chunk_byte; [done|]. by rewrite <- Eipb. }
  assert (pack_bytes (concat cs ++ tail) ipb = Ok (pack_chunk b <$> cs)) as Heq.
  { unfold pack_bytes. rewrite Hdiv. cbn [mbind result_bind].
    rewrite py_lshift_nonneg by lia. cbn [mbind result_bind].
    destruct (py_range_shifts b (proj1 Hbpos)) as (r & -> & Hr).
    cbn [mbind result_bind]. rewrite <- Hr.
    rewrite len_app, (len_concat_uniform cs ipb) by done.
    unfold py_floordiv. destruct (Z.eqb_spec ipb 0); [exfalso; lia|].
    pose proof (len_nonneg tail) as Htl.
    rewrite Z.div_add_l by done. rewrite (Z.div_small (len tail)) by lia.
    rewrite Z.add_0_r. cbn [mbind result_bind].
    unfold list_times.
    replace (Z.to_nat (len cs)) with (length cs) by (unfold len; lia).
    assert (Forall (λ c : list Z, length c = length (shifts_of b)) cs) as Hlen'.
    { eapply Forall_impl; [exact Hlen|]. unfold len in *. intros; cbn in *; lia. }
    rewrite zip_with_app_short.
    2:{ clear -Hlen'. induction Hlen' as [|c cs Hc _ IH]; [reflexivity|].
        cbn. rewrite !length_app. by rewrite IH, Hc. }
    rewrite zip_concat_replicate by done.
    set (prepack := λ c : list Z,
           zip_with (λ v shift, Z.shiftl (Z.land v (Z.shiftl 1 b - 1)) shift)
             c (shifts_of b)).
    rewrite (mapM_concat_Ok _ _ (prepack <$> cs)).
    2:{ apply Forall2_fmap, Forall_Forall2_diag, Forall_forall.
        intros c _. apply prepack_chunk, Hsh. }
    cbn [mbind result_bind].
    assert (Forall (λ p, len p = ipb) (prepack <$> cs)) as Hplen.
    { apply Forall_fmap. eapply Forall_impl; [exact Hlen|]. intros c Hc. cbn.
      unfold prepack, len in *. rewrite length_zip_with. lia. }
    rewrite (len_concat_uniform _ ipb) by done.
    rewrite py_range_multiples by (done || apply len_nonneg).
    cbn [mbind result_bind].
    rewrite (mapM_fmap_Ok _ py_sum _ (prepack <$> cs)) by (by apply chunks_concat).
    cbn [mbind result_bind]. rewrite <- list_fmap_compose.
    by apply bytearray_new_Ok. }
  split; [exact Heq|]. split; [exact Hbytes|].
  rewrite Heq. symmetry.
  rewrite (pack_bytes_eq ipb b Hdiv (proj1 Hbpos) Hipb Hsh Hcnt).
  - f_equal. rewrite <- list_fmap_compose. apply list_fmap_ext.
    intros i c _. unfold compose. apply pack_chunk_mask.
  - apply Forall_fmap. eapply Forall_impl; [exact Hlen|]. intros c Hc.
    unfold compose. cbv beta. split.
    + unfold len in *. by rewrite length_fmap.
    + rewrite pack_chunk_mask. apply pack_chunk_byte; [done|]. by rewrite <- Eipb.
Qed.

Lemma pack_bytes_groups_witness :
  pack_bytes (concat [[1; 2; 3; 4]; [257; 258; 259; 260]] ++ [3; 3]) (8 / 2)
  = Ok (pack_chunk 2 <$> [[1; 2; 3; 4]; [257; 258; 259; 260]]).
Proof.
  apply (pack_bytes_groups 2 [[1; 2; 3; 4]; [257; 258; 259; 260]] [3; 3]).
  - unfold bit_depths. apply list_elem_of_further, list_elem_of_here.
  - repeat constructor.
  - reflexivity.
Defined.

(** ** Unpacking at any height *)

(** At a valid bit depth every byte sequence unpacks, to [8/b] items per
    byte that pack to the sequence again. *)
Lemma unpack_bytes_depth (b : Z) (S : list Z) :
  b ∈ bit_depths → Forall is_byte S →
  unpack_bytes S (8 / b) = Ok (concat (unpack_byte b <$> S)) ∧
  len (concat (unpack_byte b <$> S)) = len S * (8 / b) ∧
  Forall is_byte (concat (unpack_byte b <$> S)) ∧
  pack_bytes (concat (unpack_byte b <$> S)) (8 / b) = Ok S.
Proof.
  intros Hb HS.
  destruct (depth_facts b Hb) as (Hdiv & Hbpos & Hipb & Hsh & Hcnt & Hbyte & Hchunk).
  assert (∀ byte, is_byte byte → Forall is_byte (unpack_byte b byte)) as Hub.
  { intros byte Hbt. destruct (check_byte_spec _ _ (Hbyte _ Hbt)) as (Hall & _ & _).
    eapply Forall_impl; [exact Hall|]. intros v Hv. cbn in Hv. unfold is_byte.
    assert (2 ^ b ≤ 2 ^ 8) by (apply Z.pow_le_mono_r; lia). lia. }
  assert (Forall (λ c, len c = 8 / b) (unpack_byte b <$> S)) as Hlens.
  { apply Forall_fmap. eapply Forall_impl; [exact HS|]. intros byte Hbt. cbn.
    by destruct (check_byte_spec _ _ (Hbyte _ Hbt)) as (_ & ? & _). }
  remember (8 / b) as ipb eqn:Eipb.
  split; [exact (unpack_bytes_eq ipb b Hdiv (proj1 Hbpos) Hsh S Hub HS)|].
  split; [rewrite (len_concat_uniform _ ipb) by done; unfold len; by rewrite length_fmap|].
  split; [by apply Forall_concat_rows, Forall_fmap, (Forall_impl _ _ _ HS)|].
  rewrite (pack_bytes_eq ipb b Hdiv (proj1 Hbpos) Hipb Hsh Hcnt).
  - f_equal. rewrite <- list_fmap_compose.
    rewrite <- (list_fmap_id S) at 2. apply Forall_fmap_ext.
    eapply Forall_impl; [exact HS|]. intros byte Hbt. cbn.
    by destruct (check_byte_spec _ _ (Hbyte _ Hbt)) as (_ & _ & ?).
  - apply Forall_fmap. eapply Forall_impl; [exact HS|].
    intros byte Hbt. cbn. destruct (check_byte_spec _ _ (Hbyte _ Hbt)) as (_ & Hl & ->).
    split; [by rewrite Hl, Eipb|done].
Qed.

(** [frompacked] derives the row width from the requested height and cuts
    the items into rows of that width: the matrix has the requested height
    only when the height divides the number of items; otherwise it has as
    many rows as the width goes into the items.  Either way it packs back to
    the bytes it came from. *)
Lemma frompacked_any_height (b : Z) (S : list Z) (h : Z) :
  b ∈ bit_depths → Forall is_byte S → 0 < h →
  0 < 8 / b * len S / h → (8 / b * len S) `mod` (8 / b * len S / h) = 0 →
  ∃ g, frompacked S h (8 / b) = Ok g ∧ well_formed g ∧
       _width g = 8 / b * len S / h ∧
       _height g = 8 / b * len S / _width g ∧
       ((8 / b * len S) `mod` h = 0 → _height g = h) ∧
       packed g (8 / b) = Ok S.
Proof.
  intros Hb HS Hh Hw Hmod.
  destruct (unpack_bytes_depth b S Hb HS) as (Hun & Hlen & Hbytes & Hpack).
  set (u := concat (unpack_byte b <$> S)) in *.
  set (n := 8 / b * len S) in *. set (w := n / h) in *.
  assert (len u = n) as Hu by (unfold n; lia).
  apply Z.mod_divide in Hmod as [k Hk]; [|lia].
  assert (0 < n) as Hnpos.
  { pose proof (len_nonneg u) as Hun0. destruct (Z.eq_dec n 0) as [E|E]; [|lia].
    exfalso. revert Hw. unfold w. rewrite E, Z.div_0_l by lia. lia. }
  assert (0 < k) as Hk0 by nia.
  destruct (split_chunks (Z.to_nat w) u (Z.to_nat k)) as (cs & Hcs & Hcl);
    [lia|unfold len in Hu; nia|].
  assert (Forall (λ c, len c = w) cs) as Hcw
    by (eapply Forall_impl; [exact Hcl|]; unfold len; intros; cbn in *; lia).
  assert (len cs = k) as Hcsk.
  { pose proof (len_concat_uniform cs w Hcw) as Hc. rewrite <- Hcs, Hu, Hk in Hc. nia. }
  destruct cs as [|c cs']; [exfalso; unfold len in Hcsk; cbn in Hcsk; lia|].
  set (cs := c :: cs') in *.
  exists (mkByteMatrix w k (Some cs)).
  assert (frompacked S h (8 / b) = Ok (mkByteMatrix w k (Some cs))) as Hfp.
  { unfold frompacked, py_floordiv. destruct (Z.eqb_spec h 0); [exfalso; lia|].
    cbn [mbind result_bind]. rewrite Hun. cbn [mbind result_bind].
    fold u n w. rewrite Hu, Hk, <- Hcsk.
    rewrite py_range_multiples by (lia || apply len_nonneg).
    cbn [mbind result_bind]. rewrite Hcs. rewrite chunks_concat by done.
    cbn [mbind result_bind]. unfold cs. rewrite _create_from_rows_uniform.
    - apply Forall_cons_1 in Hcw as [-> _]. reflexivity.
    - apply Forall_cons_1 in Hcl as [Hc Hrest].
      eapply Forall_impl; [exact Hrest|]. intros; cbn in *; lia. }
  split; [exact Hfp|]. split; [|split; [reflexivity|split; [|split]]].
  - exists cs. split; [reflexivity|]. split; [cbn; lia|].
    apply Forall_forall. intros r Hr. split.
    + rewrite Forall_forall in Hcw. by apply Hcw.
    + apply Forall_forall. intros v Hv. rewrite Forall_forall in Hbytes.
      apply Hbytes. rewrite Hcs. apply elem_of_concat. eauto.
  - cbn [_height _width]. rewrite Hk. by rewrite Z.div_mul by lia.
  - intros Hdivh. cbn [_height]. apply Z.mod_divide in Hdivh as [q Hq]; [|lia].
    assert (w = q) as Hwq by (unfold w; rewrite Hq; apply Z.div_mul; lia).
    nia.
  - unfold packed, get_rows. cbn [_rows mbind result_bind]. rewrite <- Hcs. exact Hpack.
Qed.

Lemma frompacked_any_height_witness :
  ∃ g, frompacked [255] 3 (8 / 1) = Ok g ∧ well_formed g ∧
       _width g = 8 / 1 * len [255] / 3 ∧
       _height g = 8 / 1 * len [255] / _width g ∧
       ((8 / 1 * len [255]) `mod` 3 = 0 → _height g = 3) ∧
       packed g (8 / 1) = Ok [255].
Proof.
  apply (frompacked_any_height 1 [255] 3).
  - unfold bit_depths. apply list_elem_of_here.
  - repeat constructor; unfold is_byte; lia.
  - lia.
  - reflexivity.
  - reflexivity.
Defined.

(** The ways [frompacked] fails at a valid bit depth: a zero height, a
    height above the number of items (or no items at all), a negative
    height, and a height whose row width does not go into the items. *)
Lemma frompacked_bad_height (b : Z) (S : list Z) (h : Z) :
  b ∈ bit_depths → Forall is_byte S →
  (h = 0 → frompacked S h (8 / b) = Err ZeroDivisionError) ∧
  (h ≠ 0 → 8 / b * len S / h = 0 → frompacked S h (8 / b) = Err ValueError) ∧
  (8 / b * len S / h < 0 → frompacked S h (8 / b) = Err IndexError) ∧
  (0 < 8 / b * len S / h → (8 / b * len S) `mod` (8 / b * len S / h) ≠ 0 →
   frompacked S h (8 / b) = Err AssertionError).
Proof.
  intros Hb HS.
  destruct (unpack_bytes_depth b S Hb HS) as (Hun & Hlen & Hbytes & Hpack).
  set (u := concat (unpack_byte b <$> S)) in *.
  set (n := 8 / b * len S) in *. set (w := n / h) in *.
  assert (len u = n) as Hu by (unfold n; lia).
  assert (0 ≤ n) as Hn by (rewrite <- Hu; apply len_nonneg).
  split; [|split; [|split]].
  - intros ->. reflexivity.
  - intros Hh Hw0. unfold frompacked, py_floordiv.
    destruct (Z.eqb_spec h 0); [contradiction|].
    cbn [mbind result_bind]. rewrite Hun. cbn [mbind result_bind].
    fold u n w. rewrite Hw0. reflexivity.
  - intros Hw. unfold frompacked, py_floordiv.
    destruct (Z.eqb_spec h 0) as [->|]; [exfalso; unfold w in Hw; rewrite Z.div_0_r in Hw; lia|].
    cbn [mbind result_bind]. rewrite Hun. cbn [mbind result_bind].
    fold u n w. unfold py_range, range_len.
    destruct (Z.eqb_spec w 0); [exfalso; lia|].
    destruct (Z.ltb_spec 0 w); [exfalso; lia|].
    destruct (Z.ltb_spec (len u) 0); [exfalso; lia|].
    reflexivity.
  - intros Hw Hmod. unfold frompacked, py_floordiv.
    destruct (Z.eqb_spec h 0) as [->|]; [exfalso; unfold w in Hw; rewrite Z.div_0_r in Hw; lia|].
    cbn [mbind result_bind]. rewrite Hun. cbn [mbind result_bind].
    fold u n w. unfold py_range, range_len.
    destruct (Z.eqb_spec w 0); [exfalso; lia|].
    destruct (Z.ltb_spec 0 w); [|exfalso; lia].
    assert (0 < n) as Hnpos.
    { destruct (Z.eq_dec n 0) as [E|E]; [|lia].
      exfalso. revert Hw. unfold w. rewrite E, Z.div_0_l by lia. lia. }
    destruct (Z.ltb_spec 0 (len u)); [|exfalso; lia].
    cbn [mbind result_bind].
    set (q := (len u - 1 - 0) / w).
    assert (0 ≤ q) as Hq0 by (apply Z.div_pos; lia).
    assert (q * w < n < (q + 1) * w) as Hq.
    { pose proof (Z.div_mod (n - 1) w ltac:(lia)) as Hdm.
      pose proof (Z.mod_pos_bound (n - 1) w ltac:(lia)) as Hmb.
      unfold q. rewrite Hu. replace (n - 1 - 0) with (n - 1) by lia.
      split; [nia|].
      destruct (Z.eq_dec ((n - 1) `mod` w) (w - 1)) as [E|E]; [|nia].
      exfalso. apply Hmod. apply Z.mod_divide; [lia|].
      exists ((n - 1) / w + 1). nia. }
    assert (0 < h) as Hhpos.
    { destruct (Z.lt_trichotomy h 0) as [Hneg|[->|Hpos]]; [|exfalso; lia|exact Hpos].
      exfalso. pose proof (Z.div_mod n h ltac:(lia)) as Hdm.
      pose proof (Z.mod_neg_bound n h Hneg) as Hmb. unfold w in Hw. nia. }
    assert (w ≤ n) as Hwn by (unfold w; apply Z.div_le_upper_bound; nia).
    set (rows := (λ o, take (Z.to_nat w) (drop (Z.to_nat o) u))
                   <$> ((λ i, 0 + i * w) <$> seqZ 0 (1 + q))).
    assert (mapM (λ o, getslice u (slice_of o (o + w)))
              ((λ i, 0 + i * w) <$> seqZ 0 (1 + q)) = Ok rows) as ->.
    { apply mapM_Ok_fmap. apply Forall_forall. intros o Ho.
      apply list_elem_of_fmap in Ho as (i & -> & Hi). apply elem_of_seqZ in Hi.
      rewrite getslice_range by nia. do 3 f_equal. lia. }
    cbn [mbind result_bind].
    apply (_create_from_rows_ragged rows (take (Z.to_nat w) (drop (Z.to_nat (0 + 0 * w)) u))
             (take (Z.to_nat w) (drop (Z.to_nat (0 + q * w)) u))).
    + unfold rows. apply (list_elem_of_fmap_2 (λ o, take (Z.to_nat w) (drop (Z.to_nat o) u))).
      apply (list_elem_of_fmap_2 (λ i, 0 + i * w)). apply elem_of_seqZ. lia.
    + unfold rows. apply (list_elem_of_fmap_2 (λ o, take (Z.to_nat w) (drop (Z.to_nat o) u))).
      apply (list_elem_of_fmap_2 (λ i, 0 + i * w)). apply elem_of_seqZ. lia.
    + rewrite !length_take, !length_drop. unfold len in Hu. nia.
Qed.

Lemma frompacked_bad_height_witness :
  frompacked [255; 255] 3 (8 / 1) = Err AssertionError ∧
  frompacked [255; 255] 17 (8 / 1) = Err ValueError ∧
  frompacked [255; 255] (-1) (8 / 1) = Err IndexError.
Proof.
  destruct (frompacked_bad_height 1 [255; 255] 3) as (_ & _ & _ & H3);
    [unfold bit_depths; apply list_elem_of_here
    |repeat constructor; unfold is_byte; lia|].
  destruct (frompacked_bad_height 1 [255; 255] 17) as (_ & H17 & _);
    [unfold bit_depths; apply list_elem_of_here
    |repeat constructor; unfold is_byte; lia|].
  destruct (frompacked_bad_height 1 [255; 255] (-1)) as (_ & _ & Hm1 & _);
    [unfold bit_depths; apply list_elem_of_here
    |repeat constructor; unfold is_byte; lia|].
  split; [apply H3; [reflexivity|discriminate]|].
  split; [apply H17; [lia|reflexivity]|].
  apply Hm1. reflexivity.
Defined.

(** ** The constructor *)

(** A matrix built from a fill value has [height] rows of [width] copies of
    it and is well formed; a list of one item fills in the same way. *)
Lemma __init___fill (w h n : Z) :
  0 ≤ w → 0 ≤ h → w ≠ 0 ∨ h ≠ 0 → is_byte n →
  __init__ w h (DInt n)
    = Ok (mkByteMatrix w h (Some (replicate (Z.to_nat h) (replicate (Z.to_nat w) n)))) ∧
  __init__ w h (DItems [n]) = __init__ w h (DInt n) ∧
  ∀ g, __init__ w h (DInt n) = Ok g → well_formed g.
Proof.
  intros Hw Hh Hne Hn.
  assert (__init__ w h (DInt n)
    = Ok (mkByteMatrix w h (Some (replicate (Z.to_nat h) (replicate (Z.to_nat w) n)))))
    as Heq.
  { unfold __init__.
    destruct ((w =? 0) && (h =? 0)) eqn:Hz; [exfalso; lia|].
    destruct (py_range_upto h) as (r & -> & Hr). cbn [mbind result_bind].
    rewrite (mapM_const _ (replicate (Z.to_nat w) n)).
    - cbn [mbind result_bind]. by rewrite Hr.
    - intros _. rewrite bytearray_new_single by done. cbn. by rewrite list_times_single. }
  split; [exact Heq|]. split.
  - unfold __init__. destruct ((w =? 0) && (h =? 0)); reflexivity.
  - intros g. rewrite Heq. intros [= <-].
    eexists. split; [reflexivity|]. cbn [_height _width]. split.
    + unfold len. rewrite length_replicate. lia.
    + apply Forall_replicate. split.
      * unfold len. rewrite length_replicate. lia.
      * by apply Forall_replicate.
Qed.

Lemma __init___fill_witness :
  __init__ 3 2 (DInt 7) = Ok (mkByteMatrix 3 2 (Some [[7; 7; 7]; [7; 7; 7]])).
Proof.
  apply (__init___fill 3 2 7); [lia|lia|left; lia|unfold is_byte; lia].
Defined.

(** Without width and height the constructor sets no rows, whatever the
    data; every method that reads the rows then raises [AttributeError]. *)
Lemma __init___empty (data : init_data) :
  ∃ g, __init__ 0 0 data = Ok g ∧ _rows g = None ∧
       (∀ ipb, packed g ipb = Err AttributeError) ∧
       (∀ back fore, render g back fore = Err AttributeError) ∧
       (∀ x y, __getitem__ g x y = Err AttributeError) ∧
       (∀ times, hrepeat g times = Err AttributeError) ∧
       (∀ by_height fill, vextend g by_height fill = Err AttributeError) ∧
       vstack [g] = Err AttributeError ∧ hstack [g] = Err AttributeError.
Proof.
  eexists. split; [reflexivity|]. split; [reflexivity|].
  repeat split; try reflexivity.
  intros [ix|sx] [iy|sy]; reflexivity.
Qed.

(** The length of the data alone decides how it is read.  Flat data as long
    as the matrix is high is taken for a list of rows, and the first item,
    an int, has no length: a matrix of one column and two or more rows
    cannot be built from its items.  A list of one row is taken for a fill
    pattern, and a row is no byte: a matrix cannot be built from a list
    holding its only row. *)
Lemma __init___length_decides (w h : Z) (l row : list Z) :
  (len l = h → 1 < h → __init__ w h (DItems l) = Err TypeError) ∧
  (0 < h → __init__ w h (DRows [row]) = Err TypeError).
Proof.
  split.
  - intros Hl Hh. unfold __init__.
    destruct ((w =? 0) && (h =? 0)) eqn:Hz; [exfalso; lia|].
    destruct (Z.eqb_spec (len l) 1); [exfalso; lia|].
    destruct (Z.eqb_spec (len l) h); [|contradiction].
    destruct l as [|a l]; [exfalso; unfold len in *; cbn in *; lia|].
    by rewrite getitem_head.
  - intros Hh. unfold __init__.
    destruct ((w =? 0) && (h =? 0)) eqn:Hz; [exfalso; lia|].
    change (len [row] =? 1) with true. cbv iota.
    destruct (py_range_upto h) as (r & -> & Hr). cbn [mbind result_bind].
    destruct r as [|i r]; [exfalso; cbn in Hr; lia|]. reflexivity.
Qed.

Lemma __init___length_decides_witness :
  __init__ 1 3 (DItems [1; 2; 3]) = Err TypeError ∧
  __init__ 3 1 (DRows [[1; 2; 3]]) = Err TypeError.
Proof.
  destruct (__init___length_decides 1 3 [1; 2; 3] [1; 2; 3]) as [Hflat _].
  destruct (__init___length_decides 3 1 [1; 2; 3] [1; 2; 3]) as [_ Hrow].
  split; [apply Hflat; [reflexivity|lia]|apply Hrow; lia].
Defined.

Lemma Forall2_impl_r {A B} (P Q : A → B → Prop) (R : B → Prop) (l : list A) (k : list B) :
  Forall2 P l k → Forall R k → (∀ x y, P x y → R y → Q x y) → Forall2 Q l k.
Proof.
  intros H. induction H as [|x y l k Hxy _ IH]; intros HR Himp; [constructor|].
  apply Forall_cons_1 in HR as [Hy HR]. constructor; auto.
Qed.

(** Flat data of [height * width] bytes is cut into rows of [width]: the
    matrix is well formed and its rows, joined, are the data. *)
Lemma __init___flat (w h : Z) (l : list Z) :
  0 < w → 0 < h → len l = h * w → len l ≠ 1 → len l ≠ h → Forall is_byte l →
  ∃ g, __init__ w h (DItems l) = Ok g ∧ well_formed g ∧
       _width g = w ∧ _height g = h ∧ concat (rows_of g) = l.
Proof.
  intros Hw Hh Hlen H1 Hnh Hbytes.
  destruct (split_chunks (Z.to_nat w) l (Z.to_nat h)) as (cs & Hcs & Hcl);
    [lia|unfold len in Hlen; nia|].
  assert (Forall (λ c, len c = w) cs) as Hcw
    by (eapply Forall_impl; [exact Hcl|]; unfold len; intros; cbn in *; lia).
  assert (len cs = h) as Hcsh.
  { pose proof (len_concat_uniform cs w Hcw) as Hc. rewrite <- Hcs, Hlen in Hc. nia. }
  assert (Forall (Forall is_byte) cs) as Hcb.
  { apply Forall_forall. intros c Hc. apply Forall_forall. intros v Hv.
    rewrite Forall_forall in Hbytes. apply Hbytes. rewrite Hcs.
    apply elem_of_concat. eauto. }
  exists (mkByteMatrix w h (Some cs)).
  split; [|split; [|split; [reflexivity|split; [reflexivity|by symmetry]]]].
  - unfold __init__.
    destruct ((w =? 0) && (h =? 0)) eqn:Hz; [exfalso; lia|].
    destruct (Z.eqb_spec (len l) 1); [contradiction|].
    destruct (Z.eqb_spec (len l) h); [contradiction|].
    destruct (Z.eqb_spec (len l) (h * w)); [|contradiction]. cbn [negb].
    rewrite Hlen, <- Hcsh. rewrite py_range_multiples by (lia || apply len_nonneg).
    cbn [mbind result_bind].
    assert (mapM (λ o, s ← getslice l (slice_of o (o + w)); bytearray_new s)
              ((λ i, i * w) <$> seqZ 0 (len cs)) = Ok cs) as ->; [|reflexivity].
    pose proof (chunks_concat cs w Hw Hcw) as Hch. rewrite <- Hcs in Hch.
    apply mapM_Ok_inv in Hch. apply mapM_Ok_Forall2.
    eapply Forall2_impl_r; [exact Hch|exact Hcb|]. intros o c Hoc Hc.
    cbv beta in Hoc |- *. rewrite Hoc. cbn [mbind result_bind].
    by apply bytearray_new_Ok.
  - exists cs. split; [reflexivity|]. split; [cbn; lia|].
    apply Forall_forall. intros r Hr. rewrite Forall_forall in Hcw, Hcb. split; auto.
Qed.

Lemma __init___flat_witness :
  ∃ g, __init__ 3 2 (DItems [1; 2; 3; 4; 5; 6]) = Ok g ∧ well_formed g ∧
       _width g = 3 ∧ _height g = 2 ∧ concat (rows_of g) = [1; 2; 3; 4; 5; 6].
Proof.
  apply (__init___flat 3 2 [1; 2; 3; 4; 5; 6]); try lia; try reflexivity;
    try discriminate.
  repeat constructor; unfold is_byte; lia.
Defined.

(** Of data given as rows only the first row is measured against the
    width: rows of other lengths are accepted as they are, and the matrix is
    well formed exactly when there are none. *)
Lemma __init___rows (w h : Z) (r : list Z) (rs : list (list Z)) :
  len (r :: rs) = h → h ≠ 1 → len r = w → Forall (Forall is_byte) (r :: rs) →
  __init__ w h (DRows (r :: rs)) = Ok (mkByteMatrix w h (Some (r :: rs))) ∧
  (well_formed (mkByteMatrix w h (Some (r :: rs))) ↔ Forall (λ r', len r' = w) rs).
Proof.
  intros Hlen H1 Hr Hbytes. split.
  - unfold __init__.
    destruct ((w =? 0) && (h =? 0)) eqn:Hz.
    { exfalso. rewrite len_cons in Hlen. pose proof (len_nonneg rs). lia. }
    destruct (Z.eqb_spec (len (r :: rs)) 1); [exfalso; lia|].
    destruct (Z.eqb_spec (len (r :: rs)) h); [|contradiction].
    rewrite getitem_head. cbn [mbind result_bind].
    destruct (Z.eqb_spec (len r) w); [|contradiction]. cbn [negb].
    rewrite (mapM_Ok_fmap _ id).
    + cbn [mbind result_bind]. by rewrite list_fmap_id.
    + eapply Forall_impl; [exact Hbytes|]. intros r' Hr'. by apply bytearray_new_Ok.
  - split.
    + intros (rows & [= <-] & _ & Hall). apply Forall_cons_1 in Hall as [_ Hall].
      eapply Forall_impl; [exact Hall|]. by intros r' [? _].
    + intros Hall. exists (r :: rs). split; [reflexivity|]. split; [by symmetry|].
      apply Forall_forall. intros r' Hr'. split.
      * apply elem_of_cons in Hr' as [->|Hr']; [done|].
        rewrite Forall_forall in Hall. by apply Hall.
      * rewrite Forall_forall in Hbytes. by apply Hbytes.
Qed.

Lemma __init___rows_witness :
  __init__ 2 2 (DRows [[1; 2]; [3; 4; 5]]) = Ok (mkByteMatrix 2 2 (Some [[1; 2]; [3; 4; 5]])) ∧
  ¬ well_formed (mkByteMatrix 2 2 (Some [[1; 2]; [3; 4; 5]])).
Proof.
  destruct (__init___rows 2 2 [1; 2] [[3; 4; 5]]) as [Heq Hwf];
    [reflexivity|lia|reflexivity|repeat constructor; unfold is_byte; lia|].
  split; [exact Heq|]. intros H. apply Hwf in H.
  apply Forall_cons_1 in H as [H _]. discriminate H.
Defined.

(** ** Row objects *)

Lemma st_bind_eq {A B} (m : Heap.st A) (f : A → Heap.st B) (h : Heap.heap) :
  (m ≫= f) h = match m h with Ok (a, h') => f a h' | Err e => Err e end.
Proof. reflexivity. Qed.

Lemma st_lift_bind {A B} (r : result A) (f : A → Heap.st B) (h : Heap.heap) :
  (Heap.lift r ≫= f) h = match r with Ok a => f a h | Err e => Err e end.
Proof. rewrite st_bind_eq. unfold Heap.lift. by destruct r. Qed.

Lemma st_load_bind {B} (r : Heap.ref) (f : list Z → Heap.st B) (h : Heap.heap) :
  (Heap.load r ≫= f) h = f (Heap.deref h r) h.
Proof. reflexivity. Qed.

Lemma st_mapM_cons {A B} (f : A → Heap.st B) (x : A) (l : list A) (h : Heap.heap) :
  mapM f (x :: l) h =
  match f x h with
  | Ok (y, h') =>
      match mapM f l h' with
      | Ok (k, h'') => Ok (y :: k, h'')
      | Err e => Err e
      end
  | Err e => Err e
  end.
Proof.
  cbn [mapM]. rewrite st_bind_eq. destruct (f x h) as [[y h']|e]; [|reflexivity].
  rewrite st_bind_eq. by destruct (mapM f l h') as [[k h'']|e].
Qed.

Lemma st_mapM_ext {A B} (f g : A → Heap.st B) (l : list A) (h : list (list Z)) :
  (∀ x h', f x h' = g x h') → mapM f l h = mapM g l h.
Proof.
  intros Hfg. revert h. induction l as [|x l IH]; intros h; [reflexivity|].
  rewrite !st_mapM_cons, Hfg. destruct (g x h) as [[y h']|e]; [|reflexivity].
  by rewrite IH.
Qed.

Lemma mapM_load (data : list Heap.ref) (h : Heap.heap) :
  mapM Heap.load data h = Ok (Heap.deref h <$> data, h).
Proof.
  induction data as [|r data IH]; [reflexivity|].
  rewrite st_mapM_cons. cbn [Heap.load]. by rewrite IH.
Qed.

Lemma getitem_fmap {A B} (f : A → B) (l : list A) (i : Z) :
  getitem (f <$> l) i = f <$> getitem l i.
Proof.
  unfold getitem, len. rewrite length_fmap.
  destruct (_ && _); [|reflexivity].
  rewrite list_lookup_fmap. by destruct (l !! _).
Qed.

(** [_create_from_rows] allocates nothing and keeps the row objects it is
    given. *)
Lemma _create_from_rows_refs (data : list Heap.ref) (h : Heap.heap) :
  Heap._create_from_rows data h =
  match _create_from_rows (Heap.deref h <$> data) with
  | Ok g => Ok (Heap.mkByteMatrix (_width g) (_height g) (Some data), h)
  | Err e => Err e
  end.
Proof.
  unfold Heap._create_from_rows, _create_from_rows.
  rewrite st_lift_bind, getitem_fmap.
  destruct (getitem data 0) as [first|e]; [|reflexivity].
  cbn [fmap result_fmap mbind result_bind].
  rewrite st_load_bind, st_bind_eq, mapM_load.
  rewrite <- list_fmap_compose.
  assert (len (Heap.deref h <$> data) = len data) as ->
    by (unfold len; by rewrite length_fmap).
  change (length ∘ Heap.deref h) with (λ r, length (Heap.deref h r)).
  destruct (Nat.eqb _ 1); reflexivity.
Qed.

Lemma get_rows_value_of (m : Heap.ByteMatrix) (h : Heap.heap) :
  get_rows (value_of h m) =
  match Heap._rows m with
  | Some rs => Ok (Heap.deref h <$> rs)
  | None => Err AttributeError
  end.
Proof. unfold get_rows, value_of. cbn. by destruct (Heap._rows m). Qed.

Lemma get_rows_refs (m : Heap.ByteMatrix) (h : Heap.heap) :
  Heap.get_rows m h =
  match Heap._rows m with
  | Some rs => Ok (rs, h)
  | None => Err AttributeError
  end.
Proof. unfold Heap.get_rows, Heap.lift. by destruct (Heap._rows m). Qed.

Lemma mapM_get_rows_refs (ms : list Heap.ByteMatrix) (h : Heap.heap) :
  match mapM (M:=result) get_rows (value_of h <$> ms) with
  | Ok rowss =>
      mapM Heap.get_rows ms h = Ok (refs_of <$> ms, h) ∧
      rowss = (λ m, Heap.deref h <$> refs_of m) <$> ms
  | Err e => mapM Heap.get_rows ms h = Err e
  end.
Proof.
  induction ms as [|m ms IH]; [done|].
  rewrite !fmap_cons, st_mapM_cons. cbn [mapM].
  rewrite get_rows_value_of, get_rows_refs.
  destruct (Heap._rows m) as [rs|] eqn:Hrs; [|reflexivity].
  assert (refs_of m = rs) as -> by (unfold refs_of; by rewrite Hrs).
  cbn [mbind result_bind].
  destruct (mapM get_rows (value_of h <$> ms)) as [rowss|e]; cbv iota in IH.
  - destruct IH as [-> ->]. split; reflexivity.
  - rewrite IH. reflexivity.
Qed.

(** [vstack] allocates nothing: the matrix it returns holds the row objects
    of its arguments, in order, and stands for the matrix the first part
    computes; it fails exactly when that one does. *)
Lemma vstack_shares_rows (ms : list Heap.ByteMatrix) (h : Heap.heap) :
  match vstack (value_of h <$> ms) with
  | Ok g =>
      ∃ m, Heap.vstack ms h = Ok (m, h) ∧ value_of h m = g ∧
           refs_of m = concat (refs_of <$> ms)
  | Err e => Heap.vstack ms h = Err e
  end.
Proof.
  unfold vstack, Heap.vstack. rewrite st_bind_eq.
  pose proof (mapM_get_rows_refs ms h) as Hrows.
  destruct (mapM get_rows (value_of h <$> ms)) as [rowss|e]; [|by rewrite Hrows].
  destruct Hrows as [-> ->]. cbn [mbind result_bind].
  rewrite _create_from_rows_refs.
  assert (Heap.deref h <$> concat (refs_of <$> ms)
          = concat ((λ m, Heap.deref h <$> refs_of m) <$> ms)) as Hc.
  { induction ms as [|m ms IH]; [reflexivity|].
    rewrite !fmap_cons. cbn [concat]. by rewrite fmap_app, IH. }
  rewrite Hc.
  destruct (_create_from_rows _) as [g|e] eqn:Hg; [|reflexivity].
  eexists. split; [reflexivity|]. split; [|reflexivity].
  unfold value_of. cbn [Heap._rows Heap._width Heap._height]. rewrite Hc.
  unfold _create_from_rows in Hg.
  destruct (getitem _ 0); [|discriminate Hg]. cbn [mbind result_bind] in Hg.
  destruct (Nat.eqb _ 1); [|discriminate Hg]. by injection Hg as <-.
Qed.

Lemma deref_app_l (h ext : Heap.heap) (r : Heap.ref) :
  (r < length h)%nat → Heap.deref (h ++ ext) r = Heap.deref h r.
Proof. intros Hr. unfold Heap.deref. by rewrite lookup_app_l. Qed.

Lemma deref_fresh (h ext : Heap.heap) :
  Heap.deref (h ++ ext) <$> seq (length h) (length ext) = ext.
Proof.
  apply list_eq. intros i. rewrite list_lookup_fmap.
  destruct (ext !! i) as [row|] eqn:Hi.
  - rewrite (lookup_seq_lt _ _ _ (lookup_lt_Some _ _ _ Hi)).
    cbn [fmap option_fmap option_map].
    unfold Heap.deref. rewrite lookup_app_r by lia.
    replace (length h + i - length h)%nat with i by lia. by rewrite Hi.
  - apply lookup_ge_None in Hi. by rewrite lookup_seq_ge.
Qed.

Lemma getslice_fmap {A B} (f : A → B) (l : list A) (s : slice) :
  getslice (f <$> l) s = fmap (M:=list) f <$> getslice l s.
Proof.
  unfold getslice, len. rewrite length_fmap.
  destruct (slice_indices s _) as [[[start step] count]|e]; [|reflexivity].
  cbn. f_equal. induction (seqZ 0 count) as [|i idx IH]; [reflexivity|].
  cbn. rewrite list_lookup_fmap. destruct (l !! _); cbn; by rewrite IH.
Qed.

Lemma getslice_elem_of {A} (l sel : list A) (s : slice) (x : A) :
  getslice l s = Ok sel → x ∈ sel → x ∈ l.
Proof.
  unfold getslice.
  destruct (slice_indices s (len l)) as [[[start step] count]|e]; [|discriminate].
  cbn. intros [= <-] (i & _ & Hx)%list_elem_of_omap.
  eapply list_elem_of_lookup_2, Hx.
Qed.

(** A comprehension that builds a new [bytearray] from every selected row
    appends its results to the store, in order. *)
Lemma mapM_copy (f : list Z → result (list Z)) (sel : list Heap.ref) (h : Heap.heap) :
  Forall (λ r, (r < length h)%nat) sel →
  mapM (λ r, row ← Heap.load r; s ← Heap.lift (f row); Heap.alloc s) sel h =
  match mapM f (Heap.deref h <$> sel) with
  | Ok ss => Ok (seq (length h) (length ss), h ++ ss)
  | Err e => Err e
  end.
Proof.
  revert h. induction sel as [|r sel IH]; intros h Hall.
  - cbn. by rewrite app_nil_r.
  - apply Forall_cons_1 in Hall as [Hr Hall].
    rewrite st_mapM_cons, st_load_bind, st_lift_bind, fmap_cons. cbn [mapM].
    destruct (f (Heap.deref h r)) as [s|e]; [|reflexivity].
    cbn [mbind result_bind]. unfold Heap.alloc.
    rewrite IH by (rewrite length_app; eapply Forall_impl; [exact Hall|]; cbn; lia).
    assert (Heap.deref (h ++ [s]) <$> sel = Heap.deref h <$> sel) as ->.
    { apply Forall_fmap_ext. eapply Forall_impl; [exact Hall|].
      intros r' Hr'. by apply deref_app_l. }
    destruct (mapM f (Heap.deref h <$> sel)) as [ss|e]; [|reflexivity].
    cbn. rewrite length_app, <- app_assoc. cbn.
    by rewrite Nat.add_1_r.
Qed.

Lemma _create_from_rows_fresh (h ext : Heap.heap) :
  Heap._create_from_rows (seq (length h) (length ext)) (h ++ ext) =
  match _create_from_rows ext with
  | Ok g =>
      Ok (Heap.mkByteMatrix (_width g) (_height g) (Some (seq (length h) (length ext))),
          h ++ ext)
  | Err e => Err e
  end.
Proof. by rewrite _create_from_rows_refs, deref_fresh. Qed.

Lemma _create_from_rows_rows (data : list (list Z)) (g : ByteMatrix) :
  _create_from_rows data = Ok g → _rows g = Some data.
Proof.
  unfold _create_from_rows. destruct (getitem data 0); [|discriminate].
  cbn [mbind result_bind]. destruct (Nat.eqb _ 1); [|discriminate]. by intros [= <-].
Qed.

(** Indexing reads the store and, when it returns a matrix, appends the rows
    of that matrix to it as new objects: the result shares no row with the
    matrix indexed.  It returns what the first part computes, and fails
    exactly when that does. *)
Lemma getitem_copies (m : Heap.ByteMatrix) (x y : index) (h : Heap.heap) :
  owns h m →
  match __getitem__ (value_of h m) x y with
  | Ok (Byte b) => Heap.__getitem__ m x y h = Ok (Heap.Byte b, h)
  | Ok (Matrix g) =>
      ∃ m', Heap.__getitem__ m x y h = Ok (Heap.Matrix m', h ++ rows_of g) ∧
            value_of (h ++ rows_of g) m' = g ∧
            refs_of m' = seq (length h) (length (rows_of g))
  | Err e => Heap.__getitem__ m x y h = Err e
  end.
Proof.
  intros Hown. unfold owns, refs_of in Hown.
  assert (∀ data g, _create_from_rows data = Ok g →
            ∃ m', (Heap.Matrix <$> Heap._create_from_rows (seq (length h) (length data)))
                    (h ++ data) = Ok (Heap.Matrix m', h ++ rows_of g) ∧
                  value_of (h ++ rows_of g) m' = g ∧
                  refs_of m' = seq (length h) (length (rows_of g))) as Hfresh.
  { intros data g Hg. pose proof (_create_from_rows_rows _ _ Hg) as Hrows.
    assert (rows_of g = data) as -> by (unfold rows_of; by rewrite Hrows).
    unfold fmap, Heap.st_fmap. rewrite _create_from_rows_fresh, Hg.
    eexists. split; [reflexivity|]. split; [|reflexivity].
    unfold value_of. cbn [Heap._rows Heap._width Heap._height].
    rewrite deref_fresh. destruct g as [w hh rows]. cbn in *. by rewrite Hrows. }
  assert (∀ data e, _create_from_rows data = Err e →
            (Heap.Matrix <$> Heap._create_from_rows (seq (length h) (length data)))
              (h ++ data) = Err e) as Hfail.
  { intros data e He. unfold fmap, Heap.st_fmap.
    by rewrite _create_from_rows_fresh, He. }
  unfold __getitem__, Heap.__getitem__.
  destruct y as [iy|sy], x as [ix|sx].
  - (* a byte *)
    rewrite st_bind_eq, get_rows_value_of, get_rows_refs.
    destruct (Heap._rows m) as [rs|]; [|reflexivity]. cbn [mbind result_bind].
    rewrite st_lift_bind, getitem_fmap.
    destruct (getitem rs iy) as [r|e]; [|reflexivity].
    cbn [fmap result_fmap mbind result_bind]. rewrite st_load_bind.
    unfold fmap at 2, Heap.st_fmap, Heap.lift.
    destruct (getitem (Heap.deref h r) ix) as [b|e]; reflexivity.
  - (* one row, a slice of columns *)
    rewrite st_bind_eq, get_rows_value_of, get_rows_refs.
    destruct (Heap._rows m) as [rs|]; [|reflexivity]. cbn [mbind result_bind].
    rewrite st_lift_bind, getitem_fmap.
    destruct (getitem rs iy) as [r|e]; [|reflexivity].
    cbn [fmap result_fmap mbind result_bind]. rewrite st_load_bind, st_lift_bind.
    destruct (getslice (Heap.deref h r) sx) as [s|e]; [|reflexivity].
    cbn [mbind result_bind]. rewrite st_bind_eq. unfold Heap.alloc.
    destruct (_create_from_rows [s]) as [g|e] eqn:Hg.
    + exact (Hfresh [s] g Hg).
    + exact (Hfail [s] e Hg).
  - (* a slice of rows, one column *)
    rewrite st_bind_eq, get_rows_value_of, get_rows_refs.
    destruct (Heap._rows m) as [rs|]; [|reflexivity]. cbn [mbind result_bind default] in *.
    rewrite st_lift_bind, getslice_fmap.
    destruct (getslice rs sy) as [sel|e] eqn:Hsel; [|reflexivity].
    cbn [fmap result_fmap mbind result_bind]. rewrite st_bind_eq.
    assert (Forall (λ r, (r < length h)%nat) sel) as Hvalid.
    { apply Forall_forall. intros r Hr. rewrite Forall_forall in Hown.
      eapply Hown, getslice_elem_of; eauto. }
    pose proof (mapM_copy (λ row, b ← getitem row ix; bytearray_new [b]) sel h Hvalid)
      as Hcopy.
    assert (mapM (M:=Heap.st)
              (λ r, row ← Heap.load r; b ← Heap.lift (getitem row ix);
                    s ← Heap.lift (bytearray_new [b]); Heap.alloc s) sel h
            = mapM (λ r, row ← Heap.load r;
                         s ← Heap.lift (b ← getitem row ix; bytearray_new [b]);
                         Heap.alloc s) sel h) as ->.
    { apply st_mapM_ext. intros r h0.
      rewrite !st_load_bind, !st_lift_bind.
      destruct (getitem (Heap.deref h0 r) ix) as [b|e]; [|reflexivity].
      cbn [mbind result_bind]. by rewrite st_lift_bind. }
    rewrite Hcopy.
    destruct (mapM _ (Heap.deref h <$> sel)) as [data|e]; [|reflexivity].
    cbn [mbind result_bind].
    destruct (_create_from_rows data) as [g|e] eqn:Hg.
    + exact (Hfresh data g Hg).
    + exact (Hfail data e Hg).
  - (* a slice of rows, a slice of columns *)
    rewrite st_bind_eq, get_rows_value_of, get_rows_refs.
    destruct (Heap._rows m) as [rs|]; [|reflexivity]. cbn [mbind result_bind default] in *.
    rewrite st_lift_bind, getslice_fmap.
    destruct (getslice rs sy) as [sel|e] eqn:Hsel; [|reflexivity].
    cbn [fmap result_fmap mbind result_bind]. rewrite st_bind_eq.
    assert (Forall (λ r, (r < length h)%nat) sel) as Hvalid.
    { apply Forall_forall. intros r Hr. rewrite Forall_forall in Hown.
      eapply Hown, getslice_elem_of; eauto. }
    rewrite (mapM_copy (λ row, getslice row sx) sel h Hvalid).
    destruct (mapM _ (Heap.deref h <$> sel)) as [data|e]; [|reflexivity].
    cbn [mbind result_bind].
    destruct (_create_from_rows data) as [g|e] eqn:Hg.
    + exact (Hfresh data g Hg).
    + exact (Hfail data e Hg).
Qed.

(** ** Assignment *)

(** The loop of [__setitem__] over the selected rows writes to those rows
    only. *)
Lemma setitem_loop_frame (x : index) (pairs : list (nat * nat)) (refs : list nat)
    (h h' : list (list Z)) (res : list unit) :
  Forall (λ p, p.1 ∈ refs) pairs →
  mapM (M:=Heap.st) (λ p : nat * nat,
      d ← Heap.load p.1;
      match x with
      | Slc sx =>
          s ← Heap.load p.2;
          new ← Heap.lift (Heap.bytearray_setslice d sx s);
          Heap.write p.1 new
      | Idx ix =>
          _ ← Heap.lift (Heap.setitem_index d ix);
          Heap.lift (Err TypeError)
      end) pairs h = Ok (res, h') →
  length h' = length h ∧ ∀ r, r ∉ refs → h' !! r = h !! r.
Proof.
  intros Hall. revert h res. induction Hall as [|p pairs Hp _ IH]; intros h res.
  - intros [= <- <-]. done.
  - rewrite st_mapM_cons, st_load_bind.
    destruct x as [ix|sx].
    + rewrite st_lift_bind. destruct (Heap.setitem_index _ ix); discriminate.
    + rewrite st_load_bind, st_lift_bind.
      destruct (Heap.bytearray_setslice _ sx _) as [new|e]; [|discriminate].
      unfold Heap.write.
      destruct (mapM (M:=Heap.st) _ pairs _) as [[k h'']|e] eqn:Hrest; [|discriminate].
      intros [= <- <-]. destruct (IH _ _ Hrest) as [Hlen Hframe].
      split; [by rewrite Hlen, length_insert|].
      intros r Hr. rewrite Hframe by done.
      apply list_lookup_insert_ne. intros Heq. apply Hr. rewrite <- Heq. exact Hp.
Qed.

(** [__setitem__] creates no object and writes to row objects of the matrix
    assigned to only: every other object, and so every matrix that shares
    no row with it, is as before. *)
Lemma setitem_frame (self : Heap.ByteMatrix) (x y : index) (val : Heap.value)
    (h h' : list (list Z)) :
  Heap.__setitem__ self x y val h = Ok ((), h') →
  length h' = length h ∧ ∀ r, r ∉ refs_of self → h' !! r = h !! r.
Proof.
  unfold Heap.__setitem__. rewrite st_bind_eq.
  assert (∀ v h0, match val with
                  | Heap.VMatrix m => inl <$> Heap.get_rows m
                  | Heap.VByte n => mret (inr n)
                  end h = Ok (v, h0) → h0 = h) as Hval.
  { intros v h0. destruct val as [m|n]; [|by intros [= _ <-]].
    unfold fmap, Heap.st_fmap. rewrite get_rows_refs.
    destruct (Heap._rows m); [by intros [= _ <-]|discriminate]. }
  destruct (match val with
            | Heap.VMatrix m => inl <$> Heap.get_rows m
            | Heap.VByte n => mret (inr n)
            end h) as [[v h0]|e] eqn:Hv; [|discriminate].
  pose proof (Hval _ _ eq_refl) as ->. clear Hval Hv.
  destruct y as [iy|sy].
  - destruct x as [ix|sx].
    + rewrite st_bind_eq, get_rows_refs.
      destruct (Heap._rows self) as [rs|] eqn:Hrs; [|discriminate].
      rewrite st_lift_bind. destruct (getitem rs iy) as [dst|e] eqn:Hdst; [|discriminate].
      rewrite st_load_bind, st_lift_bind.
      destruct (Heap.setitem_index _ ix) as [j|e]; [|discriminate].
      destruct v as [srcs|n]; [discriminate|].
      destruct (_ && _); [|discriminate].
      intros [= <-]. split; [by rewrite length_insert|].
      intros r Hr. apply list_lookup_insert_ne. intros Heq. apply Hr. rewrite <- Heq.
      unfold refs_of. rewrite Hrs. cbn.
      revert Hdst. unfold getitem. destruct (_ && _); [|discriminate].
      destruct (rs !! _) eqn:Hl; [|discriminate]. intros [= <-].
      eapply list_elem_of_lookup_2, Hl.
    + rewrite st_bind_eq.
      destruct v as [srcs|n]; [|discriminate]. cbn [mret Heap.st_ret].
      rewrite st_bind_eq.
      destruct (len srcs =? 1); [|discriminate]. cbn [mret Heap.st_ret].
      rewrite st_lift_bind. destruct (getitem srcs 0) as [src|e]; [|discriminate].
      rewrite st_bind_eq, get_rows_refs.
      destruct (Heap._rows self) as [rs|] eqn:Hrs; [|discriminate].
      rewrite st_lift_bind. destruct (getitem rs iy) as [dst|e] eqn:Hdst; [|discriminate].
      rewrite !st_load_bind, st_lift_bind.
      destruct (Heap.bytearray_setslice _ sx _) as [new|e]; [|discriminate].
      intros [= <-]. split; [by rewrite length_insert|].
      intros r Hr. apply list_lookup_insert_ne. intros Heq. apply Hr. rewrite <- Heq.
      unfold refs_of. rewrite Hrs. cbn.
      revert Hdst. unfold getitem. destruct (_ && _); [|discriminate].
      destruct (rs !! _) eqn:Hl; [|discriminate]. intros [= <-].
      eapply list_elem_of_lookup_2, Hl.
  - rewrite st_bind_eq, get_rows_refs.
    destruct (Heap._rows self) as [rs|] eqn:Hrs; [|discriminate].
    rewrite st_lift_bind. destruct (getslice rs sy) as [sel|e] eqn:Hsel; [|discriminate].
    destruct v as [srcs|n]; [|discriminate].
    rewrite st_bind_eq.
    destruct (mapM (M:=Heap.st) _ (zip sel srcs) h) as [[res h'']|e] eqn:Hloop; [|discriminate].
    intros [= <-].
    apply (setitem_loop_frame x (zip sel srcs) (refs_of self) h h'' res); [|exact Hloop].
    apply Forall_forall. intros [dst src] Hin. cbn.
    unfold refs_of. rewrite Hrs. cbn.
    apply (getslice_elem_of rs sel sy dst Hsel).
    apply list_elem_of_lookup in Hin as [i Hi].
    apply lookup_zip_with_Some in Hi as (a & b & [= <- <-] & Ha & _).
    eapply list_elem_of_lookup_2, Ha.
Qed.

Lemma setitem_index_getitem (row : list Z) (i : Z) :
  match getitem row i with
  | Ok b => ∃ j, Heap.setitem_index row i = Ok j ∧ row !! j = Some b ∧
                 ∀ v, getitem (<[j := v]> row) i = Ok v
  | Err e => Heap.setitem_index row i = Err e
  end.
Proof.
  unfold getitem, Heap.setitem_index.
  set (j := if i <? 0 then i + len row else i).
  destruct ((0 <=? j) && (j <? len row)) eqn:Hj.
  - apply andb_true_iff in Hj as [H0 H1].
    destruct (row !! Z.to_nat j) as [b|] eqn:Hb.
    + exists (Z.to_nat j). split; [reflexivity|]. split; [exact Hb|].
      intros v. unfold len. rewrite length_insert. fold (len row). fold j.
      rewrite H0, H1. cbn [andb].
      rewrite list_lookup_insert_eq; [reflexivity|]. by apply lookup_lt_Some in Hb.
    + exfalso. apply lookup_ge_None in Hb. unfold len in H1. lia.
  - reflexivity.
Qed.

Lemma getitem_scalar_refs (m : Heap.ByteMatrix) (x y : Z) (h : list (list Z)) :
  Heap.__getitem__ m (Idx x) (Idx y) h =
  match Heap._rows m with
  | None => Err AttributeError
  | Some rs =>
      match getitem rs y with
      | Err e => Err e
      | Ok r =>
          match getitem (Heap.deref h r) x with
          | Ok b => Ok (Heap.Byte b, h)
          | Err e => Err e
          end
      end
  end.
Proof.
  unfold Heap.__getitem__. rewrite st_bind_eq, get_rows_refs.
  destruct (Heap._rows m) as [rs|]; [|reflexivity].
  rewrite st_lift_bind. destruct (getitem rs y) as [r|e]; [|reflexivity].
  rewrite st_load_bind. unfold fmap, Heap.st_fmap, Heap.lift.
  by destruct (getitem _ x).
Qed.

Lemma setitem_scalar_refs (m : Heap.ByteMatrix) (x y v : Z) (h : list (list Z)) :
  Heap.__setitem__ m (Idx x) (Idx y) (Heap.VByte v) h =
  match Heap._rows m with
  | None => Err AttributeError
  | Some rs =>
      match getitem rs y with
      | Err e => Err e
      | Ok r =>
          match Heap.setitem_index (Heap.deref h r) x with
          | Err e => Err e
          | Ok j =>
              if is_byteb v then Ok ((), <[r := <[j := v]> (Heap.deref h r)]> h)
              else Err ValueError
          end
      end
  end.
Proof.
  unfold Heap.__setitem__. rewrite st_bind_eq. cbn [mret Heap.st_ret].
  rewrite st_bind_eq, get_rows_refs.
  destruct (Heap._rows m) as [rs|]; [|reflexivity].
  rewrite st_lift_bind. destruct (getitem rs y) as [r|e]; [|reflexivity].
  rewrite st_load_bind, st_lift_bind.
  destruct (Heap.setitem_index _ x) as [j|e]; [|reflexivity].
  unfold is_byteb. by destruct (_ && _).
Qed.

Lemma deref_insert (h : list (list Z)) (r : nat) (row : list Z) :
  (r < length h)%nat → Heap.deref (<[r := row]> h) r = row.
Proof. intros Hr. unfold Heap.deref. by rewrite list_lookup_insert_eq. Qed.

Lemma setitem_value_first_scalar_refs (m : Heap.ByteMatrix) (x y v : Z) (h : list (list Z)) :
  Heap.__setitem___value_first m (Idx x) (Idx y) (Heap.VByte v) h =
  match Heap._rows m with
  | None => Err AttributeError
  | Some rs =>
      match getitem rs y with
      | Err e => Err e
      | Ok r =>
          if is_byteb v then
            match Heap.setitem_index (Heap.deref h r) x with
            | Err e => Err e
            | Ok j => Ok ((), <[r := <[j := v]> (Heap.deref h r)]> h)
            end
          else Err ValueError
      end
  end.
Proof.
  unfold Heap.__setitem___value_first. rewrite st_bind_eq. cbn [mret Heap.st_ret].
  rewrite st_bind_eq, get_rows_refs.
  destruct (Heap._rows m) as [rs|]; [|reflexivity].
  rewrite st_lift_bind. destruct (getitem rs y) as [r|e]; [|reflexivity].
  rewrite st_load_bind. unfold is_byteb. destruct (_ && _); [|reflexivity].
  rewrite st_lift_bind. by destruct (Heap.setitem_index _ x).
Qed.

(** The two orders of the tests of a store give the same successful
    assignments, at every index and for every value. *)
Lemma setitem_orders_agree (self : Heap.ByteMatrix) (x y : index) (val : Heap.value)
    (h : list (list Z)) (r : unit * list (list Z)) :
  Heap.__setitem__ self x y val h = Ok r ↔
  Heap.__setitem___value_first self x y val h = Ok r.
Proof.
  unfold Heap.__setitem__, Heap.__setitem___value_first. rewrite !st_bind_eq.
  destruct (match val with
            | Heap.VMatrix m => inl <$> Heap.get_rows m
            | Heap.VByte n => mret (inr n)
            end h) as [[v h0]|e]; [|reflexivity].
  destruct y as [iy|sy].
  - destruct x as [ix|sx]; [|reflexivity].
    rewrite !st_bind_eq. destruct (Heap.get_rows self h0) as [[rows h1]|e]; [|reflexivity].
    rewrite !st_lift_bind. destruct (getitem rows iy) as [dst|e]; [|reflexivity].
    rewrite !st_load_bind. rewrite st_lift_bind.
    destruct v as [srcs|n].
    + unfold Heap.lift. by destruct (Heap.setitem_index _ ix).
    + destruct ((0 <=? n) && (n <? 256)).
      * rewrite st_lift_bind. by destruct (Heap.setitem_index _ ix).
      * unfold Heap.lift. by destruct (Heap.setitem_index _ ix).
  - rewrite !st_bind_eq. destruct (Heap.get_rows self h0) as [[rows h1]|e]; [|reflexivity].
    rewrite !st_lift_bind. destruct (getslice rows sy) as [sel|e]; [|reflexivity].
    destruct v as [srcs|n]; [|reflexivity].
    destruct x as [ix|sx]; [|reflexivity].
    rewrite !st_bind_eq. destruct (zip sel srcs) as [|p ps]; [reflexivity|].
    rewrite !st_mapM_cons, !st_load_bind, st_lift_bind.
    unfold Heap.lift. by destruct (Heap.setitem_index _ ix).
Qed.

(** Assigning an int [v] at [[x, y]], under either order of the tests of
    the store.  Where reading [[x, y]] succeeds, the assignment takes a
    byte and nothing else, raising [ValueError] otherwise, and the byte is
    then what [[x, y]] reads.  Where reading fails, the assignment fails:
    for a byte with the exception of the reading, for another int with
    that exception or with [ValueError].  With the index tested first
    (CPython up to 3.10.4) it is always the exception of the reading; with
    the value tested first (CPython 3.10.5 and later) an int that is no
    byte raises [ValueError] as soon as row [y] exists, whatever [x]. *)
Lemma setitem_then_getitem (m : Heap.ByteMatrix) (x y v : Z) (h : list (list Z)) :
  owns h m →
  (∀ set, set = Heap.__setitem__ ∨ set = Heap.__setitem___value_first →
     match Heap.__getitem__ m (Idx x) (Idx y) h with
     | Ok _ =>
         if is_byteb v then
           ∃ h', set m (Idx x) (Idx y) (Heap.VByte v) h = Ok ((), h') ∧
                 Heap.__getitem__ m (Idx x) (Idx y) h' = Ok (Heap.Byte v, h')
         else set m (Idx x) (Idx y) (Heap.VByte v) h = Err ValueError
     | Err e =>
         if is_byteb v then set m (Idx x) (Idx y) (Heap.VByte v) h = Err e
         else set m (Idx x) (Idx y) (Heap.VByte v) h = Err e ∨
              set m (Idx x) (Idx y) (Heap.VByte v) h = Err ValueError
     end) ∧
  (∀ e, Heap.__getitem__ m (Idx x) (Idx y) h = Err e →
     Heap.__setitem__ m (Idx x) (Idx y) (Heap.VByte v) h = Err e) ∧
  (is_byteb v = false → ∀ rs r, Heap._rows m = Some rs → getitem rs y = Ok r →
     Heap.__setitem___value_first m (Idx x) (Idx y) (Heap.VByte v) h = Err ValueError).
Proof.
  intros Hown. unfold owns, refs_of in Hown.
  assert (∀ rs r, Heap._rows m = Some rs → getitem rs y = Ok r → (r < length h)%nat)
    as Hlt.
  { intros rs r Hrs Hr. rewrite Hrs in Hown. cbn in Hown.
    rewrite Forall_forall in Hown. apply Hown.
    revert Hr. unfold getitem. destruct (_ && _); [|discriminate].
    destruct (rs !! _) eqn:Hl; [|discriminate]. intros [= <-].
    eapply list_elem_of_lookup_2, Hl. }
  clear Hown. split; [|split].
  - intros set Hset. rewrite getitem_scalar_refs.
    assert (set m (Idx x) (Idx y) (Heap.VByte v) h =
            Heap.__setitem__ m (Idx x) (Idx y) (Heap.VByte v) h ∨
            set m (Idx x) (Idx y) (Heap.VByte v) h =
            Heap.__setitem___value_first m (Idx x) (Idx y) (Heap.VByte v) h) as Hcall
      by (destruct Hset as [-> | ->]; [by left|by right]).
    rewrite setitem_scalar_refs, setitem_value_first_scalar_refs in Hcall.
    clear Hset. revert Hcall. generalize (set m (Idx x) (Idx y) (Heap.VByte v) h).
    intros res Hres.
    destruct (Heap._rows m) as [rs|] eqn:Hrs.
    2:{ destruct (is_byteb v); [|left]; by destruct Hres. }
    destruct (getitem rs y) as [r|e] eqn:Hr.
    2:{ destruct (is_byteb v); [|left]; by destruct Hres. }
    pose proof (setitem_index_getitem (Heap.deref h r) x) as Hidx.
    destruct (getitem (Heap.deref h r) x) as [b|e].
    + destruct Hidx as (j & Hj & Hb & Hget). rewrite Hj in Hres.
      destruct (is_byteb v); [|by destruct Hres].
      exists (<[r := <[j := v]> (Heap.deref h r)]> h).
      split; [by destruct Hres|].
      rewrite getitem_scalar_refs, Hrs, Hr.
      rewrite deref_insert, Hget; [reflexivity|]. by eapply Hlt.
    + rewrite Hidx in Hres.
      destruct (is_byteb v); [by destruct Hres|].
      destruct Hres as [-> | ->]; [by left|by right].
  - intros e. rewrite getitem_scalar_refs, setitem_scalar_refs.
    destruct (Heap._rows m) as [rs|]; [|by intros [= ->]].
    destruct (getitem rs y) as [r|e']; [|by intros [= ->]].
    pose proof (setitem_index_getitem (Heap.deref h r) x) as Hidx.
    destruct (getitem (Heap.deref h r) x) as [b|e'']; [discriminate|].
    intros [= ->]. by rewrite Hidx.
  - intros Hv rs r Hrs Hr.
    by rewrite setitem_value_first_scalar_refs, Hrs, Hr, Hv.
Qed.

Lemma getitem_app_l {A} (l k : list A) (i : Z) (a : A) :
  0 ≤ i → getitem l i = Ok a → getitem (l ++ k) i = Ok a.
Proof.
  intros Hi. unfold getitem. destruct (Z.ltb_spec i 0); [exfalso; lia|].
  destruct ((0 <=? i) && (i <? len l)) eqn:Hin; [|discriminate].
  apply andb_true_iff in Hin as [_ Hlt].
  destruct (l !! Z.to_nat i) as [a'|] eqn:Hl; [|discriminate]. intros [= ->].
  rewrite len_app. pose proof (len_nonneg k).
  destruct (Z.leb_spec 0 i); [|exfalso; lia].
  destruct (Z.ltb_spec i (len l + len k)); [|exfalso; lia]. cbn [andb].
  by rewrite (lookup_app_l_Some _ _ _ _ Hl).
Qed.

Lemma vstack_cons_refs (A : Heap.ByteMatrix) (rest : list Heap.ByteMatrix)
    (m : Heap.ByteMatrix) (h h' : list (list Z)) :
  Heap.vstack (A :: rest) h = Ok (m, h') →
  h' = h ∧ ∃ rsA rs, Heap._rows A = Some rsA ∧ Heap._rows m = Some (rsA ++ rs).
Proof.
  unfold Heap.vstack. rewrite st_bind_eq, st_mapM_cons, get_rows_refs.
  destruct (Heap._rows A) as [rsA|]; [|discriminate].
  pose proof (mapM_get_rows_refs rest h) as Hrest.
  destruct (mapM get_rows (value_of h <$> rest)) as [rowss|e];
    [destruct Hrest as [-> _]|rewrite Hrest; discriminate].
  rewrite _create_from_rows_refs.
  destruct (_create_from_rows _) as [g|e]; [|discriminate].
  intros [= <- <-]. split; [reflexivity|]. eexists _, _. split; reflexivity.
Qed.

(** A matrix returned by [vstack] is made of the row objects of its
    arguments: an int assigned to it at a row of its first argument is read
    back from that argument. *)
Lemma setitem_through_vstack (A : Heap.ByteMatrix) (rest : list Heap.ByteMatrix)
    (m : Heap.ByteMatrix) (h h' : list (list Z)) (x y v b : Z) :
  Heap.vstack (A :: rest) h = Ok (m, h') → owns h A → 0 ≤ y → is_byte v →
  Heap.__getitem__ A (Idx x) (Idx y) h = Ok (Heap.Byte b, h) →
  h' = h ∧
  ∃ h2, Heap.__setitem__ m (Idx x) (Idx y) (Heap.VByte v) h = Ok ((), h2) ∧
        Heap.__getitem__ A (Idx x) (Idx y) h2 = Ok (Heap.Byte v, h2).
Proof.
  intros Hv Hown Hy Hbyte Hget.
  destruct (vstack_cons_refs _ _ _ _ _ Hv) as (-> & rsA & rs & HA & Hm).
  split; [reflexivity|].
  rewrite getitem_scalar_refs, HA in Hget.
  destruct (getitem rsA y) as [r|e] eqn:Hr; [|discriminate Hget].
  pose proof (setitem_index_getitem (Heap.deref h r) x) as Hidx.
  destruct (getitem (Heap.deref h r) x) as [b'|e]; [|discriminate Hget].
  destruct Hidx as (j & Hj & _ & Hnew).
  rewrite setitem_scalar_refs, Hm, (getitem_app_l _ _ _ _ Hy Hr), Hj.
  apply is_byteb_spec in Hbyte as ->.
  eexists. split; [reflexivity|].
  rewrite getitem_scalar_refs, HA, Hr, deref_insert, Hnew; [reflexivity|].
  unfold owns, refs_of in Hown. rewrite HA in Hown. cbn in Hown.
  rewrite Forall_forall in Hown. apply Hown.
  revert Hr. unfold getitem. destruct (_ && _); [|discriminate].
  destruct (rsA !! _) eqn:Hl; [|discriminate]. intros [= <-].
  eapply list_elem_of_lookup_2, Hl.
Qed.

Lemma setitem_through_vstack_witness :
  ∃ h2, Heap.__setitem__ (Heap.mkByteMatrix 2 2 (Some [0%nat; 1%nat])) (Idx 1) (Idx 0)
          (Heap.VByte 9) [[1; 2]; [3; 4]] = Ok ((), h2) ∧
        Heap.__getitem__ (Heap.mkByteMatrix 2 1 (Some [0%nat])) (Idx 1) (Idx 0) h2
        = Ok (Heap.Byte 9, h2).
Proof.
  apply (setitem_through_vstack (Heap.mkByteMatrix 2 1 (Some [0%nat]))
           [Heap.mkByteMatrix 2 1 (Some [1%nat])]
           (Heap.mkByteMatrix 2 2 (Some [0%nat; 1%nat]))
           [[1; 2]; [3; 4]] [[1; 2]; [3; 4]] 1 0 9 2).
  - reflexivity.
  - repeat constructor.
  - lia.
  - unfold is_byte. lia.
  - reflexivity.
Defined.

Lemma setitem_then_getitem_witness :
  ∃ h', Heap.__setitem___value_first (Heap.mkByteMatrix 2 2 (Some [0%nat; 1%nat]))
          (Idx (-1)) (Idx 1) (Heap.VByte 9) [[1; 2]; [3; 4]] = Ok ((), h') ∧
        Heap.__getitem__ (Heap.mkByteMatrix 2 2 (Some [0%nat; 1%nat])) (Idx (-1)) (Idx 1) h'
        = Ok (Heap.Byte 9, h').
Proof.
  apply (proj1 (setitem_then_getitem (Heap.mkByteMatrix 2 2 (Some [0%nat; 1%nat])) (-1) 1 9
                  [[1; 2]; [3; 4]] ltac:(repeat constructor))
           Heap.__setitem___value_first).
  right. reflexivity.
Defined.

Lemma setitem_frame_witness :
  length [[9; 2]; [3; 4]] = length [[1; 2]; [3; 4]] ∧
  [[9; 2]; [3; 4]] !! 1%nat = [[1; 2]; [3; 4]] !! 1%nat.
Proof.
  destruct (setitem_frame (Heap.mkByteMatrix 2 1 (Some [0%nat])) (Idx 0) (Idx 0)
              (Heap.VByte 9) [[1; 2]; [3; 4]] [[9; 2]; [3; 4]]) as [Hlen Hframe];
    [reflexivity|].
  split; [exact Hlen|]. apply Hframe. cbn.
  intros H%list_elem_of_singleton. discriminate H.
Defined.

Lemma getitem_copies_witness :
  ∃ m', Heap.__getitem__ (Heap.mkByteMatrix 2 2 (Some [0%nat; 1%nat]))
          (Slc (slice_of 0 1)) (Slc slice_all) [[1; 2]; [3; 4]]
        = Ok (Heap.Matrix m', [[1; 2]; [3; 4]] ++ [[1]; [3]]) ∧
        refs_of m' = [2%nat; 3%nat].
Proof.
  pose proof (getitem_copies (Heap.mkByteMatrix 2 2 (Some [0%nat; 1%nat]))
                (Slc (slice_of 0 1)) (Slc slice_all) [[1; 2]; [3; 4]]) as H.
  cbn in H. destruct H as (m' & Hm & _ & Hrefs); [repeat constructor|].
  exists m'. split; [exact Hm|exact Hrefs].
Defined.

Lemma slice_indices_range (lo hi n : Z) :
  0 ≤ lo → lo ≤ hi → hi ≤ n → slice_indices (slice_of lo hi) n = Ok (lo, 1, hi - lo).
Proof.
  intros Hlo Hhi Hn. unfold slice_indices, slice_of, adjust_bound. cbn.
  destruct (Z.ltb_spec lo 0); [lia|]. destruct (Z.ltb_spec hi 0); [lia|].
  destruct (Z.leb_spec n lo), (Z.leb_spec n hi); try lia.
  - replace lo with n by lia. replace hi with n by lia.
    rewrite Z.ltb_irrefl. do 3 f_equal. lia.
  - destruct (Z.ltb_spec lo n); [|lia]. rewrite Z.div_1_r. do 3 f_equal; lia.
  - destruct (Z.ltb_spec lo hi); [rewrite Z.div_1_r|]; do 3 f_equal; lia.
Qed.

Lemma bytearray_setslice_range (d src : list Z) (lo hi : Z) :
  0 ≤ lo → lo ≤ hi → hi ≤ len d →
  Heap.bytearray_setslice d (slice_of lo hi) src
  = Ok (take (Z.to_nat lo) d ++ src ++ drop (Z.to_nat hi) d).
Proof.
  intros Hlo Hhi Hn. unfold Heap.bytearray_setslice.
  rewrite slice_indices_range by done. cbn. do 4 f_equal. lia.
Qed.

Lemma st_write_eq (r : nat) (row : list Z) (h : list (list Z)) :
  Heap.write r row h = Ok ((), <[r := row]> h).
Proof. reflexivity. Qed.

Lemma deref_insert_ne (h : list (list Z)) (r r' : nat) (row : list Z) :
  r ≠ r' → Heap.deref (<[r := row]> h) r' = Heap.deref h r'.
Proof. intros Hne. unfold Heap.deref. by rewrite list_lookup_insert_ne. Qed.

Lemma deref_eq (h h' : list (list Z)) (r : nat) :
  h' !! r = h !! r → Heap.deref h' r = Heap.deref h r.
Proof. unfold Heap.deref. by intros ->. Qed.

(** The loop of [__setitem__] over distinct rows, none of which is a source
    row: every selected row gets the source row in place of its columns
    [x0] to [x1]. *)
Lemma setitem_loop_rect (x0 x1 : Z) (pairs : list (nat * nat)) (h : list (list Z)) :
  NoDup pairs.*1 →
  Forall (λ p, (p.1 < length h)%nat ∧ 0 ≤ x0 ∧ x0 ≤ x1 ∧ x1 ≤ len (Heap.deref h p.1)) pairs →
  (∀ p q, p ∈ pairs → q ∈ pairs → p.1 ≠ q.2) →
  ∃ res h',
    mapM (M:=Heap.st) (λ p : nat * nat,
      d ← Heap.load p.1;
      s ← Heap.load p.2;
      new ← Heap.lift (Heap.bytearray_setslice d (slice_of x0 x1) s);
      Heap.write p.1 new) pairs h = Ok (res, h') ∧
    length h' = length h ∧
    (∀ r, r ∉ pairs.*1 → h' !! r = h !! r) ∧
    Forall (λ p, Heap.deref h' p.1 =
                 take (Z.to_nat x0) (Heap.deref h p.1) ++ Heap.deref h p.2
                 ++ drop (Z.to_nat x1) (Heap.deref h p.1)) pairs.
Proof.
  revert h. induction pairs as [|p pairs IH]; intros h Hnd Hall Hdisj.
  - exists [], h. repeat split; constructor.
  - rewrite fmap_cons in Hnd. apply NoDup_cons in Hnd as [Hp Hnd].
    apply Forall_cons_1 in Hall as [(Hvalid & H0 & H01 & H1) Hall].
    remember (take (Z.to_nat x0) (Heap.deref h p.1) ++ Heap.deref h p.2
              ++ drop (Z.to_nat x1) (Heap.deref h p.1)) as new eqn:Hnew.
    assert (∀ q, q ∈ pairs → p.1 ≠ q.1) as Hq1.
    { intros q Hq Heq. apply Hp. rewrite Heq. by apply list_elem_of_fmap_2. }
    assert (∀ q, q ∈ pairs → p.1 ≠ q.2) as Hq2
      by (intros q Hq; apply Hdisj; [left|by right]).
    destruct (IH (<[p.1 := new]> h) Hnd) as (res & h' & Hloop & Hlen & Hframe & Hrows).
    { apply Forall_forall. intros q Hq. rewrite Forall_forall in Hall.
      destruct (Hall q Hq) as (Hv & _ & _ & Hx1). cbv beta.
      rewrite length_insert, deref_insert_ne by (by apply Hq1). done. }
    { intros q q' Hq Hq'. apply Hdisj; by right. }
    exists (() :: res), h'. split; [|split; [|split]].
    + rewrite st_mapM_cons, !st_load_bind, st_lift_bind.
      rewrite bytearray_setslice_range by done. rewrite <- Hnew.
      rewrite st_write_eq. by rewrite Hloop.
    + by rewrite Hlen, length_insert.
    + intros r Hr. rewrite fmap_cons in Hr. apply not_elem_of_cons in Hr as [Hne Hr].
      rewrite Hframe by done. by apply list_lookup_insert_ne.
    + constructor.
      * rewrite (deref_eq (<[p.1 := new]> h) h') by (by apply Hframe).
        by rewrite deref_insert.
      * apply Forall_forall. intros q Hq. rewrite Forall_forall in Hrows.
        cbv beta. rewrite (Hrows q Hq).
        rewrite !deref_insert_ne; [reflexivity|by apply Hq2|by apply Hq1].
Qed.

Lemma well_formed_value_of (h : list (list Z)) (m : Heap.ByteMatrix) :
  well_formed (value_of h m) ↔
  ∃ rs, Heap._rows m = Some rs ∧ Heap._height m = len rs ∧
        Forall (λ r, len (Heap.deref h r) = Heap._width m ∧
                     Forall is_byte (Heap.deref h r)) rs.
Proof.
  unfold well_formed, value_of. cbn [_rows _height _width]. split.
  - intros (rows & Hrows & Hh & Hall).
    destruct (Heap._rows m) as [rs|]; [|discriminate]. injection Hrows as <-.
    exists rs. split; [reflexivity|]. split.
    + rewrite Hh. unfold len. by rewrite length_fmap.
    + by apply Forall_fmap in Hall.
  - intros (rs & -> & Hh & Hall). exists (Heap.deref h <$> rs).
    split; [reflexivity|]. split.
    + rewrite Hh. unfold len. by rewrite length_fmap.
    + by apply Forall_fmap.
Qed.

(** Assigning a matrix to a rectangle of its own size, in a matrix of
    distinct rows none of which is a row of the value: the assignment
    succeeds, the matrix keeps its shape, the value is untouched, and the
    rectangle then reads as the value. *)
Lemma setitem_rectangle (m s : Heap.ByteMatrix) (h : list (list Z)) (x0 x1 y0 y1 : Z) :
  owns h m → owns h s →
  well_formed (value_of h m) → well_formed (value_of h s) →
  NoDup (refs_of m) → (∀ r, r ∈ refs_of m → r ∉ refs_of s) →
  0 ≤ x0 → x1 ≤ Heap._width m → 0 ≤ y0 → y0 < y1 → y1 ≤ Heap._height m →
  Heap._width s = x1 - x0 → Heap._height s = y1 - y0 →
  ∃ h', Heap.__setitem__ m (Slc (slice_of x0 x1)) (Slc (slice_of y0 y1))
          (Heap.VMatrix s) h = Ok ((), h') ∧
        well_formed (value_of h' m) ∧
        value_of h' s = value_of h s ∧
        __getitem__ (value_of h' m) (Slc (slice_of x0 x1)) (Slc (slice_of y0 y1))
        = Ok (Matrix (value_of h s)).
Proof.
  intros Hom Hos Hwm Hws Hnd Hdisj Hx0 Hx1 Hy0 Hy Hy1 Hw Hk.
  apply well_formed_value_of in Hwm as (rs & Hrs & HH & Hrows).
  apply well_formed_value_of in Hws as (ss & Hss & Hks & Hsrc).
  unfold owns, refs_of in *. rewrite Hrs in *. rewrite Hss in *. cbn [default] in *.
  set (k := Z.to_nat (y1 - y0)).
  set (sel := take k (drop (Z.to_nat y0) rs)).
  assert (length ss = k) as Hlss by (unfold len in Hks; lia).
  assert (length sel = k) as Hlsel.
  { unfold sel. rewrite length_take, length_drop. unfold len in HH. lia. }
  assert (sel ⊆ rs) as Hsub.
  { apply sublist_subseteq. etrans; [apply sublist_take|apply sublist_drop]. }
  assert (NoDup sel) as Hndsel.
  { apply (sublist_NoDup _ rs); [done|].
    etrans; [apply sublist_take|apply sublist_drop]. }
  assert (0 ≤ x1 - x0) as Hwpos.
  { destruct ss as [|r0 ss']; [exfalso; cbn in Hlss; lia|].
    apply Forall_cons_1 in Hsrc as [[Hr0 _] _]. pose proof (len_nonneg (Heap.deref h r0)). lia. }
  set (pairs := zip sel ss).
  assert (pairs.*1 = sel) as Hfst by (apply fst_zip; lia).
  assert (pairs.*2 = ss) as Hsnd by (apply snd_zip; lia).
  assert (∀ p, p ∈ pairs → p.1 ∈ sel) as Hp1
    by (intros p Hp; rewrite <- Hfst; by apply list_elem_of_fmap_2).
  assert (∀ p, p ∈ pairs → p.2 ∈ ss) as Hp2
    by (intros p Hp; rewrite <- Hsnd; by apply list_elem_of_fmap_2).
  destruct (setitem_loop_rect x0 x1 pairs h) as (res & h' & Hloop & Hlen & Hframe & Hnew).
  { by rewrite Hfst. }
  { apply Forall_forall. intros p Hp. apply Hp1, Hsub in Hp.
    rewrite Forall_forall in Hom, Hrows. destruct (Hrows _ Hp) as [Hlenp _].
    split; [by apply Hom|]. lia. }
  { intros p q Hp Hq Heq. apply (Hdisj p.1); [by apply Hsub, Hp1|].
    rewrite Heq. by apply Hp2. }
  rewrite Hfst in Hframe.
  assert (∀ r, r ∈ ss → Heap.deref h' r = Heap.deref h r) as Hsame.
  { intros r Hr. apply deref_eq, Hframe. intros Hin. by apply (Hdisj r); [apply Hsub|]. }
  assert (well_formed (value_of h' m)) as Hwf'.
  { apply well_formed_value_of. exists rs. split; [done|]. split; [done|].
    apply Forall_forall. intros r Hr. rewrite Forall_forall in Hrows.
    destruct (Hrows r Hr) as [Hlr Hbr].
    destruct (decide (r ∈ sel)) as [Hin|Hnin].
    - rewrite <- Hfst in Hin. apply list_elem_of_fmap in Hin as (p & -> & Hp).
      rewrite Forall_forall in Hnew. rewrite (Hnew p Hp).
      rewrite Forall_forall in Hsrc. destruct (Hsrc _ (Hp2 p Hp)) as [Hls Hbs].
      split.
      + rewrite !len_app. unfold len in *. rewrite length_take, length_drop. lia.
      + apply Forall_app. split; [by apply Forall_take|].
        apply Forall_app. split; [done|by apply Forall_drop].
    - rewrite (deref_eq h h') by (by apply Hframe). done. }
  exists h'. split; [|split; [|split]].
  - unfold Heap.__setitem__. rewrite st_bind_eq.
    unfold fmap, Heap.st_fmap. rewrite get_rows_refs, Hss.
    rewrite st_bind_eq, get_rows_refs, Hrs, st_lift_bind.
    rewrite getslice_range by lia. fold k sel pairs.
    rewrite st_bind_eq. cbv iota beta.
    change (mapM (M:=Heap.st) _ pairs h) with
      (mapM (M:=Heap.st) (λ p : nat * nat,
         d ← Heap.load p.1;
         s0 ← Heap.load p.2;
         new ← Heap.lift (Heap.bytearray_setslice d (slice_of x0 x1) s0);
         Heap.write p.1 new) pairs h).
    by rewrite Hloop.
  - exact Hwf'.
  - unfold value_of. rewrite Hss. do 2 f_equal.
    apply Forall_fmap_ext, Forall_forall. intros r Hr. by apply Hsame.
  - rewrite getitem_slices by (done || (cbn; lia)).
    assert (rows_of (value_of h' m) = Heap.deref h' <$> rs) as ->
      by (unfold rows_of, value_of; cbn; by rewrite Hrs).
    rewrite slice_items_range by lia. rewrite <- fmap_drop, <- fmap_take. fold k sel.
    assert ((λ row : list Z, slice_items row (slice_of x0 x1)) <$> (Heap.deref h' <$> sel)
            = Heap.deref h <$> ss) as Hcells.
    { rewrite <- list_fmap_compose, <- Hfst, <- Hsnd.
      rewrite <- !list_fmap_compose. apply Forall_fmap_ext, Forall_forall.
      intros p Hp. unfold compose. rewrite Forall_forall in Hnew.
      rewrite (Hnew p Hp), slice_items_range by lia.
      rewrite Forall_forall in Hrows, Hsrc.
      destruct (Hrows _ (Hsub _ (Hp1 p Hp))) as [Hld _].
      destruct (Hsrc _ (Hp2 p Hp)) as [Hls _].
      rewrite drop_app_length' by (rewrite length_take; unfold len in Hld; lia).
      apply take_app_length'. unfold len in Hls. lia. }
    destruct (Heap.deref h' <$> sel) as [|r0 sel'] eqn:Esel.
    { exfalso. apply (f_equal length) in Esel. rewrite length_fmap in Esel.
      cbn in Esel. lia. }
    cbv zeta. rewrite Hcells. do 2 f_equal.
    unfold value_of. rewrite Hss. f_equal.
    + destruct ss as [|s0 ss']; [exfalso; cbn in Hlss; lia|].
      rewrite !fmap_cons in Hcells. injection Hcells as Hc0 _. rewrite Hc0.
      rewrite Forall_forall in Hsrc. destruct (Hsrc s0) as [Hs0 _]; [left|]. lia.
    + apply (f_equal length) in Esel. rewrite length_fmap in Esel.
      unfold len. lia.
Qed.

Lemma getitem_lookup {A} (l : list A) (i : Z) :
  0 ≤ i → i < len l → ∃ a, getitem l i = Ok a ∧ l !! Z.to_nat i = Some a.
Proof.
  intros H0 H1. unfold getitem. destruct (Z.ltb_spec i 0); [exfalso; lia|].
  destruct (Z.leb_spec 0 i); [|exfalso; lia].
  destruct (Z.ltb_spec i (len l)); [|exfalso; lia]. cbn [andb].
  destruct (l !! Z.to_nat i) as [a|] eqn:Hl; [eauto|].
  exfalso. apply lookup_ge_None in Hl. unfold len in H1. lia.
Qed.

Lemma getitem_all (g : ByteMatrix) (rows : list (list Z)) :
  _rows g = Some rows →
  __getitem__ g (Slc slice_all) (Slc slice_all) = Matrix <$> _create_from_rows rows.
Proof.
  intros Hrows. unfold __getitem__, get_rows. rewrite Hrows. cbn [mbind result_bind].
  rewrite getslice_Ok by (cbn; lia). rewrite slice_items_all. cbn [mbind result_bind].
  rewrite (mapM_Ok_fmap _ id).
  - cbn [mbind result_bind]. by rewrite list_fmap_id.
  - apply Forall_forall. intros row _. rewrite getslice_Ok by (cbn; lia).
    by rewrite slice_items_all.
Qed.

(** [__setitem__] never touches [_width]: a row assigned a stretch of
    another length than the columns it replaces gets a length of its own,
    the matrix is no longer rectangular, and slicing it whole fails the
    assertion of [_create_from_rows]. *)
Lemma setitem_row_resizes (m s : Heap.ByteMatrix) (h : list (list Z))
    (x0 x1 y : Z) (src : nat) :
  owns h m → well_formed (value_of h m) → NoDup (refs_of m) →
  Heap._rows s = Some [src] →
  0 ≤ x0 → x0 ≤ x1 → x1 ≤ Heap._width m → 0 ≤ y → y < Heap._height m →
  2 ≤ Heap._height m →
  len (Heap.deref h src) ≠ x1 - x0 →
  ∃ h', Heap.__setitem__ m (Slc (slice_of x0 x1)) (Idx y) (Heap.VMatrix s) h
        = Ok ((), h') ∧
        ¬ well_formed (value_of h' m) ∧
        __getitem__ (value_of h' m) (Slc slice_all) (Slc slice_all) = Err AssertionError.
Proof.
  intros Hom Hwm Hnd Hs Hx0 Hx01 Hx1 Hy0 Hy1 H2 Hsrc.
  apply well_formed_value_of in Hwm as (rs & Hrs & HH & Hrows).
  unfold owns, refs_of in *. rewrite Hrs in *. cbn [default] in *.
  destruct (getitem_lookup rs y Hy0 ltac:(lia)) as (r & Hr & Hlr).
  set (y' := if y =? 0 then 1 else 0).
  destruct (getitem_lookup rs y' ltac:(unfold y'; destruct (y =? 0); lia)
              ltac:(unfold y'; destruct (y =? 0); lia)) as (r' & _ & Hlr').
  assert (r ≠ r') as Hne.
  { intros ->. assert (Z.to_nat y = Z.to_nat y') as Heq
      by (eapply NoDup_lookup; eauto).
    unfold y' in Heq. destruct (Z.eqb_spec y 0); lia. }
  rewrite Forall_forall in Hrows, Hom.
  destruct (Hrows r (list_elem_of_lookup_2 _ _ _ Hlr)) as [Hd _].
  destruct (Hrows r' (list_elem_of_lookup_2 _ _ _ Hlr')) as [Hd' _].
  set (new := take (Z.to_nat x0) (Heap.deref h r) ++ Heap.deref h src
              ++ drop (Z.to_nat x1) (Heap.deref h r)).
  assert (length new ≠ length (Heap.deref h r')) as Hlen.
  { unfold new. rewrite !length_app, length_take, length_drop. unfold len in *. lia. }
  assert (Heap.deref (<[r := new]> h) r = new) as Hnew
    by (apply deref_insert, Hom, (list_elem_of_lookup_2 _ _ _ Hlr)).
  assert (Heap.deref (<[r := new]> h) r' = Heap.deref h r') as Hold
    by (by apply deref_insert_ne).
  exists (<[r := new]> h). split; [|split].
  - unfold Heap.__setitem__. rewrite st_bind_eq.
    unfold fmap, Heap.st_fmap. rewrite get_rows_refs, Hs.
    rewrite st_bind_eq. cbn [mret Heap.st_ret]. rewrite st_bind_eq.
    change (len [src] =? 1) with true. cbv iota. cbn [mret Heap.st_ret].
    rewrite st_lift_bind, getitem_head, st_bind_eq, get_rows_refs, Hrs.
    rewrite st_lift_bind, Hr, !st_load_bind, st_lift_bind.
    rewrite bytearray_setslice_range by lia. reflexivity.
  - intros Hwf. apply well_formed_value_of in Hwf as (rs' & Hrs' & _ & Hrows').
    rewrite Hrs in Hrs'. injection Hrs' as <-. rewrite Forall_forall in Hrows'.
    destruct (Hrows' r (list_elem_of_lookup_2 _ _ _ Hlr)) as [Hl1 _].
    destruct (Hrows' r' (list_elem_of_lookup_2 _ _ _ Hlr')) as [Hl2 _].
    rewrite Hnew in Hl1. rewrite Hold in Hl2. unfold len in *. lia.
  - rewrite (getitem_all _ (Heap.deref (<[r := new]> h) <$> rs))
      by (unfold value_of; cbn; by rewrite Hrs).
    rewrite (_create_from_rows_ragged _ new (Heap.deref h r')); [reflexivity| | |exact Hlen].
    + apply list_elem_of_fmap. exists r.
      split; [by rewrite Hnew|apply (list_elem_of_lookup_2 _ _ _ Hlr)].
    + apply list_elem_of_fmap. exists r'.
      split; [by rewrite Hold|apply (list_elem_of_lookup_2 _ _ _ Hlr')].
Qed.

Lemma mapM_alloc {A} (f : A → result (list Z)) (l : list A) (h : list (list Z)) :
  mapM (λ a, s ← Heap.lift (f a); Heap.alloc s) l h =
  match mapM f l with
  | Ok ss => Ok (seq (length h) (length ss), h ++ ss)
  | Err e => Err e
  end.
Proof.
  revert h. induction l as [|a l IH]; intros h.
  - cbn. by rewrite app_nil_r.
  - rewrite st_mapM_cons, st_lift_bind. cbn [mapM].
    destruct (f a) as [s|e]; [|reflexivity].
    cbn [mbind result_bind]. unfold Heap.alloc. rewrite IH.
    destruct (mapM f l) as [ss|e]; [|reflexivity].
    cbn. rewrite length_app, <- app_assoc. cbn. by rewrite Nat.add_1_r.
Qed.

(** [vextend] keeps the row objects of the matrix it extends and adds new
    ones for the fill rows: the result shares its upper rows with the
    original.  It returns what the first part computes, and fails exactly
    when that does. *)
Lemma vextend_shares_rows (m : Heap.ByteMatrix) (by_height fill : Z) (h : list (list Z)) :
  owns h m →
  match vextend (value_of h m) by_height fill with
  | Ok g =>
      ∃ m' ext, Heap.vextend m by_height fill h = Ok (m', h ++ ext) ∧
                value_of (h ++ ext) m' = g ∧
                refs_of m' = refs_of m ++ seq (length h) (length ext)
  | Err e => Heap.vextend m by_height fill h = Err e
  end.
Proof.
  intros Hown. unfold vextend, Heap.vextend.
  rewrite st_bind_eq, get_rows_value_of, get_rows_refs.
  unfold owns, refs_of in *.
  destruct (Heap._rows m) as [rs|] eqn:Hrs; [|reflexivity].
  cbn [mbind result_bind default] in *. rewrite st_lift_bind.
  destruct (py_range 0 by_height 1) as [r|e]; [|reflexivity].
  cbn [mbind result_bind]. rewrite st_bind_eq.
  change (_width (value_of h m)) with (Heap._width m).
  rewrite (st_mapM_ext _
             (λ _ : Z, s ← Heap.lift (b ← bytearray_new [fill];
                                      mret (list_times b (Heap._width m)));
                       Heap.alloc s)).
  2:{ intros _ h0. rewrite !st_lift_bind.
      by destruct (bytearray_new [fill]). }
  rewrite mapM_alloc.
  destruct (mapM _ r) as [ext|e]; [|reflexivity].
  cbn [mbind result_bind]. rewrite _create_from_rows_refs.
  assert (Heap.deref (h ++ ext) <$> rs ++ seq (length h) (length ext)
          = (Heap.deref h <$> rs) ++ ext) as Hd.
  { rewrite fmap_app, deref_fresh. f_equal.
    apply Forall_fmap_ext. eapply Forall_impl; [exact Hown|].
    intros r0 Hr0. by apply deref_app_l. }
  rewrite Hd.
  destruct (_create_from_rows _) as [g|e] eqn:Hg; [|reflexivity].
  eexists _, ext. split; [reflexivity|]. split; [|reflexivity].
  unfold value_of. cbn [Heap._rows Heap._width Heap._height]. rewrite Hd.
  pose proof (_create_from_rows_rows _ _ Hg) as Hrows.
  destruct g as [w hh rows]. cbn in *. by rewrite Hrows.
Qed.

Lemma vextend_shares_rows_witness :
  ∃ m' ext, Heap.vextend (Heap.mkByteMatrix 2 1 (Some [0%nat])) 1 7 [[1; 2]]
            = Ok (m', [[1; 2]] ++ ext) ∧
            refs_of m' = [0%nat] ++ seq 1 (length ext).
Proof.
  pose proof (vextend_shares_rows (Heap.mkByteMatrix 2 1 (Some [0%nat])) 1 7 [[1; 2]]) as H.
  cbn in H. destruct H as (m' & ext & Hm & _ & Hrefs); [repeat constructor|].
  exists m', ext. split; [exact Hm|exact Hrefs].
Defined.

Lemma setitem_rectangle_witness :
  ∃ h', Heap.__setitem__ (Heap.mkByteMatrix 3 2 (Some [0%nat; 1%nat]))
          (Slc (slice_of 1 2)) (Slc (slice_of 0 1))
          (Heap.VMatrix (Heap.mkByteMatrix 1 1 (Some [2%nat])))
          [[1; 2; 3]; [4; 5; 6]; [9]] = Ok ((), h') ∧
        __getitem__ (value_of h' (Heap.mkByteMatrix 3 2 (Some [0%nat; 1%nat])))
          (Slc (slice_of 1 2)) (Slc (slice_of 0 1))
        = Ok (Matrix (mkByteMatrix 1 1 (Some [[9]]))).
Proof.
  destruct (setitem_rectangle (Heap.mkByteMatrix 3 2 (Some [0%nat; 1%nat]))
              (Heap.mkByteMatrix 1 1 (Some [2%nat]))
              [[1; 2; 3]; [4; 5; 6]; [9]] 1 2 0 1) as (h' & Hset & _ & _ & Hget).
  - repeat constructor.
  - repeat constructor.
  - eexists. split; [reflexivity|]. split; [reflexivity|].
    repeat constructor; unfold is_byte; lia.
  - eexists. split; [reflexivity|]. split; [reflexivity|].
    repeat constructor; unfold is_byte; lia.
  - cbn. apply NoDup_cons. split; [|apply NoDup_singleton].
    intros H%list_elem_of_singleton. discriminate H.
  - cbn. intros r Hr Hs. apply list_elem_of_singleton in Hs as ->.
    repeat (apply elem_of_cons in Hr as [Hr|Hr]; [discriminate Hr|]).
    by apply elem_of_nil in Hr.
  - lia.
  - cbn. lia.
  - lia.
  - lia.
  - cbn. lia.
  - reflexivity.
  - reflexivity.
  - exists h'. split; [exact Hset|exact Hget].
Defined.

Lemma setitem_row_resizes_witness :
  ∃ h', Heap.__setitem__ (Heap.mkByteMatrix 3 2 (Some [0%nat; 1%nat]))
          (Slc (slice_of 1 2)) (Idx 0)
          (Heap.VMatrix (Heap.mkByteMatrix 2 1 (Some [2%nat])))
          [[1; 2; 3]; [4; 5; 6]; [8; 9]] = Ok ((), h') ∧
        __getitem__ (value_of h' (Heap.mkByteMatrix 3 2 (Some [0%nat; 1%nat])))
          (Slc slice_all) (Slc slice_all) = Err AssertionError.
Proof.
  destruct (setitem_row_resizes (Heap.mkByteMatrix 3 2 (Some [0%nat; 1%nat]))
              (Heap.mkByteMatrix 2 1 (Some [2%nat]))
              [[1; 2; 3]; [4; 5; 6]; [8; 9]] 1 2 0 2) as (h' & Hset & _ & Hget).
  - repeat constructor.
  - eexists. split; [reflexivity|]. split; [reflexivity|].
    repeat constructor; unfold is_byte; lia.
  - cbn. apply NoDup_cons. split; [|apply NoDup_singleton].
    intros H%list_elem_of_singleton. discriminate H.
  - reflexivity.
  - lia.
  - lia.
  - cbn. lia.
  - lia.
  - cbn. lia.
  - cbn. lia.
  - vm_compute. discriminate.
  - exists h'. split; [exact Hset|exact Hget].
Defined.

(** ** [render] by interpreter *)

(** On Python 3 the first replacement of the first row raises. *)
Lemma render3_raises (g : ByteMatrix) (back fore : Z) :
  well_formed g → 0 < _height g → 0 ≤ back < 0x110000 →
  render3 g back fore = Err3 (Exn TypeError).
Proof.
  intros Hg Hh Hback. apply well_formed_rows in Hg as (Hrs & Hlen & _).
  unfold render3, get_rows. rewrite Hrs. cbn [lift3 mbind result3_bind].
  destruct (rows_of g) as [|r rs]; [exfalso; unfold len in Hlen; cbn in Hlen; lia|].
  assert (chr3 back = Ok3 back) as Hchr.
  { unfold chr3. destruct (Z.leb_spec 0 back); [|exfalso; lia].
    by destruct (Z.ltb_spec back 0x110000); [|exfalso; lia]. }
  cbn [mapM]. rewrite Hchr. reflexivity.
Qed.

(** On Python 3 [render] returns for no matrix and no arguments. *)
Lemma render3_never_returns (g : ByteMatrix) (back fore : Z) (m : ByteMatrix) :
  render3 g back fore ≠ Ok3 m.
Proof.
  unfold render3, get_rows.
  destruct (_rows g) as [[|r rs]|]; cbn [lift3 mbind result3_bind mapM];
    [discriminate| |discriminate].
  destruct (chr3 back); discriminate.
Qed.

(** [render] on a bitmap with a background other than 1, by interpreter.
    On Python 2, where [chr] gives a one-byte [str]: for a well-formed
    bitmap (cells 0 or 1) with at least one row and byte values [back] and
    [fore], [render] returns the matrix of the same shape in which every 0
    is [back] and every 1 is [fore].  On Python 3, where [chr] gives text:
    the same call raises [TypeError], and [render] returns for no matrix
    and no arguments at all. *)
Lemma render_bitmap_by_interpreter (g : ByteMatrix) (back fore : Z) :
  well_formed g → 0 < _height g → is_byte back → is_byte fore → back ≠ 1 →
  Forall (Forall (λ c, c = 0 ∨ c = 1)) (rows_of g) →
  render g back fore =
    Ok (mkByteMatrix (_width g) (_height g)
          (Some ((λ row : list Z, (λ c, if c =? 0 then back else fore) <$> row)
                 <$> rows_of g))) ∧
  render3 g back fore = Err3 (Exn TypeError) ∧
  (∀ g' back' fore' m, render3 g' back' fore' ≠ Ok3 m).
Proof.
  intros Hg Hh Hb Hf Hne Hbits. split; [by apply render_bitmap|].
  split; [|exact render3_never_returns].
  apply render3_raises; [done|done|]. unfold is_byte in Hb. lia.
Qed.

Lemma render_bitmap_by_interpreter_witness :
  render (mkByteMatrix 2 1 (Some [[0; 1]])) 7 2 = Ok (mkByteMatrix 2 1 (Some [[7; 2]])) ∧
  render3 (mkByteMatrix 2 1 (Some [[0; 1]])) 7 2 = Err3 (Exn TypeError) ∧
  (∀ g' back' fore' m, render3 g' back' fore' ≠ Ok3 m).
Proof.
  apply (render_bitmap_by_interpreter (mkByteMatrix 2 1 (Some [[0; 1]])) 7 2).
  - eexists. split; [reflexivity|]. split; [reflexivity|].
    repeat constructor; unfold is_byte; lia.
  - cbn. lia.
  - unfold is_byte. lia.
  - unfold is_byte. lia.
  - lia.
  - cbn. repeat (apply Forall_cons; split); try apply Forall_nil; lia.
Defined.

(** [render] with background 1, by interpreter.  On Python 2 the two
    successive replacements overlap: for a well-formed bitmap with at least
    one row and a byte foreground, [render(1, fore)] returns the matrix in
    which every cell, the zeros included, is [fore].  On Python 3 the call
    raises [TypeError]. *)
Lemma render_back_1_by_interpreter (g : ByteMatrix) (fore : Z) :
  well_formed g → 0 < _height g → is_byte fore →
  Forall (Forall (λ c, c = 0 ∨ c = 1)) (rows_of g) →
  render g 1 fore =
    Ok (mkByteMatrix (_width g) (_height g)
          (Some ((λ row : list Z, (λ _, fore) <$> row) <$> rows_of g))) ∧
  render3 g 1 fore = Err3 (Exn TypeError).
Proof.
  intros Hg Hh Hf Hbits. split; [by apply render_back_1|].
  apply render3_raises; [done|done|lia].
Qed.

Lemma render_back_1_by_interpreter_witness :
  render (mkByteMatrix 2 1 (Some [[0; 1]])) 1 2 = Ok (mkByteMatrix 2 1 (Some [[2; 2]])) ∧
  render3 (mkByteMatrix 2 1 (Some [[0; 1]])) 1 2 = Err3 (Exn TypeError).
Proof.
  apply (render_back_1_by_interpreter (mkByteMatrix 2 1 (Some [[0; 1]])) 2).
  - eexists. split; [reflexivity|]. split; [reflexivity|].
    repeat constructor; unfold is_byte; lia.
  - cbn. lia.
  - unfold is_byte. lia.
  - cbn. repeat (apply Forall_cons; split); try apply Forall_nil; lia.
Defined.

(** ** Text modes *)

(** What [TextMode.__init__] builds, for any keywords it accepts: a text
    mode whose pixel size is the character grid times the font cell. *)
Lemma TextMode_init_pixels cls nm vms cm kwargs m :
  TextMode_init cls nm vms cm kwargs = Ok m →
  is_text_mode m = Some true ∧ graphics m = None ∧
  kwargs !! "rows" ≫= (λ v, match as_int v with Ok n => Some n | Err _ => None end)
    = Some (height m) ∧
  kwargs !! "columns" ≫= (λ v, match as_int v with Ok n => Some n | Err _ => None end)
    = Some (width m) ∧
  pixel_height m = height m * font_height m ∧
  pixel_width m = width m * font_width m ∧
  memorymap m =
    Some (TextMapper (height m) (width m) vms
            (default VNone (kwargs !! "max_pages")) (default VNone (kwargs !! "mono"))).
Proof.
  unfold TextMode_init. intros H.
  inv_bind H.
  apply bind_Ok_inv in H as (rows & Hrows & H).
  apply bind_Ok_inv in H as (cols & Hcols & H).
  apply bind_Ok_inv in H as (fh & Hfh & H).
  apply bind_Ok_inv in H as (fw & Hfw & H).
  apply bind_Ok_inv in H as (at' & Hat & H).
  apply bind_Ok_inv in H as (mp & Hmp & H).
  apply bind_Ok_inv in H as (mono & Hmono & H).
  injection H as <-. cbn.
  unfold kwarg in *.
  destruct (kwargs !! "rows") as [vr|]; [|discriminate Hrows].
  destruct (kwargs !! "columns") as [vc|]; [|discriminate Hcols].
  destruct (kwargs !! "max_pages") as [vmp|]; [|discriminate Hmp].
  destruct (kwargs !! "mono") as [vmono|]; [|discriminate Hmono].
  cbn in *. rewrite Hrows, Hcols. injection Hmp as ->. injection Hmono as ->.
  repeat split; reflexivity.
Qed.

Lemma TextMode_init_pixels_witness :
  ∃ m, TextMode_init TextMode "cgatext40" 16384
         (mkColourMapper EGA16TextColourMapper "cga" "rgb")
         (dict_of [("rows", VInt 25); ("columns", VInt 40); ("font_height", VInt 8);
                   ("font_width", VInt 8); ("attr", VInt 7); ("max_pages", VInt 8);
                   ("mono", VBool false)]) = Ok m ∧
       pixel_height m = height m * font_height m ∧
       pixel_width m = width m * font_width m.
Proof.
  destruct (TextMode_init TextMode "cgatext40" 16384
         (mkColourMapper EGA16TextColourMapper "cga" "rgb")
         (dict_of [("rows", VInt 25); ("columns", VInt 40); ("font_height", VInt 8);
                   ("font_width", VInt 8); ("attr", VInt 7); ("max_pages", VInt 8);
                   ("mono", VBool false)])) as [m|] eqn:Hm;
    [|vm_compute in Hm; discriminate Hm].
  exists m. split; [reflexivity|].
  destruct (TextMode_init_pixels _ _ _ _ _ _ Hm) as (_ & _ & _ & _ & Hh & Hw & _).
  split; [exact Hh|exact Hw].
Defined.

(** The tuple keys of [_MODES] are [(0, 40)] and [(0, 80)], and each names a
    text definition of that width. *)
Lemma _MODES_text_columns adapter modes a c nm :
  _MODES !! adapter = Some modes → modes !! KPair a c = Some nm →
  a = 0 ∧
  (c = 40 ∧ nm ∈ ["vgatext40"; "egatext40"; "ega_monotext40"; "mdatext40";
                  "tandytext40"; "cgatext40"; "olivettitext40"] ∨
   c = 80 ∧ nm ∈ ["vgatext80"; "egatext80"; "ega_monotext80"; "mdatext80";
                  "tandytext80"; "cgatext80"; "olivettitext80"]).
Proof.
  intros H1 H2.
  pose (check := λ (_ : string) (key : mode_key) (nm : string),
    match key with
    | KNum _ => true
    | KPair a c =>
        (a =? 0) &&
        ((c =? 40) && in_names ["vgatext40"; "egatext40"; "ega_monotext40"; "mdatext40";
                                "tandytext40"; "cgatext40"; "olivettitext40"] nm
         || (c =? 80) && in_names ["vgatext80"; "egatext80"; "ega_monotext80"; "mdatext80";
                                   "tandytext80"; "cgatext80"; "olivettitext80"] nm)
    end).
  assert (check adapter (KPair a c) nm = true) as Hc.
  { apply (table_forall check _MODES) with (k1 := adapter) (t := modes);
      [vm_compute; reflexivity|exact H1|exact H2]. }
  unfold check in Hc.
  apply andb_true_iff in Hc as [Ha Hc]. split; [lia|].
  apply orb_true_iff in Hc as [Hc|Hc]; apply andb_true_iff in Hc as [Hcols Hin];
    apply in_names_elem_of in Hin; [left|right]; (split; [lia|exact Hin]).
Qed.

(** The shape of the text definitions, by width. *)
Lemma _get_text_mode_shape nm adapter monitor vms m cols :
  _get_text_mode nm adapter monitor vms = Ok m →
  cols = 40 ∧ nm ∈ ["vgatext40"; "egatext40"; "ega_monotext40"; "mdatext40";
                    "tandytext40"; "cgatext40"; "olivettitext40"] ∨
  cols = 80 ∧ nm ∈ ["vgatext80"; "egatext80"; "ega_monotext80"; "mdatext80";
                    "tandytext80"; "cgatext80"; "olivettitext80"] →
  is_text_mode m = Some true ∧ graphics m = None ∧
  height m = 25 ∧ width m = cols ∧
  pixel_height m = 25 * font_height m ∧ pixel_width m = cols * font_width m.
Proof.
  intros Hm [[-> Hin]|[-> Hin]];
    each_name Hin; vm_compute in Hm; injection Hm as <-;
    vm_compute; repeat split; auto.
Qed.

(** Screen 0 gives a text mode of 25 rows and exactly the requested number
    of columns, which is 40 or 80, on every adapter. *)
Lemma get_mode_text_shape cols adapter monitor vms m :
  get_mode 0 cols adapter monitor vms = Ok m →
  is_text_mode m = Some true ∧ graphics m = None ∧
  height m = 25 ∧ width m = cols ∧ (cols = 40 ∨ cols = 80) ∧
  pixel_height m = 25 * font_height m ∧ pixel_width m = cols * font_width m.
Proof.
  intros Hm. rewrite get_mode_unfold in Hm.
  destruct (mode_defined 0 cols adapter) as [nm|] eqn:Hd; [|discriminate Hm].
  cbn in Hm. unfold mode_defined in Hd.
  destruct (_MODES !! adapter) as [modes|] eqn:Ha; [|discriminate Hd].
  cbn in Hd.
  destruct (_MODES_text_columns _ _ _ _ _ Ha Hd) as (_ & Hnm).
  destruct (_get_text_mode_shape _ _ _ _ _ _ Hm Hnm) as (H1 & H2 & H3 & H4 & H5 & H6).
  repeat split; try assumption.
  destruct Hnm as [[-> _]|[-> _]]; [left|right]; reflexivity.
Qed.

Lemma get_mode_text_shape_witness :
  ∃ m, get_mode 0 80 "mda" "mono" 4096 = Ok m ∧ height m = 25 ∧ width m = 80.
Proof.
  destruct (get_mode 0 80 "mda" "mono" 4096) as [m|] eqn:Hm;
    [|vm_compute in Hm; discriminate Hm].
  exists m. split; [reflexivity|].
  destruct (get_mode_text_shape _ _ _ _ _ Hm) as (_ & _ & Hh & Hw & _).
  split; [exact Hh|exact Hw].
Defined.

(** ** Targets of the width switches *)

(** The column count of the graphics definitions. *)
Lemma _get_graphics_mode_columns nm adapter monitor vms m :
  _get_graphics_mode nm adapter monitor vms = Ok m →
  (nm ∈ ["160x200x16"] → width m = 20) ∧
  (nm ∈ ["320x200x4"; "320x200x4pcjr"; "320x200x16pcjr"; "320x200x16";
         "320x200x4_8pg"] → width m = 40) ∧
  (nm ∈ ["640x200x2"; "640x200x4"; "640x200x16"; "640x350x16"; "640x350x4";
         "640x400x2"; "720x348x2"; "640x200x2_8pg"] → width m = 80).
Proof.
  intros Hm. repeat split; intros Hin;
    each_name Hin; vm_compute in Hm; injection Hm as <-; reflexivity.
Qed.

(** Every entry [{columns: target}] of the width table leads to a screen
    number the adapter defines, whose graphics definition has that many
    columns, and which the table maps to itself for the same columns. *)
Lemma TO_WIDTH_targets adapter t key sw cols target :
  TO_WIDTH !! adapter = Some t → t !! key = Some sw → sw !! cols = Some target →
  (∃ nm, mode_defined target cols adapter = Some nm ∧
         (target = 0 ∨
          cols = 20 ∧ nm ∈ ["160x200x16"] ∨
          cols = 40 ∧ nm ∈ ["320x200x4"; "320x200x4pcjr"; "320x200x16pcjr";
                            "320x200x16"; "320x200x4_8pg"] ∨
          cols = 80 ∧ nm ∈ ["640x200x2"; "640x200x4"; "640x200x16"; "640x350x16";
                            "640x350x4"; "640x400x2"; "720x348x2"; "640x200x2_8pg"])) ∧
  ∃ sw', t !! WNum target = Some sw' ∧ sw' !! cols = Some target.
Proof.
  intros Ha Hk Hc.
  pose (names := λ (cols : Z) (nm : string),
    (cols =? 20) && in_names ["160x200x16"] nm
    || (cols =? 40) && in_names ["320x200x4"; "320x200x4pcjr"; "320x200x16pcjr";
                                 "320x200x16"; "320x200x4_8pg"] nm
    || (cols =? 80) && in_names ["640x200x2"; "640x200x4"; "640x200x16"; "640x350x16";
                                 "640x350x4"; "640x400x2"; "720x348x2";
                                 "640x200x2_8pg"] nm).
  pose (check := λ (adapter : string) (_ : width_key) (sw : gmap Z Z),
    forallb (λ e : Z * Z,
      match mode_defined e.2 e.1 adapter with
      | Some nm => (e.2 =? 0) || names e.1 nm
      | None => false
      end &&
      match TO_WIDTH !! adapter with
      | Some t =>
          match t !! WNum e.2 with
          | Some sw' => bool_decide (sw' !! e.1 = Some e.2)
          | None => false
          end
      | None => false
      end) (map_to_list sw)).
  assert (check adapter key sw = true) as Hall.
  { apply (table_forall check TO_WIDTH) with (k1 := adapter) (t := t);
      [vm_compute; reflexivity|exact Ha|exact Hk]. }
  unfold check in Hall. apply elem_of_map_to_list in Hc.
  pose proof (forallb_elem_of _ _ _ Hall Hc) as He. cbn in He.
  apply andb_true_iff in He as [H1 H2]. split.
  - destruct (mode_defined target cols adapter) as [nm|]; [|discriminate H1].
    exists nm. split; [reflexivity|].
    apply orb_true_iff in H1 as [H1|H1]; [left; lia|right].
    unfold names in H1.
    apply orb_true_iff in H1 as [H1|H1]; [apply orb_true_iff in H1 as [H1|H1]|];
      apply andb_true_iff in H1 as [Hcols Hin]; apply in_names_elem_of in Hin.
    + left. split; [lia|exact Hin].
    + right; left. split; [lia|exact Hin].
    + right; right. split; [lia|exact Hin].
  - rewrite Ha in H2.
    destruct (t !! WNum target) as [sw'|]; [|discriminate H2].
    exists sw'. split; [reflexivity|].
    exact (bool_decide_eq_true_1 _ H2).
Qed.

(** A WIDTH switch always lands in a mode the adapter has, and that mode has
    exactly the requested number of columns. *)
Lemma to_width_lands_in_columns adapter key cols target monitor vms :
  to_width adapter key cols = Ok target →
  ∃ m, get_mode target cols adapter monitor vms = Ok m ∧ width m = cols.
Proof.
  unfold to_width, dict_get. intros H.
  destruct (TO_WIDTH !! adapter) as [t|] eqn:Ha; [|discriminate H]. cbn in H.
  destruct (t !! key) as [sw|] eqn:Hk; [|discriminate H]. cbn in H.
  destruct (sw !! cols) as [y|] eqn:Hc; [|discriminate H]. injection H as ->.
  destruct (TO_WIDTH_targets _ _ _ _ _ _ Ha Hk Hc) as [(nm & Hd & Hnm) _].
  pose proof (mode_defined_names _ _ _ _ Hd) as Hin.
  rewrite get_mode_unfold, Hd.
  destruct (Z.eqb_spec target 0) as [->|Hn].
  - destruct (_get_text_mode_ok nm adapter monitor vms Hin) as (m & Hm & _).
    exists m. split; [exact Hm|].
    unfold mode_defined in Hd.
    destruct (_MODES !! adapter) as [modes|] eqn:Hmodes; [|discriminate Hd].
    cbn in Hd. destruct (_MODES_text_columns _ _ _ _ _ Hmodes Hd) as (_ & Hcols).
    by destruct (_get_text_mode_shape _ _ _ _ _ _ Hm Hcols) as (_ & _ & _ & Hw & _).
  - destruct (_get_graphics_mode_ok nm adapter monitor vms Hin) as (m & Hm & _).
    exists m. split; [exact Hm|].
    destruct (_get_graphics_mode_columns _ _ _ _ _ Hm) as (H20 & H40 & H80).
    destruct Hnm as [?|[[-> Hnm]|[[-> Hnm]|[-> Hnm]]]]; [contradiction|auto..].
Qed.

Lemma to_width_lands_in_columns_witness :
  ∃ m, get_mode 3 20 "pcjr" "rgb" 16384 = Ok m ∧ width m = 20.
Proof.
  apply (to_width_lands_in_columns "pcjr" (WNum 5) 20 3 "rgb" 16384).
  vm_compute. reflexivity.
Defined.

(** Repeating a WIDTH switch changes nothing: the target of a switch is
    mapped to itself for the same number of columns. *)
Lemma to_width_idempotent adapter key cols target :
  to_width adapter key cols = Ok target →
  to_width adapter (WNum target) cols = Ok target.
Proof.
  unfold to_width, dict_get. intros H.
  destruct (TO_WIDTH !! adapter) as [t|] eqn:Ha; [|discriminate H]. cbn in H.
  destruct (t !! key) as [sw|] eqn:Hk; [|discriminate H]. cbn in H.
  destruct (sw !! cols) as [y|] eqn:Hc; [|discriminate H]. injection H as ->.
  destruct (TO_WIDTH_targets _ _ _ _ _ _ Ha Hk Hc) as [_ (sw' & Hk' & Hc')].
  cbn. rewrite Hk'. cbn. rewrite Hc'. reflexivity.
Qed.

Lemma to_width_idempotent_witness :
  to_width "ega" (WNum 1) 40 = Ok 1.
Proof.
  apply (to_width_idempotent "ega" (WName "640x350x16") 40 1).
  vm_compute. reflexivity.
Defined.

(** ** Legacy mode numbers *)

(** The mode number is a byte; text modes give 0 to 3 or 7, graphics modes
    give 4 or more and never 7. *)
Lemma get_mode_number_ranges (mode_5 : ColourMapper → bool) (m : VideoMode) (cs : Z) :
  ∃ n, get_mode_number mode_5 m cs = Ok n ∧ 0 ≤ n ≤ 255 ∧
       if default false (is_text_mode m) then 0 ≤ n ≤ 3 ∨ n = 7
       else 4 ≤ n ∧ n ≠ 7.
Proof.
  unfold get_mode_number, except_KeyError, dict_get.
  destruct (default false (is_text_mode m)); cbv iota.
  - destruct (_ || _); [exists 7; split; [reflexivity|lia]|].
    eexists. split; [reflexivity|].
    pose proof (Z.mod_pos_bound cs 2 ltac:(lia)).
    destruct (width m =? 40); cbn [Z.b2z]; lia.
  - destruct (String.eqb _ _).
    + eexists. split; [reflexivity|]. destruct (mode_5 _); cbn [Z.b2z]; lia.
    + destruct (_MODE_NUMBER !! name m) as [n|] eqn:Hn; [|exists 255; split; [reflexivity|lia]].
      exists n. split; [reflexivity|].
      apply elem_of_map_to_list in Hn.
      assert (forallb (λ e : string * Z, (4 <=? e.2) && (e.2 <=? 255) && negb (e.2 =? 7))
                (map_to_list _MODE_NUMBER) = true) as Hall by (vm_compute; reflexivity).
      pose proof (forallb_elem_of _ _ _ Hall Hn) as He. cbn in He.
      apply andb_true_iff in He as [He H7]. apply andb_true_iff in He as [H4 H255].
      apply negb_true_iff in H7. lia.
Qed.

(** ** Text and pixel areas *)

Lemma py_floordiv_Ok (a b : Z) : b ≠ 0 → py_floordiv a b = Ok (a / b).
Proof. intros Hb. unfold py_floordiv. by destruct (Z.eqb_spec b 0). Qed.

(** [pixel_to_text_area] clamps both corners into the text screen, whatever
    the pixel coordinates, and keeps the corners in order. *)
Lemma pixel_to_text_area_clamped (m : VideoMode) (x0 y0 x1 y1 : Z) :
  font_width m ≠ 0 → font_height m ≠ 0 → 1 ≤ height m → 1 ≤ width m →
  ∃ r0 c0 r1 c1,
    pixel_to_text_area m x0 y0 x1 y1 = Ok (r0, c0, r1, c1) ∧
    1 ≤ r0 ≤ height m ∧ 1 ≤ r1 ≤ height m ∧
    1 ≤ c0 ≤ width m ∧ 1 ≤ c1 ≤ width m ∧
    (0 < font_width m → x0 ≤ x1 → c0 ≤ c1) ∧
    (0 < font_height m → y0 ≤ y1 → r0 ≤ r1).
Proof.
  intros Hfw Hfh Hh Hw. unfold pixel_to_text_area.
  rewrite !py_floordiv_Ok by done. cbn.
  do 4 eexists. split; [reflexivity|].
  repeat split; try lia.
  - intros Hpos Hx. pose proof (Z.div_le_mono x0 x1 (font_width m) Hpos Hx). lia.
  - intros Hpos Hy. pose proof (Z.div_le_mono y0 y1 (font_height m) Hpos Hy). lia.
Qed.

Lemma pixel_to_text_area_clamped_witness :
  ∃ r0 c0 r1 c1,
    pixel_to_text_area
      (VideoMode_init TextMode "cgatext80" 25 80 8 8 (VInt 7)
         (mkColourMapper EGA16TextColourMapper "cga" "rgb")) (-5) (-5) 10000 10000
    = Ok (r0, c0, r1, c1) ∧
    1 ≤ r0 ≤ 25 ∧ 1 ≤ r1 ≤ 25 ∧ 1 ≤ c0 ≤ 80 ∧ 1 ≤ c1 ≤ 80.
Proof.
  destruct (pixel_to_text_area_clamped
    (VideoMode_init TextMode "cgatext80" 25 80 8 8 (VInt 7)
       (mkColourMapper EGA16TextColourMapper "cga" "rgb")) (-5) (-5) 10000 10000)
    as (r0 & c0 & r1 & c1 & H & Hr0 & Hr1 & Hc0 & Hc1 & _); [cbn; lia..|].
  exists r0, c0, r1, c1. repeat split; try exact H; cbn in *; lia.
Defined.

(** For pixels inside the screen the corners of [pixel_to_text_area] are the
    cells [pixel_to_text_pos] gives. *)
Lemma pixel_to_text_area_inside (m : VideoMode) (x0 y0 x1 y1 : Z) :
  0 < font_width m → 0 < font_height m →
  0 ≤ x0 < width m * font_width m → 0 ≤ x1 < width m * font_width m →
  0 ≤ y0 < height m * font_height m → 0 ≤ y1 < height m * font_height m →
  ∃ r0 c0 r1 c1,
    pixel_to_text_pos m x0 y0 = Ok (r0, c0) ∧
    pixel_to_text_pos m x1 y1 = Ok (r1, c1) ∧
    pixel_to_text_area m x0 y0 x1 y1 = Ok (r0, c0, r1, c1).
Proof.
  intros Hfw Hfh Hx0 Hx1 Hy0 Hy1. unfold pixel_to_text_area, pixel_to_text_pos.
  rewrite !py_floordiv_Ok by lia. cbn.
  do 4 eexists. split; [reflexivity|]. split; [reflexivity|].
  assert (∀ x w f, 0 < f → 0 ≤ x < w * f → Z.min w (Z.max 1 (1 + x / f)) = 1 + x / f)
    as Hin.
  { intros x w f Hf Hx.
    pose proof (Z.div_pos x f ltac:(lia) Hf).
    assert (x / f < w) by (apply Z.div_lt_upper_bound; lia). lia. }
  by rewrite !Hin.
Qed.

Lemma pixel_to_text_area_inside_witness :
  ∃ r0 c0 r1 c1,
    pixel_to_text_pos
      (VideoMode_init TextMode "cgatext80" 25 80 8 8 (VInt 7)
         (mkColourMapper EGA16TextColourMapper "cga" "rgb")) 8 16 = Ok (r0, c0) ∧
    pixel_to_text_pos
      (VideoMode_init TextMode "cgatext80" 25 80 8 8 (VInt 7)
         (mkColourMapper EGA16TextColourMapper "cga" "rgb")) 639 199 = Ok (r1, c1) ∧
    pixel_to_text_area
      (VideoMode_init TextMode "cgatext80" 25 80 8 8 (VInt 7)
         (mkColourMapper EGA16TextColourMapper "cga" "rgb")) 8 16 639 199
    = Ok (r0, c0, r1, c1).
Proof.
  apply (pixel_to_text_area_inside
    (VideoMode_init TextMode "cgatext80" 25 80 8 8 (VInt 7)
       (mkColourMapper EGA16TextColourMapper "cga" "rgb")) 8 16 639 199); cbn; lia.
Defined.

(** [text_to_pixel_area] gives the pixel origin of an area together with its
    pixel extent less one, not its far corner: converted back, the second
    pair is the number of rows and columns of the area. *)
Lemma text_area_round_trip (m : VideoMode) (row0 col0 row1 col1 : Z) :
  0 < font_width m → 0 < font_height m →
  1 ≤ row0 → row0 ≤ row1 → row1 ≤ height m →
  1 ≤ col0 → col0 ≤ col1 → col1 ≤ width m →
  ∀ x0 y0 x1 y1, text_to_pixel_area m row0 col0 row1 col1 = (x0, y0, x1, y1) →
  pixel_to_text_area m x0 y0 x1 y1 = Ok (row0, col0, row1 - row0 + 1, col1 - col0 + 1).
Proof.
  intros Hfw Hfh Hr0 Hr Hr1 Hc0 Hc Hc1 x0 y0 x1 y1 [= <- <- <- <-].
  unfold pixel_to_text_area. rewrite !py_floordiv_Ok by lia. cbn.
  assert (∀ k f, 0 < f → (k * f - 1) / f = k - 1) as Hdiv.
  { intros k f Hf. replace (k * f - 1) with ((k - 1) * f + (f - 1)) by lia.
    rewrite Z.div_add_l by lia. rewrite Z.div_small by lia. lia. }
  rewrite !Hdiv by done. rewrite !Z.div_mul by lia.
  do 2 f_equal; [f_equal; [f_equal|]|]; lia.
Qed.

Lemma text_area_round_trip_witness :
  pixel_to_text_area
    (VideoMode_init TextMode "cgatext80" 25 80 8 8 (VInt 7)
       (mkColourMapper EGA16TextColourMapper "cga" "rgb")) 32 16 23 15
  = Ok (3, 5, 4 - 3 + 1, 7 - 5 + 1).
Proof.
  apply (text_area_round_trip
    (VideoMode_init TextMode "cgatext80" 25 80 8 8 (VInt 7)
       (mkColourMapper EGA16TextColourMapper "cga" "rgb")) 3 5 4 7);
    cbn; try lia; reflexivity.
Defined.

(** ** Equality of modes *)

(** The mode of a screen number compares equal to its name in the table and
    to the mode built for any other monitor and memory size: equality looks
    at the name alone. *)
Lemma get_mode_eq_any_monitor number cols adapter monitor1 vms1 monitor2 vms2 m1 m2 :
  get_mode number cols adapter monitor1 vms1 = Ok m1 →
  get_mode number cols adapter monitor2 vms2 = Ok m2 →
  mode_eq m1 m2 = true ∧
  ∃ nm, mode_defined number cols adapter = Some nm ∧ mode_eq_name m1 nm = true.
Proof.
  rewrite !get_mode_unfold.
  destruct (mode_defined number cols adapter) as [nm|] eqn:Hd; [|discriminate].
  pose proof (mode_defined_names _ _ _ _ Hd) as Hin.
  unfold mode_eq, mode_eq_name.
  destruct (number =? 0); intros H1 H2.
  - destruct (_get_text_mode_ok nm adapter monitor1 vms1 Hin) as (a & Ha & Hna & _).
    destruct (_get_text_mode_ok nm adapter monitor2 vms2 Hin) as (b & Hb & Hnb & _).
    rewrite Ha in H1. rewrite Hb in H2. injection H1 as <-. injection H2 as <-.
    rewrite Hna, Hnb. split; [apply String.eqb_refl|].
    exists nm. split; [reflexivity|apply String.eqb_refl].
  - destruct (_get_graphics_mode_ok nm adapter monitor1 vms1 Hin) as (a & Ha & Hna & _).
    destruct (_get_graphics_mode_ok nm adapter monitor2 vms2 Hin) as (b & Hb & Hnb & _).
    rewrite Ha in H1. rewrite Hb in H2. injection H1 as <-. injection H2 as <-.
    rewrite Hna, Hnb. split; [apply String.eqb_refl|].
    exists nm. split; [reflexivity|apply String.eqb_refl].
Qed.

Lemma get_mode_eq_any_monitor_witness :
  ∃ m1 m2, get_mode 1 40 "cga" "rgb" 16384 = Ok m1 ∧
           get_mode 1 40 "cga" "composite" 32768 = Ok m2 ∧
           mode_eq m1 m2 = true.
Proof.
  destruct (get_mode 1 40 "cga" "rgb" 16384) as [m1|] eqn:H1;
    [|vm_compute in H1; discriminate H1].
  destruct (get_mode 1 40 "cga" "composite" 32768) as [m2|] eqn:H2;
    [|vm_compute in H2; discriminate H2].
  exists m1, m2. split; [reflexivity|]. split; [reflexivity|].
  exact (proj1 (get_mode_eq_any_monitor _ _ _ _ _ _ _ _ _ H1 H2)).
Defined.

(** ** Bit depths of the graphics modes *)

Lemma _get_graphics_mode_depth nm adapter monitor vms m :
  nm ∈ graphics_names → _get_graphics_mode nm adapter monitor vms = Ok m →
  height m = 25 ∧
  match graphics m, memorymap m with
  | Some ga, Some (GraphicsMapper c h w v _ _ _ bpp planes) =>
      ∃ b, bitsperpixel ga = VInt b ∧ (b = 1 ∨ b = 2 ∨ b = 4) ∧ bpp = VInt b ∧
           builder_bits (build_tile ga) = VInt b ∧
           builder_bits (sprite_builder ga) = VInt b ∧
           c = _memorymapper (mode_class m) ∧
           h = pixel_height m ∧ w = pixel_width m ∧ v = vms ∧
           (is_Some planes ↔ mode_class m = EGAMode) ∧
           (pixel_width m * b) `mod` 8 = 0
  | _, _ => False
  end.
Proof.
  intros Hin H. unfold graphics_names in Hin.
  each_name Hin; vm_compute in H; injection H as <-;
    (split; [reflexivity|]); cbn; eexists;
    repeat match goal with |- _ ∧ _ => split end;
    first
      [ reflexivity
      | solve [auto]
      | split;
          [intros Hs; first [reflexivity | destruct Hs as [? Hs]; discriminate Hs]
          |intros He; first [eexists; reflexivity | discriminate He]] ].
Qed.

(** Every graphics mode has 25 text rows and 1, 2 or 4 bits per pixel, a
    whole number of bytes per pixel row, and hands the same bit depth to its
    memory mapper and to both builders; the mapper is built from the pixel
    size and the memory size, and gets a plane set on the EGA layout only. *)
Lemma get_mode_graphics_depth number cols adapter monitor vms m :
  number ≠ 0 → get_mode number cols adapter monitor vms = Ok m →
  height m = 25 ∧
  match graphics m, memorymap m with
  | Some ga, Some (GraphicsMapper c h w v _ _ _ bpp planes) =>
      ∃ b, bitsperpixel ga = VInt b ∧ (b = 1 ∨ b = 2 ∨ b = 4) ∧ bpp = VInt b ∧
           builder_bits (build_tile ga) = VInt b ∧
           builder_bits (sprite_builder ga) = VInt b ∧
           c = _memorymapper (mode_class m) ∧
           h = pixel_height m ∧ w = pixel_width m ∧ v = vms ∧
           (is_Some planes ↔ mode_class m = EGAMode) ∧
           (pixel_width m * b) `mod` 8 = 0
  | _, _ => False
  end.
Proof.
  intros Hn Hm.
  destruct (get_mode_graphics _ _ _ _ _ _ Hn Hm) as (nm & Hin & Hg).
  exact (_get_graphics_mode_depth _ _ _ _ _ Hin Hg).
Qed.

Lemma get_mode_graphics_depth_witness :
  ∃ m, get_mode 9 80 "ega" "rgb" 262144 = Ok m ∧ height m = 25.
Proof.
  destruct (get_mode 9 80 "ega" "rgb" 262144) as [m|] eqn:Hm;
    [|vm_compute in Hm; discriminate Hm].
  exists m. split; [reflexivity|].
  exact (proj1 (get_mode_graphics_depth 9 80 "ega" "rgb" 262144 m ltac:(lia) Hm)).
Defined.
